(** * Workflows of the Antilibrary monorepo: orchestration logic

    A shallow embedding of the Temporal workflows of the repository
    (order, payment v1/v2, security scan) and of the permission checks
    that gate them, together with the properties their specification
    states.

    The workflows are Go functions that interleave pure decisions with
    calls to activities and child workflows.  A workflow is embedded as
    a computation that reads the outcome of each call from an
    environment and appends every command it schedules to a history, so
    that both the returned value and the activities that were (or were
    not) dispatched can be stated in theorems. *)

From Stdlib Require Import ZArith Ascii String List Bool PrimFloat Lia.
From stdpp Require Import gmap strings list.

Set Warnings "-inexact-float".
Local Open Scope string_scope.
Local Open Scope Z_scope.

(** ** Go base types *)

(** [time.Time] and [time.Duration] as nanosecond counts; the zero value
    of a [time.Time] field is [0]. *)
Definition Time := Z.
Definition Duration := Z.
Definition Second : Duration := 1000000000.
Definition Minute : Duration := 60 * Second.

(** Go's [int] is 64 bits wide on the platforms Temporal workers run on;
    [count++] wraps around. *)
Definition int_min : Z := - 2 ^ 63.
Definition int_max : Z := 2 ^ 63 - 1.
Definition int_incr (n : Z) : Z := if n + 1 >? int_max then int_min else n + 1.

(** A Go [error] as the workflow sees it: the type name Temporal matches
    against [NonRetryableErrorTypes] and the text of [err.Error()]. *)
Record error := { Kind : string; Error : string }.

(** The outcome of awaiting an activity or a child workflow. *)
Inductive result (A : Type) : Type :=
| Ok (value : A)
| Err (err : error).
Arguments Ok {A} value.
Arguments Err {A} err.

(** ** Data model (structs of the [workflows] package) *)

Module OrderItem.
Record t := { BookID : string; Title : string; Quantity : Z; Price : float }.
End OrderItem.

Module OrderRequest.
Record t := {
  OrderID : string;
  CustomerID : string;
  Items : list OrderItem.t;
  TotalAmount : float }.
End OrderRequest.

Module OrderResult.
Record t := {
  OrderID : string;
  Status : string;
  PaymentID : string;
  ShippingLabel : string;
  CompletedAt : Time }.
End OrderResult.

Module PaymentRequest.
Record t := {
  OrderID : string;
  CustomerID : string;
  Amount : float;
  Currency : string }.
End PaymentRequest.

Module PaymentResult.
Record t := {
  TransactionID : string;
  Status : string;
  ProcessedAt : Time;
  ErrorMessage : string }.
End PaymentResult.

Module SecurityScanRequest.
Record t := {
  RepositoryURL : string;
  Branch : string;
  CommitSHA : string;
  ScanTypes : list string }.
End SecurityScanRequest.

Module Vulnerability.
Record t := {
  ID : string;
  Severity : string;
  Title : string;
  Description : string;
  FilePath : string;
  LineNumber : Z;
  Remediation : string }.
End Vulnerability.

Module SecurityScanResult.
Record t := {
  ScanID : string;
  Status : string;
  Vulnerabilities : list Vulnerability.t;
  CompletedAt : Time;
  ReportURL : string }.
End SecurityScanResult.

Module AgentContext.
Record t := { AgentID : string; SessionID : string; Permissions : list string }.
End AgentContext.

(** Activity results (activities.go). *)

Module InventoryResult.
Record t := { Available : bool; ReservedAt : Time; ReservationID : string }.
Definition zero : t := {| Available := false; ReservedAt := 0; ReservationID := "" |}.
End InventoryResult.

Module ShippingResult.
Record t := { TrackingNumber : string; Carrier : string; EstimatedDate : Time }.
Definition zero : t := {| TrackingNumber := ""; Carrier := ""; EstimatedDate := 0 |}.
End ShippingResult.

Module FraudCheckResult.
Record t := { RiskScore : float; Flags : list string; CheckedAt : Time }.
Definition zero : t := {| RiskScore := 0%float; Flags := []; CheckedAt := 0 |}.
End FraudCheckResult.

Module ChargeResult.
Record t := {
  TransactionID : string;
  Amount : float;
  Currency : string;
  ChargedAt : Time }.
Definition zero : t :=
  {| TransactionID := ""; Amount := 0%float; Currency := ""; ChargedAt := 0 |}.
End ChargeResult.

Module ScanTypeResult.
Record t := {
  ScanType : string;
  Vulnerabilities : list Vulnerability.t;
  Duration : Duration }.
Definition zero : t := {| ScanType := ""; Vulnerabilities := []; Duration := 0 |}.
End ScanTypeResult.

Module ReportResult.
Record t := { ReportID : string; URL : string }.
Definition zero : t := {| ReportID := ""; URL := "" |}.
End ReportResult.

Module NotificationRequest.
Record t := { Type_ : string; Count : Z; ScanID : string; AgentID : string }.
End NotificationRequest.

(** ** Permission checks *)

(** [hasPermission] of security_scan_workflow.go: a linear scan of the
    caller's permissions. *)
Fixpoint hasPermission (permissions : list string) (required : string) : bool :=
  match permissions with
  | [] => false
  | p :: rest =>
      if (p =? required)%string || (p =? "security:*")%string then true
      else hasPermission rest required
  end.

(** The TypeScript side (agents/context.ts). *)
Module Context.

(** The fields of the [AgentContext] interface; timestamps in
    milliseconds.  The untyped optional [metadata] bag plays no part in
    any check and is left out. *)
Record AgentContext := {
  agentId : string;
  sessionId : string;
  permissions : list string;
  createdAt : Z;
  expiresAt : Z }.

(** [Array.prototype.includes] on an array of strings. *)
Definition includes (xs : list string) (x : string) : bool :=
  existsb (fun y => (y =? x)%string) xs.

(** [s.includes(':')]. *)
Fixpoint includes_colon (s : string) : bool :=
  match s with
  | EmptyString => false
  | String c rest => if Ascii.eqb c ":"%char then true else includes_colon rest
  end.

(** [s.split(':')[0]]: the text before the first colon. *)
Fixpoint split_colon_head (s : string) : string :=
  match s with
  | EmptyString => EmptyString
  | String c rest =>
      if Ascii.eqb c ":"%char then EmptyString else String c (split_colon_head rest)
  end.

Definition contextHasPermission (context : AgentContext) (permission : string) : bool :=
  if includes_colon permission
     && includes (permissions context) (String.append (split_colon_head permission) ":*")
  then true
  else includes (permissions context) permission.

End Context.

(** ** Triage of scan findings *)

(** [countBySeverity]: the loop with its running [count]. *)
Fixpoint countBySeverity_from (count : Z) (vulns : list Vulnerability.t)
  (severity : string) : Z :=
  match vulns with
  | [] => count
  | v :: rest =>
      countBySeverity_from
        (if (Vulnerability.Severity v =? severity)%string then int_incr count else count)
        rest severity
  end.

Definition countBySeverity (vulns : list Vulnerability.t) (severity : string) : Z :=
  countBySeverity_from 0 vulns severity.

(** One [for ... range vulns] loop of [determineStatus]: does it reach its
    [return]? *)
Fixpoint findsSeverity (severity : string) (vulns : list Vulnerability.t) : bool :=
  match vulns with
  | [] => false
  | v :: rest =>
      if (Vulnerability.Severity v =? severity)%string then true
      else findsSeverity severity rest
  end.

Definition determineStatus (vulns : list Vulnerability.t) : string :=
  if findsSeverity "critical" vulns then "FAILED_CRITICAL"
  else if findsSeverity "high" vulns then "FAILED_HIGH"
  else if (0 <? Z.of_nat (length vulns)) then "PASSED_WITH_WARNINGS"
  else "PASSED".

(** ** The orchestration substrate, as the workflows use it *)

Module RetryPolicy.
Record t := {
  InitialInterval : Duration;
  BackoffCoefficient : float;
  MaximumInterval : Duration;
  MaximumAttempts : Z;
  NonRetryableErrorTypes : list string }.
End RetryPolicy.

Module ActivityOptions.
Record t := {
  StartToCloseTimeout : Duration;
  HeartbeatTimeout : Duration;
  RetryPolicy : RetryPolicy.t }.
End ActivityOptions.

(** The activities of activities.go, each with the input the workflow
    passes to it. *)
Inductive Activity : Type :=
| ValidateInventory (items : list OrderItem.t)
| GenerateShippingLabel (orderID : string)
| RefundPayment (transactionID : string)
| CheckFraud (request : PaymentRequest.t)
| CheckFraudV2 (request : PaymentRequest.t)
| ValidateCard (customerID : string)
| ChargePaymentMethod (request : PaymentRequest.t)
| ChargePaymentMethodV2 (request : PaymentRequest.t)
| SendPaymentConfirmation (transactionID : string)
| RunSASTScan (request : SecurityScanRequest.t)
| RunDASTScan (request : SecurityScanRequest.t)
| RunDependencyScan (request : SecurityScanRequest.t)
| RunSecretsScan (request : SecurityScanRequest.t)
| GenerateSecurityReport (vulnerabilities : list Vulnerability.t)
| NotifyComplianceTeam (notification : NotificationRequest.t).

(** What each activity returns besides its [error]. *)
Definition Output (a : Activity) : Type :=
  match a with
  | ValidateInventory _ => InventoryResult.t
  | GenerateShippingLabel _ => ShippingResult.t
  | RefundPayment _ => unit
  | CheckFraud _ | CheckFraudV2 _ => FraudCheckResult.t
  | ValidateCard _ => bool
  | ChargePaymentMethod _ | ChargePaymentMethodV2 _ => ChargeResult.t
  | SendPaymentConfirmation _ => unit
  | RunSASTScan _ | RunDASTScan _ | RunDependencyScan _ | RunSecretsScan _ =>
      ScanTypeResult.t
  | GenerateSecurityReport _ => ReportResult.t
  | NotifyComplianceTeam _ => unit
  end.

Definition activityName (a : Activity) : string :=
  match a with
  | ValidateInventory _ => "ValidateInventory"
  | GenerateShippingLabel _ => "GenerateShippingLabel"
  | RefundPayment _ => "RefundPayment"
  | CheckFraud _ => "CheckFraud"
  | CheckFraudV2 _ => "CheckFraudV2"
  | ValidateCard _ => "ValidateCard"
  | ChargePaymentMethod _ => "ChargePaymentMethod"
  | ChargePaymentMethodV2 _ => "ChargePaymentMethodV2"
  | SendPaymentConfirmation _ => "SendPaymentConfirmation"
  | RunSASTScan _ => "RunSASTScan"
  | RunDASTScan _ => "RunDASTScan"
  | RunDependencyScan _ => "RunDependencyScan"
  | RunSecretsScan _ => "RunSecretsScan"
  | GenerateSecurityReport _ => "GenerateSecurityReport"
  | NotifyComplianceTeam _ => "NotifyComplianceTeam"
  end.

(** The history of a run, in program order: what the workflow asks of the
    substrate ([ScheduleActivity], [StartChildWorkflow]) and, where it
    waits on a selector, each future a [Select] hands to its callback
    ([FutureDelivered], with the position at which the future was added to
    the selector). *)
Inductive Command : Type :=
| ScheduleActivity (options : ActivityOptions.t) (activity : Activity)
| StartChildWorkflow (workflowType : string) (workflowID : string)
    (request : PaymentRequest.t)
| FutureDelivered (position : nat).

Definition commandName (c : Command) : string :=
  match c with
  | ScheduleActivity _ a => activityName a
  | StartChildWorkflow workflowType _ _ => workflowType
  | FutureDelivered _ => "FutureDelivered"
  end.

(** The requests of a history: everything but the deliveries. *)
Definition isRequest (c : Command) : bool :=
  match c with
  | FutureDelivered _ => false
  | _ => true
  end.

Definition requests (history : list Command) : list Command :=
  List.filter isRequest history.

(** A [workflow.Future] is represented by the outcome it resolves to. *)
Definition Future (A : Type) : Type := result A.

(** Everything outside the workflow code:
    - [perform]: the final outcome of an activity for a given input, after
      the substrate has applied timeouts and the retry policy;
    - [childPayment]: the outcome of the payment child workflow for a
      workflow id and request;
    - [now]: the value of [workflow.Now];
    - [rangeOrder]: the order in which a [for ... range] visits the entries
      of the futures map (Go leaves it unspecified);
    - [selectReady]: which pending future the i-th [Select] delivers. *)
Record Env := {
  perform : ∀ a : Activity, result (Output a);
  childPayment : string → PaymentRequest.t → result PaymentResult.t;
  now : Time;
  rangeOrder :
    list (string * Future ScanTypeResult.t) → list (string * Future ScanTypeResult.t);
  selectReady : nat → nat }.

(** A [for ... range] over a map visits every entry exactly once. *)
Definition range_visits_each_once (env : Env) : Prop :=
  ∀ entries, rangeOrder env entries ≡ₚ entries.

(** Workflow code: reads the environment, extends the history. *)
Definition W (A : Type) : Type := Env → list Command → A * list Command.

Definition W_ret {A} (a : A) : W A := λ _ history, (a, history).
Definition W_bind {A B} (k : A → W B) (m : W A) : W B :=
  λ env history, let (a, history') := m env history in k a env history'.

#[global] Instance W_mret : MRet W := @W_ret.
#[global] Instance W_mbind : MBind W := @W_bind.

(** Go's return pair of a result pointer (possibly [nil]) and an [error]. *)
Definition Returns (A : Type) : Type := (option A * option error)%type.

(** A run from the empty history: [trace] gives what the workflow returns
    with the whole history, [run] with the requests it made. *)
Definition trace {A} (w : W A) (env : Env) : A * list Command := w env [].

Definition run {A} (w : W A) (env : Env) : A * list Command :=
  let (a, history) := trace w env in (a, requests history).

(** [workflow.ExecuteActivity(ctx, a, input)] with the options carried by
    [ctx]. *)
Definition ExecuteActivity (options : ActivityOptions.t) (a : Activity)
  : W (Future (Output a)) :=
  λ env history, (perform env a, (history ++ [ScheduleActivity options a])%list).

(** [workflow.ExecuteChildWorkflow(childCtx, PaymentWorkflow, request)]. *)
Definition ExecuteChildWorkflow (workflowID : string) (request : PaymentRequest.t)
  : W (Future PaymentResult.t) :=
  λ env history,
    (childPayment env workflowID request,
     (history ++ [StartChildWorkflow "PaymentWorkflow" workflowID request])%list).

(** [future.Get(ctx, &v)]: on success [v] is overwritten, on failure it
    keeps its value and the error is returned. *)
Definition Get {A} (future : Future A) (v : A) : A * option error :=
  match future with
  | Ok value => (value, None)
  | Err err => (v, Some err)
  end.

Definition Now : W Time := λ env history, (now env, history).

Definition rangeMap (futures : gmap string (Future ScanTypeResult.t))
  : W (list (string * Future ScanTypeResult.t)) :=
  λ env history, (rangeOrder env (map_to_list futures), history).

(** *** Selector *)

(** A selector counts the futures added to it and holds the callbacks of
    those not yet delivered, each with the position at which its future
    was added; a callback updates the local variables [V] it closes
    over. *)
Record Selector (V : Type) : Type := {
  added : nat;
  pending : list (nat * (V → V)) }.

Arguments added {V} _.
Arguments pending {V} _.

Definition NewSelector {V} : Selector V := {| added := 0; pending := [] |}.

Definition AddFuture {V A} (selector : Selector V) (future : Future A)
  (callback : Future A → V → V) : Selector V :=
  {| added := S (added selector);
     pending := (pending selector ++ [(added selector, callback future)])%list |}.

(** [selector.Select(ctx)] delivers one pending future: it runs the
    callback and tells which future that was; with nothing pending it
    blocks for ever ([None]). *)
Definition Select {V} (pick : nat) (selector : Selector V) (vars : V)
  : option (Selector V * V * nat) :=
  let k := (pick mod length (pending selector))%nat in
  match pending selector !! k with
  | Some (position, callback) =>
      Some ({| added := added selector; pending := delete k (pending selector) |},
            callback vars, position)
  | None => None
  end.

(** [for i := from; i < from + n; i++ { selector.Select(ctx) }]: every
    delivery is entered in the history. *)
Fixpoint selectLoop {V} (n : nat) (i : nat) (selector : Selector V) (vars : V)
  : W (option (Selector V * V)) :=
  match n with
  | O => mret (Some (selector, vars))
  | S n' =>
      λ env history,
        match Select (selectReady env i) selector vars with
        | Some (selector', vars', position) =>
            selectLoop n' (S i) selector' vars' env
              (history ++ [FutureDelivered position])%list
        | None => (None, history)
        end
  end.

(** [for i := 0; i < n; i++ { selector.Select(ctx) }]. *)
Definition SelectTimes {V} (n : nat) (selector : Selector V) (vars : V)
  : W (option (Selector V * V)) :=
  selectLoop n 0 selector vars.

(** *** Retry policy *)

(** Modelled from the spec: the RetryPolicy Evaluator and the Activity
    Invoker (sections 4.1 and 4.2).  The retry loop runs in the Temporal
    SDK and server, outside the repository; the workflows only attach a
    policy to their calls.  An attempt stops the loop when it succeeds,
    when the kind of its error is listed as non-retryable, or when the
    attempt budget is used up ([MaximumAttempts] 0 means no limit). *)
Definition isNonRetryable (policy : RetryPolicy.t) (err : error) : bool :=
  existsb (String.eqb (Kind err)) (RetryPolicy.NonRetryableErrorTypes policy).

Definition attemptsExhausted (policy : RetryPolicy.t) (attemptNumber : Z) : bool :=
  (RetryPolicy.MaximumAttempts policy >? 0)
  && (attemptNumber >=? RetryPolicy.MaximumAttempts policy).

(** [invoke policy n attempts]: the outcome delivered to the workflow when
    the attempts numbered [n], [n+1], ... end as listed in [attempts];
    [None] while the list ends before the loop stops. *)
Fixpoint invoke {A} (policy : RetryPolicy.t) (attemptNumber : Z)
  (attempts : list (result A)) : option (result A) :=
  match attempts with
  | [] => None
  | Ok value :: _ => Some (Ok value)
  | Err err :: rest =>
      if isNonRetryable policy err || attemptsExhausted policy attemptNumber
      then Some (Err err)
      else invoke policy (attemptNumber + 1) rest
  end.

(** ** Payment workflows (payment_workflow.go) *)

Definition paymentOptions : ActivityOptions.t :=
  {| ActivityOptions.StartToCloseTimeout := Minute * 2;
     ActivityOptions.HeartbeatTimeout := Second * 30;
     ActivityOptions.RetryPolicy :=
       {| RetryPolicy.InitialInterval := Second * 2;
          RetryPolicy.BackoffCoefficient := 2.0%float;
          RetryPolicy.MaximumInterval := Second * 30;
          RetryPolicy.MaximumAttempts := 5;
          RetryPolicy.NonRetryableErrorTypes :=
            ["FraudDetectedError"; "InsufficientFundsError"] |} |}.

Definition paymentOptionsV2 : ActivityOptions.t :=
  {| ActivityOptions.StartToCloseTimeout := Minute * 3;
     ActivityOptions.HeartbeatTimeout := Second * 45;
     ActivityOptions.RetryPolicy :=
       {| RetryPolicy.InitialInterval := Second;
          RetryPolicy.BackoffCoefficient := 1.5%float;
          RetryPolicy.MaximumInterval := Second * 15;
          RetryPolicy.MaximumAttempts := 3;
          RetryPolicy.NonRetryableErrorTypes :=
            ["FraudDetectedError"; "InsufficientFundsError"; "InvalidCardError"] |} |}.

Section PaymentV1.

(** [fmt.Sprintf("Risk score %.2f exceeds threshold", score)]: the text
    formatting of the Go library, taken as given. *)
Variable Sprintf_risk : float → string.

Definition PaymentWorkflow (request : PaymentRequest.t) : W (Returns PaymentResult.t) :=
  (* Step 1: Run fraud detection *)
  fraudFuture ← ExecuteActivity paymentOptions (CheckFraud request);
  let (fraudResult, err) := Get fraudFuture FraudCheckResult.zero in
  match err with
  | Some err =>
      mret (Some {| PaymentResult.TransactionID := "";
                    PaymentResult.Status := "FRAUD_CHECK_FAILED";
                    PaymentResult.ProcessedAt := 0;
                    PaymentResult.ErrorMessage := Error err |}, None)
  | None =>
      if (0.8 <? FraudCheckResult.RiskScore fraudResult)%float then
        mret (Some {| PaymentResult.TransactionID := "";
                      PaymentResult.Status := "FRAUD_SUSPECTED";
                      PaymentResult.ProcessedAt := 0;
                      PaymentResult.ErrorMessage :=
                        Sprintf_risk (FraudCheckResult.RiskScore fraudResult) |}, None)
      else
        (* Step 2: Charge payment method *)
        chargeFuture ← ExecuteActivity paymentOptions (ChargePaymentMethod request);
        let (chargeResult, err) := Get chargeFuture ChargeResult.zero in
        match err with
        | Some err =>
            mret (Some {| PaymentResult.TransactionID := "";
                          PaymentResult.Status := "CHARGE_FAILED";
                          PaymentResult.ProcessedAt := 0;
                          PaymentResult.ErrorMessage := Error err |}, None)
        | None =>
            (* Step 3: Send confirmation (fire and forget) *)
            _ ← ExecuteActivity paymentOptions
                  (SendPaymentConfirmation (ChargeResult.TransactionID chargeResult));
            processedAt ← Now;
            mret (Some {| PaymentResult.TransactionID :=
                            ChargeResult.TransactionID chargeResult;
                          PaymentResult.Status := "APPROVED";
                          PaymentResult.ProcessedAt := processedAt;
                          PaymentResult.ErrorMessage := "" |}, None)
        end
  end.

End PaymentV1.

(** The two variables the selector callbacks of [PaymentWorkflowV2]
    assign. *)
Record V2Locals := { fraudResult : FraudCheckResult.t; cardValid : bool }.

(** [func(f workflow.Future) { f.Get(ctx, &fraudResult) }]: the error of
    [Get] is dropped. *)
Definition onFraud (f : Future FraudCheckResult.t) (vars : V2Locals) : V2Locals :=
  {| fraudResult := fst (Get f (fraudResult vars)); cardValid := cardValid vars |}.

(** [func(f workflow.Future) { f.Get(ctx, &cardValid) }]. *)
Definition onCard (f : Future bool) (vars : V2Locals) : V2Locals :=
  {| fraudResult := fraudResult vars; cardValid := fst (Get f (cardValid vars)) |}.

(** [None]: the workflow never returns (blocked in [Select]). *)
Definition PaymentWorkflowV2 (request : PaymentRequest.t)
  : W (option (Returns PaymentResult.t)) :=
  let vars := {| fraudResult := FraudCheckResult.zero; cardValid := false |} in
  let selector : Selector V2Locals := NewSelector in
  fraudFuture ← ExecuteActivity paymentOptionsV2 (CheckFraudV2 request);
  let selector := AddFuture selector fraudFuture onFraud in
  cardFuture ← ExecuteActivity paymentOptionsV2
                 (ValidateCard (PaymentRequest.CustomerID request));
  let selector := AddFuture selector cardFuture onCard in
  delivered ← SelectTimes 2 selector vars;
  match delivered with
  | None => mret None
  | Some (_, vars) =>
      if negb (cardValid vars)
         || (0.75 <? FraudCheckResult.RiskScore (fraudResult vars))%float
      then
        mret (Some (Some {| PaymentResult.TransactionID := "";
                            PaymentResult.Status := "DECLINED";
                            PaymentResult.ProcessedAt := 0;
                            PaymentResult.ErrorMessage := "" |}, None))
      else
        chargeFuture ← ExecuteActivity paymentOptionsV2 (ChargePaymentMethodV2 request);
        let (chargeResult, err) := Get chargeFuture ChargeResult.zero in
        match err with
        | Some err => mret (Some (None, Some err))
        | None =>
            processedAt ← Now;
            mret (Some (Some {| PaymentResult.TransactionID :=
                                  ChargeResult.TransactionID chargeResult;
                                PaymentResult.Status := "APPROVED";
                                PaymentResult.ProcessedAt := processedAt;
                                PaymentResult.ErrorMessage := "" |}, None))
        end
  end.

(** ** Order workflow (order_workflow.go) *)

Definition orderOptions : ActivityOptions.t :=
  {| ActivityOptions.StartToCloseTimeout := Minute * 5;
     ActivityOptions.HeartbeatTimeout := 0;
     ActivityOptions.RetryPolicy :=
       {| RetryPolicy.InitialInterval := Second;
          RetryPolicy.BackoffCoefficient := 2.0%float;
          RetryPolicy.MaximumInterval := Minute;
          RetryPolicy.MaximumAttempts := 3;
          RetryPolicy.NonRetryableErrorTypes := [] |} |}.

Definition PaymentResult_zero : PaymentResult.t :=
  {| PaymentResult.TransactionID := ""; PaymentResult.Status := "";
     PaymentResult.ProcessedAt := 0; PaymentResult.ErrorMessage := "" |}.

Definition OrderWorkflow (request : OrderRequest.t) : W (Returns OrderResult.t) :=
  (* Step 1: Validate inventory availability *)
  inventoryFuture ← ExecuteActivity orderOptions
                      (ValidateInventory (OrderRequest.Items request));
  let (inventoryResult, err) := Get inventoryFuture InventoryResult.zero in
  match err with
  | Some err => mret (None, Some err)
  | None =>
  if negb (InventoryResult.Available inventoryResult) then
    mret (Some {| OrderResult.OrderID := OrderRequest.OrderID request;
                  OrderResult.Status := "INVENTORY_UNAVAILABLE";
                  OrderResult.PaymentID := "";
                  OrderResult.ShippingLabel := "";
                  OrderResult.CompletedAt := 0 |}, None)
  else
  (* Step 2: Process payment via child workflow *)
  let paymentRequest :=
    {| PaymentRequest.OrderID := OrderRequest.OrderID request;
       PaymentRequest.CustomerID := OrderRequest.CustomerID request;
       PaymentRequest.Amount := OrderRequest.TotalAmount request;
       PaymentRequest.Currency := "" |} in
  paymentFuture ← ExecuteChildWorkflow
                    ("payment-" ++ OrderRequest.OrderID request) paymentRequest;
  let (paymentResult, err) := Get paymentFuture PaymentResult_zero in
  match err with
  | Some err => mret (None, Some err)
  | None =>
  if negb (PaymentResult.Status paymentResult =? "APPROVED")%string then
    mret (Some {| OrderResult.OrderID := OrderRequest.OrderID request;
                  OrderResult.Status := "PAYMENT_DECLINED";
                  OrderResult.PaymentID := PaymentResult.TransactionID paymentResult;
                  OrderResult.ShippingLabel := "";
                  OrderResult.CompletedAt := 0 |}, None)
  else
  (* Step 3: Generate shipping label *)
  shippingFuture ← ExecuteActivity orderOptions
                     (GenerateShippingLabel (OrderRequest.OrderID request));
  let (shippingResult, err) := Get shippingFuture ShippingResult.zero in
  match err with
  | Some err =>
      (* Compensate: refund payment; the outcome of the refund is dropped *)
      refundFuture ← ExecuteActivity orderOptions
                       (RefundPayment (PaymentResult.TransactionID paymentResult));
      let _ := Get refundFuture tt in
      mret (None, Some err)
  | None =>
      completedAt ← Now;
      mret (Some {| OrderResult.OrderID := OrderRequest.OrderID request;
                    OrderResult.Status := "COMPLETED";
                    OrderResult.PaymentID := PaymentResult.TransactionID paymentResult;
                    OrderResult.ShippingLabel :=
                      ShippingResult.TrackingNumber shippingResult;
                    OrderResult.CompletedAt := completedAt |}, None)
  end
  end
  end.

(** ** Security scan workflow (security_scan_workflow.go) *)

Definition scanOptions : ActivityOptions.t :=
  {| ActivityOptions.StartToCloseTimeout := Minute * 30;
     ActivityOptions.HeartbeatTimeout := Minute * 2;
     ActivityOptions.RetryPolicy :=
       {| RetryPolicy.InitialInterval := Second * 5;
          RetryPolicy.BackoffCoefficient := 1.5%float;
          RetryPolicy.MaximumInterval := Minute * 2;
          RetryPolicy.MaximumAttempts := 2;
          RetryPolicy.NonRetryableErrorTypes := [] |} |}.

Definition reportOptions : ActivityOptions.t :=
  {| ActivityOptions.StartToCloseTimeout := Minute * 5;
     ActivityOptions.HeartbeatTimeout := 0;
     ActivityOptions.RetryPolicy :=
       {| RetryPolicy.InitialInterval := 0;
          RetryPolicy.BackoffCoefficient := 0%float;
          RetryPolicy.MaximumInterval := 0;
          RetryPolicy.MaximumAttempts := 3;
          RetryPolicy.NonRetryableErrorTypes := [] |} |}.

(** The fan-out loop: one iteration per entry of [request.ScanTypes]; the
    [switch] has no default case. *)
Fixpoint dispatchScans (request : SecurityScanRequest.t) (scanTypes : list string)
  (futures : gmap string (Future ScanTypeResult.t))
  : W (gmap string (Future ScanTypeResult.t)) :=
  match scanTypes with
  | [] => mret futures
  | scanType :: rest =>
      futures' ←
        (if (scanType =? "sast")%string then
           f ← ExecuteActivity scanOptions (RunSASTScan request);
           mret (<["sast" := f]> futures)
         else if (scanType =? "dast")%string then
           f ← ExecuteActivity scanOptions (RunDASTScan request);
           mret (<["dast" := f]> futures)
         else if (scanType =? "dependency")%string then
           f ← ExecuteActivity scanOptions (RunDependencyScan request);
           mret (<["dependency" := f]> futures)
         else if (scanType =? "secrets")%string then
           f ← ExecuteActivity scanOptions (RunSecretsScan request);
           mret (<["secrets" := f]> futures)
         else mret futures);
      dispatchScans request rest futures'
  end.

(** The join loop over the entries of the futures map, in the order the
    [range] visits them. *)
Fixpoint collectResults (entries : list (string * Future ScanTypeResult.t))
  (allVulnerabilities : list Vulnerability.t) : list Vulnerability.t :=
  match entries with
  | [] => allVulnerabilities
  | (scanType, future) :: rest =>
      let (scanResult, err) := Get future ScanTypeResult.zero in
      match err with
      | Some _ => collectResults rest allVulnerabilities
      | None =>
          collectResults rest
            (allVulnerabilities ++ ScanTypeResult.Vulnerabilities scanResult)%list
      end
  end.

Definition SecurityScanWorkflow (request : SecurityScanRequest.t)
  (agentCtx : AgentContext.t) : W (Returns SecurityScanResult.t) :=
  (* Validate agent has required permissions *)
  if negb (hasPermission (AgentContext.Permissions agentCtx) "security:scan:execute") then
    mret (Some {| SecurityScanResult.ScanID := "";
                  SecurityScanResult.Status := "PERMISSION_DENIED";
                  SecurityScanResult.Vulnerabilities := [];
                  SecurityScanResult.CompletedAt := 0;
                  SecurityScanResult.ReportURL := "" |}, None)
  else
  (* Run scan types in parallel *)
  futures ← dispatchScans request (SecurityScanRequest.ScanTypes request) ∅;
  (* Collect results *)
  entries ← rangeMap futures;
  let allVulnerabilities := collectResults entries [] in
  (* Generate report *)
  reportFuture ← ExecuteActivity reportOptions (GenerateSecurityReport allVulnerabilities);
  let (reportResult, _) := Get reportFuture ReportResult.zero in
  (* Notify compliance service for critical vulnerabilities *)
  let criticalCount := countBySeverity allVulnerabilities "critical" in
  _ ← (if criticalCount >? 0 then
         _ ← ExecuteActivity scanOptions
               (NotifyComplianceTeam
                  {| NotificationRequest.Type_ := "CRITICAL_VULNERABILITIES";
                     NotificationRequest.Count := criticalCount;
                     NotificationRequest.ScanID := ReportResult.ReportID reportResult;
                     NotificationRequest.AgentID := AgentContext.AgentID agentCtx |});
         mret tt
       else mret tt);
  completedAt ← Now;
  mret (Some {| SecurityScanResult.ScanID := ReportResult.ReportID reportResult;
                SecurityScanResult.Status := determineStatus allVulnerabilities;
                SecurityScanResult.Vulnerabilities := allVulnerabilities;
                SecurityScanResult.CompletedAt := completedAt;
                SecurityScanResult.ReportURL := ReportResult.URL reportResult |}, None).

(** The payment request the order workflow hands to its child. *)
Definition paymentRequestOf (request : OrderRequest.t) : PaymentRequest.t :=
  {| PaymentRequest.OrderID := OrderRequest.OrderID request;
     PaymentRequest.CustomerID := OrderRequest.CustomerID request;
     PaymentRequest.Amount := OrderRequest.TotalAmount request;
     PaymentRequest.Currency := "" |}.

(** What a run of the order workflow did, read off its history:
    the refund compensation was scheduled; the payment child was started
    and came back APPROVED; the shipping label was requested and failed. *)
Definition refund_triggered (history : list Command) : Prop :=
  ∃ options transactionID,
    ScheduleActivity options (RefundPayment transactionID) ∈ history.

Definition payment_approved (env : Env) (history : list Command) : Prop :=
  ∃ workflowType workflowID request r,
    StartChildWorkflow workflowType workflowID request ∈ history
    ∧ childPayment env workflowID request = Ok r
    ∧ PaymentResult.Status r = "APPROVED".

Definition shipping_failed (env : Env) (history : list Command) : Prop :=
  ∃ options orderID err,
    ScheduleActivity options (GenerateShippingLabel orderID) ∈ history
    ∧ perform env (GenerateShippingLabel orderID) = Err err.

(** The scan types the [switch] of the fan-out loop has a case for, and
    the activity each of them names. *)
Definition recognised (scanType : string) : bool :=
  (scanType =? "sast")%string || (scanType =? "dast")%string
  || (scanType =? "dependency")%string || (scanType =? "secrets")%string.

Definition scanActivityName (scanType : string) : string :=
  if (scanType =? "sast")%string then "RunSASTScan"
  else if (scanType =? "dast")%string then "RunDASTScan"
  else if (scanType =? "dependency")%string then "RunDependencyScan"
  else if (scanType =? "secrets")%string then "RunSecretsScan"
  else "".

(** The request with another list of scan types. *)
Definition withScanTypes (request : SecurityScanRequest.t) (scanTypes : list string)
  : SecurityScanRequest.t :=
  {| SecurityScanRequest.RepositoryURL := SecurityScanRequest.RepositoryURL request;
     SecurityScanRequest.Branch := SecurityScanRequest.Branch request;
     SecurityScanRequest.CommitSHA := SecurityScanRequest.CommitSHA request;
     SecurityScanRequest.ScanTypes := scanTypes |}.

(** The scan activities are handed the whole request; they answer two
    requests alike when each scan type has the same outcome for both. *)
Definition scans_agree (env : Env) (request request' : SecurityScanRequest.t) : Prop :=
  perform env (RunSASTScan request) = perform env (RunSASTScan request')
  ∧ perform env (RunDASTScan request) = perform env (RunDASTScan request')
  ∧ perform env (RunDependencyScan request) = perform env (RunDependencyScan request')
  ∧ perform env (RunSecretsScan request) = perform env (RunSecretsScan request').

(** What one entry of the futures map adds to the aggregate. *)
Definition scanFindings (entry : string * Future ScanTypeResult.t)
  : list Vulnerability.t :=
  match snd entry with
  | Ok scanResult => ScanTypeResult.Vulnerabilities scanResult
  | Err _ => []
  end.

(** The notification the workflow sends for [criticalCount] findings. *)
Definition notifyCommands (agentCtx : AgentContext.t) (report : ReportResult.t)
  (criticalCount : Z) : list Command :=
  if criticalCount >? 0 then
    [ScheduleActivity scanOptions
       (NotifyComplianceTeam
          {| NotificationRequest.Type_ := "CRITICAL_VULNERABILITIES";
             NotificationRequest.Count := criticalCount;
             NotificationRequest.ScanID := ReportResult.ReportID report;
             NotificationRequest.AgentID := AgentContext.AgentID agentCtx |})]
  else [].

(** ** Reading a history *)

(** The payment child workflow was started. *)
Definition child_started (history : list Command) : Prop :=
  ∃ workflowType workflowID request,
    StartChildWorkflow workflowType workflowID request ∈ history.

Definition isChildStart (c : Command) : bool :=
  match c with
  | StartChildWorkflow _ _ _ => true
  | ScheduleActivity _ _ => false
  | FutureDelivered _ => false
  end.

(** An activity of the given name was scheduled. *)
Definition scheduled (name : string) (history : list Command) : Prop :=
  ∃ options a, ScheduleActivity options a ∈ history ∧ activityName a = name.

(** The future the fan-out loop stores under a scan type: the outcome of
    the activity its [switch] case schedules; none for other strings. *)
Definition scanOutcome (env : Env) (request : SecurityScanRequest.t) (scanType : string)
  : option (Future ScanTypeResult.t) :=
  if (scanType =? "sast")%string then Some (perform env (RunSASTScan request))
  else if (scanType =? "dast")%string then Some (perform env (RunDASTScan request))
  else if (scanType =? "dependency")%string then
    Some (perform env (RunDependencyScan request))
  else if (scanType =? "secrets")%string then
    Some (perform env (RunSecretsScan request))
  else None.

(** The number of findings of a severity. *)
Definition severityCount (vulns : list Vulnerability.t) (severity : string) : nat :=
  length (List.filter (λ v, (Vulnerability.Severity v =? severity)%string) vulns).

(** ** The TypeScript agent layer (services/agents) *)

Module Agents.

Set Warnings "-register-all".

(** A value of TypeScript type [unknown] (request payloads, response data,
    objects handed to [JSON.stringify]); [JSIsoDate] stands for the text
    [toISOString] gives for a time value. *)
Inductive JSValue : Type :=
| JSNull
| JSBool (b : bool)
| JSNumber (n : Z)
| JSString (s : string)
| JSIsoDate (time : Z)
| JSArray (items : list JSValue)
| JSObject (fields : list (string * JSValue)).

(** What a call comes to: a value, or a thrown [Error] with its
    message.  An [async] function is a call whose caller awaits it; a
    rejected promise is a throw. *)
Inductive outcome (A : Type) : Type :=
| Returned (value : A)
| Thrown (message : string).
Arguments Returned {A} value.
Arguments Thrown {A} message.

(** *** registry.ts: data *)

Record RateLimitConfig := { requestsPerMinute : float; burstLimit : float }.

Record AgentConfig := {
  name : string;
  version : string;
  permissions : list string;
  rateLimit : option RateLimitConfig;
  metadata : option (gmap string string) }.

(** Dates are time values in milliseconds. *)
Record RegisteredAgent := {
  id : string;
  config : AgentConfig;
  registeredAt : Z;
  lastActiveAt : Z;
  sessionCount : Z }.

(** *** middleware.ts: data *)

Record AgentRequest := {
  context : Context.AgentContext;
  operation : string;
  payload : JSValue;
  timestamp : Z }.

Record AgentResponse := {
  success : bool;
  data : option JSValue;
  error : option string;
  requestId : string }.

(** A line on the console: plain text, or the object whose
    [JSON.stringify] text was printed. *)
Inductive Printed : Type :=
| Plain (text : string)
| Stringified (value : JSValue).

Inductive ConsoleLine : Type :=
| ConsoleLog (printed : Printed)
| ConsoleWarn (printed : Printed)
| ConsoleError (printed : Printed).

(** *** The state the modules share

    - [agents]: the [Map] of the registry singleton (only looked up by
      key here, so its insertion order is not kept);
    - [console]: the lines printed so far;
    - [indexCells]: the [index] variables of the running composed
      middlewares, one per invocation;
    - [wallClock], [clockReads]: the successive readings of
      [Date.now()] / [new Date()] and how many were taken;
    - [randomText], [randomDraws]: the successive values of
      [Math.random().toString(36)] and how many were drawn. *)
Record World := {
  agents : gmap string RegisteredAgent;
  console : list ConsoleLine;
  indexCells : list Z;
  wallClock : nat → Z;
  clockReads : nat;
  randomText : nat → string;
  randomDraws : nat }.

Definition M (A : Type) : Type := World → outcome A * World.

Definition M_ret {A} (a : A) : M A := λ w, (Returned a, w).
Definition M_bind {A B} (k : A → M B) (m : M A) : M B :=
  λ w, match m w with
       | (Returned a, w') => k a w'
       | (Thrown message, w') => (Thrown message, w')
       end.

#[global] Instance M_mret : MRet M := @M_ret.
#[global] Instance M_mbind : MBind M := @M_bind.

Definition throw {A} (message : string) : M A := λ w, (Thrown message, w).

(** [try { body } catch (error) { handler(error.message) }]. *)
Definition tryCatch {A} (body : M A) (handler : string → M A) : M A :=
  λ w, match body w with
       | (Returned a, w') => (Returned a, w')
       | (Thrown message, w') => handler message w'
       end.

Definition setAgents (agents' : gmap string RegisteredAgent) (w : World) : World :=
  {| agents := agents'; console := console w; indexCells := indexCells w;
     wallClock := wallClock w; clockReads := clockReads w;
     randomText := randomText w; randomDraws := randomDraws w |}.

Definition print (line : ConsoleLine) : M unit :=
  λ w, (Returned tt,
        {| agents := agents w; console := (console w ++ [line])%list;
           indexCells := indexCells w;
           wallClock := wallClock w; clockReads := clockReads w;
           randomText := randomText w; randomDraws := randomDraws w |}).

(** [Date.now()], and the time value of [new Date()]. *)
Definition DateNow : M Z :=
  λ w, (Returned (wallClock w (clockReads w)),
        {| agents := agents w; console := console w; indexCells := indexCells w;
           wallClock := wallClock w; clockReads := S (clockReads w);
           randomText := randomText w; randomDraws := randomDraws w |}).

(** [Math.random().toString(36)]. *)
Definition MathRandomText : M string :=
  λ w, (Returned (randomText w (randomDraws w)),
        {| agents := agents w; console := console w; indexCells := indexCells w;
           wallClock := wallClock w; clockReads := clockReads w;
           randomText := randomText w; randomDraws := S (randomDraws w) |}).

(** [n.toString(36)] for an integer. *)
Definition digit36 (d : Z) : ascii :=
  nth (Z.to_nat d) (list_ascii_of_string "0123456789abcdefghijklmnopqrstuvwxyz")
    "0"%char.

Fixpoint toString36_digits (fuel : nat) (n : Z) (acc : string) : string :=
  match fuel with
  | O => acc
  | S fuel' =>
      let acc' := String (digit36 (n mod 36)) acc in
      if n / 36 =? 0 then acc' else toString36_digits fuel' (n / 36) acc'
  end.

Definition toString36 (n : Z) : string :=
  if n <? 0 then "-" ++ toString36_digits (Z.to_nat (Z.log2 (- n)) + 1) (- n) ""
  else toString36_digits (Z.to_nat (Z.log2 n) + 1) n "".

(** [s.substring(from, to)] for [0 <= from <= to]. *)
Definition substring_from_to (from to : nat) (s : string) : string :=
  String.substring from (to - from) s.

(** *** registry.ts: the registry *)

(** [this.agents.get(id)] and [this.agents.set(id, agent)]. *)
Definition agentsGet (id : string) : M (option RegisteredAgent) :=
  λ w, (Returned (agents w !! id), w).

Definition agentsSet (id : string) (agent : RegisteredAgent) : M unit :=
  λ w, (Returned tt, setAgents (<[id := agent]> (agents w)) w).

Definition validPermissions : list string :=
  ["read"; "write"; "execute"; "security"; "security:scan:execute"; "security:*";
   "workflow:trigger"; "context:retrieve"].

(** [validatePermissions]: throws at the first permission outside the
    list. *)
Fixpoint validatePermissions (permissions : list string) : M unit :=
  match permissions with
  | [] => mret tt
  | perm :: rest =>
      if negb (Context.includes validPermissions perm)
      then throw ("Invalid permission: " ++ perm)
      else validatePermissions rest
  end.

Definition generateAgentId (name : string) : M string :=
  now ← DateNow;
  random ← MathRandomText;
  mret ("agent-" ++ name ++ "-" ++ toString36 now ++ "-"
        ++ substring_from_to 2 8 random).

(** [permissions.join(', ')]. *)
Definition join_comma (xs : list string) : string := String.concat ", " xs.

Definition register (config : AgentConfig) : M RegisteredAgent :=
  id ← generateAgentId (name config);
  (* Validate permissions *)
  _ ← validatePermissions (permissions config);
  registeredAt ← DateNow;
  lastActiveAt ← DateNow;
  let agent :=
    {| id := id; config := config; registeredAt := registeredAt;
       lastActiveAt := lastActiveAt; sessionCount := 0 |} in
  _ ← agentsSet id agent;
  _ ← print (ConsoleLog (Plain ("Agent registered: " ++ id ++ " with permissions: "
                                ++ join_comma (permissions config))));
  mret agent.

Definition legacyRegisterAgent (name : string) (permissions : list string)
  : M RegisteredAgent :=
  _ ← print (ConsoleWarn
               (Plain "legacyRegisterAgent is deprecated. Use register() instead."));
  register {| name := name; version := "0.0.0"; permissions := permissions;
              rateLimit := None; metadata := None |}.

(** [getAgent]: a hit stamps the stored agent with the current time. *)
Definition getAgent (id : string) : M (option RegisteredAgent) :=
  agent ← agentsGet id;
  match agent with
  | Some agent =>
      now ← DateNow;
      let agent' :=
        {| Agents.id := Agents.id agent; config := config agent;
           registeredAt := registeredAt agent; lastActiveAt := now;
           sessionCount := sessionCount agent |} in
      _ ← agentsSet id agent';
      mret (Some agent')
  | None => mret None
  end.

(** [permission.startsWith(prefix)]. *)
Definition startsWith (permission prefix : string) : bool := String.prefix prefix permission.

Definition hasPermission (agentId : string) (permission : string) : M bool :=
  agent ← agentsGet agentId;
  match agent with
  | None => mret false
  | Some agent =>
      let perms := permissions (config agent) in
      (* Check for wildcard permissions *)
      if Context.includes perms "security:*" && startsWith permission "security:"
      then mret true
      else mret (Context.includes perms permission)
  end.

(** [revoke]: [Map.delete] tells whether the key was present. *)
Definition revoke (agentId : string) : M bool :=
  λ w, (Returned (bool_decide (is_Some (agents w !! agentId))),
        setAgents (delete agentId (agents w)) w).

(** *** context.ts: session validity *)

(** [isContextValid]: [new Date() < context.expiresAt]. *)
Definition isContextValid (context : Context.AgentContext) : M bool :=
  now ← DateNow;
  mret (now <? Context.expiresAt context).

(** *** middleware.ts *)

Definition NextFunction : Type := M AgentResponse.
Definition Middleware : Type := AgentRequest → NextFunction → M AgentResponse.

Definition generateRequestId : M string :=
  now ← DateNow;
  random ← MathRandomText;
  mret ("req-" ++ toString36 now ++ "-" ++ substring_from_to 2 8 random).

Definition authMiddleware : Middleware := λ req next,
  (* Check if agent is registered *)
  agent ← getAgent (Context.agentId (context req));
  match agent with
  | None =>
      requestId ← generateRequestId;
      mret {| success := false; data := None;
              error := Some ("Agent not found: " ++ Context.agentId (context req));
              requestId := requestId |}
  | Some _ =>
      (* Check if session is valid *)
      valid ← isContextValid (context req);
      if negb valid then
        requestId ← generateRequestId;
        mret {| success := false; data := None;
                error := Some "Session expired. Please create a new context.";
                requestId := requestId |}
      else next
  end.

Definition requirePermission (requiredPermission : string) : Middleware := λ req next,
  (* Check for exact match *)
  if Context.includes (Context.permissions (context req)) requiredPermission then next
  else
    (* Check for wildcard match *)
    if Context.includes_colon requiredPermission
       && Context.includes (Context.permissions (context req))
            (String.append (Context.split_colon_head requiredPermission) ":*")
    then next
    else
      requestId ← generateRequestId;
      mret {| success := false; data := None;
              error := Some ("Permission denied: " ++ requiredPermission);
              requestId := requestId |}.

Definition loggingMiddleware : Middleware := λ req next,
  requestId ← generateRequestId;
  startTime ← DateNow;
  _ ← print (ConsoleLog (Stringified (JSObject
         [("event", JSString "agent_request_start");
          ("requestId", JSString requestId);
          ("agentId", JSString (Context.agentId (context req)));
          ("sessionId", JSString (Context.sessionId (context req)));
          ("operation", JSString (operation req));
          ("timestamp", JSIsoDate (timestamp req))])));
  tryCatch
    (response ← next;
     endTime ← DateNow;
     _ ← print (ConsoleLog (Stringified (JSObject
            [("event", JSString "agent_request_complete");
             ("requestId", JSString requestId);
             ("agentId", JSString (Context.agentId (context req)));
             ("operation", JSString (operation req));
             ("success", JSBool (success response));
             ("durationMs", JSNumber (endTime - startTime))])));
     mret {| success := success response; data := data response;
             error := error response; requestId := requestId |})
    (λ message,
       endTime ← DateNow;
       _ ← print (ConsoleError (Stringified (JSObject
              [("event", JSString "agent_request_error");
               ("requestId", JSString requestId);
               ("agentId", JSString (Context.agentId (context req)));
               ("operation", JSString (operation req));
               ("error", JSString message);
               ("durationMs", JSNumber (endTime - startTime))])));
       throw message).

(** The [index] variable of one invocation of a composed middleware. *)
Definition newIndex (value : Z) : M nat :=
  λ w, (Returned (length (indexCells w)),
        {| agents := agents w; console := console w;
           indexCells := (indexCells w ++ [value])%list;
           wallClock := wallClock w; clockReads := clockReads w;
           randomText := randomText w; randomDraws := randomDraws w |}).

Definition readIndex (cell : nat) : M Z :=
  λ w, (Returned (default (-1) (indexCells w !! cell)), w).

Definition writeIndex (cell : nat) (value : Z) : M unit :=
  λ w, (Returned tt,
        {| agents := agents w; console := console w;
           indexCells := <[cell := value]> (indexCells w);
           wallClock := wallClock w; clockReads := clockReads w;
           randomText := randomText w; randomDraws := randomDraws w |}).

(** [dispatch(i)], with [rest] the middlewares from position [i] on. *)
Fixpoint dispatch (cell : nat) (rest : list Middleware) (i : Z) (req : AgentRequest)
  (finalNext : NextFunction) : M AgentResponse :=
  index ← readIndex cell;
  if i <=? index then throw "next() called multiple times"
  else
    _ ← writeIndex cell i;
    match rest with
    | [] => finalNext
    | middleware :: rest' =>
        middleware req (dispatch cell rest' (i + 1) req finalNext)
    end.

Definition composeMiddleware (middlewares : list Middleware) : Middleware :=
  λ req finalNext,
    cell ← newIndex (-1);
    dispatch cell middlewares 0 req finalNext.

End Agents.

(** ** Scenarios

    Concrete environments: the activity bodies of activities.go and the
    mocks of the test files. *)

(** The activity bodies of activities.go.  They read the wall clock for
    time stamps and generated identifiers; the clock is fixed at 0 here. *)
Definition stubActivities (a : Activity) : result (Output a) :=
  match a with
  | ValidateInventory _ =>
      Ok {| InventoryResult.Available := true;
            InventoryResult.ReservedAt := 0;
            InventoryResult.ReservationID := "RES-0" |}
  | GenerateShippingLabel orderID =>
      Ok {| ShippingResult.TrackingNumber := "TRK-" ++ orderID ++ "-0";
            ShippingResult.Carrier := "FastShip";
            ShippingResult.EstimatedDate := 0 |}
  | RefundPayment _ => Ok tt
  | CheckFraud _ =>
      Ok {| FraudCheckResult.RiskScore := 0.15%float;
            FraudCheckResult.Flags := [];
            FraudCheckResult.CheckedAt := 0 |}
  | CheckFraudV2 _ =>
      Ok {| FraudCheckResult.RiskScore := 0.12%float;
            FraudCheckResult.Flags := [];
            FraudCheckResult.CheckedAt := 0 |}
  | ValidateCard _ => Ok true
  | ChargePaymentMethod request | ChargePaymentMethodV2 request =>
      Ok {| ChargeResult.TransactionID := "TXN-0";
            ChargeResult.Amount := PaymentRequest.Amount request;
            ChargeResult.Currency := PaymentRequest.Currency request;
            ChargeResult.ChargedAt := 0 |}
  | SendPaymentConfirmation _ => Ok tt
  | RunSASTScan _ =>
      Ok {| ScanTypeResult.ScanType := "sast";
            ScanTypeResult.Vulnerabilities := [];
            ScanTypeResult.Duration := Minute * 5 |}
  | RunDASTScan _ =>
      Ok {| ScanTypeResult.ScanType := "dast";
            ScanTypeResult.Vulnerabilities := [];
            ScanTypeResult.Duration := Minute * 10 |}
  | RunDependencyScan _ =>
      Ok {| ScanTypeResult.ScanType := "dependency";
            ScanTypeResult.Vulnerabilities :=
              [ {| Vulnerability.ID := "CVE-2023-12345";
                   Vulnerability.Severity := "medium";
                   Vulnerability.Title := "Prototype Pollution in lodash";
                   Vulnerability.Description := "Versions before 4.17.21 are vulnerable";
                   Vulnerability.FilePath := "package.json";
                   Vulnerability.LineNumber := 45;
                   Vulnerability.Remediation := "Upgrade lodash to >= 4.17.21" |} ];
            ScanTypeResult.Duration := Minute * 2 |}
  | RunSecretsScan _ =>
      Ok {| ScanTypeResult.ScanType := "secrets";
            ScanTypeResult.Vulnerabilities := [];
            ScanTypeResult.Duration := Minute * 1 |}
  | GenerateSecurityReport _ =>
      Ok {| ReportResult.ReportID := "SEC-0";
            ReportResult.URL := "https://security.example.com/reports/SEC-0" |}
  | NotifyComplianceTeam _ => Ok tt
  end.

(** An environment around given activities and child workflow: the map
    is ranged in the order [map_to_list] lists it and [Select] delivers
    the future added first. *)
Definition envOf (activities : ∀ a, result (Output a))
  (child : string → PaymentRequest.t → result PaymentResult.t) : Env :=
  {| perform := activities;
     childPayment := child;
     now := 1700000000 * Second;
     rangeOrder := λ entries, entries;
     selectReady := λ _, 0%nat |}.

(** The same environment with another iteration order of the map. *)
Definition withRangeOrder (env : Env)
  (order : list (string * Future ScanTypeResult.t)
           → list (string * Future ScanTypeResult.t)) : Env :=
  {| perform := perform env;
     childPayment := childPayment env;
     now := now env;
     rangeOrder := order;
     selectReady := selectReady env |}.

(** The same environment with another delivery order of ready futures. *)
Definition withSelectReady (env : Env) (pick : nat → nat) : Env :=
  {| perform := perform env;
     childPayment := childPayment env;
     now := now env;
     rangeOrder := rangeOrder env;
     selectReady := pick |}.

(** The child workflow mocked in TestOrderWorkflow_Success. *)
Definition approvedChild (_ : string) (_ : PaymentRequest.t) : result PaymentResult.t :=
  Ok {| PaymentResult.TransactionID := "txn-789";
        PaymentResult.Status := "APPROVED";
        PaymentResult.ProcessedAt := 0;
        PaymentResult.ErrorMessage := "" |}.

Definition stubEnv : Env := envOf stubActivities approvedChild.

(** The order of the order-workflow tests. *)
Definition order123 : OrderRequest.t :=
  {| OrderRequest.OrderID := "order-123";
     OrderRequest.CustomerID := "customer-456";
     OrderRequest.Items := [];
     OrderRequest.TotalAmount := 99.99%float |}.

(** The payment request of the payment-workflow tests. *)
Definition payment50 : PaymentRequest.t :=
  {| PaymentRequest.OrderID := "order-123";
     PaymentRequest.CustomerID := "customer-456";
     PaymentRequest.Amount := 50.00%float;
     PaymentRequest.Currency := "" |}.

(** The scan request and agents of the security-scan tests. *)
Definition scanRequest (scanTypes : list string) : SecurityScanRequest.t :=
  {| SecurityScanRequest.RepositoryURL := "https://github.com/example/repo";
     SecurityScanRequest.Branch := "main";
     SecurityScanRequest.CommitSHA := "abc123";
     SecurityScanRequest.ScanTypes := scanTypes |}.

Definition agent001 (permissions : list string) : AgentContext.t :=
  {| AgentContext.AgentID := "agent-001";
     AgentContext.SessionID := "session-xyz";
     AgentContext.Permissions := permissions |}.

Definition criticalVuln : Vulnerability.t :=
  {| Vulnerability.ID := "CVE-2024-99999";
     Vulnerability.Severity := "critical";
     Vulnerability.Title := "Remote Code Execution in core library";
     Vulnerability.Description := "";
     Vulnerability.FilePath := "go.mod";
     Vulnerability.LineNumber := 0;
     Vulnerability.Remediation := "" |}.

(** The finding the dependency scan of activities.go reports. *)
Definition lodashVuln : Vulnerability.t :=
  {| Vulnerability.ID := "CVE-2023-12345";
     Vulnerability.Severity := "medium";
     Vulnerability.Title := "Prototype Pollution in lodash";
     Vulnerability.Description := "Versions before 4.17.21 are vulnerable";
     Vulnerability.FilePath := "package.json";
     Vulnerability.LineNumber := 45;
     Vulnerability.Remediation := "Upgrade lodash to >= 4.17.21" |}.

(** [fmt.Sprintf] for the one risk score the payment tests use above
    the threshold. *)
Definition sprintfRisk (_ : float) : string := "Risk score 0.95 exceeds threshold".

(** TestPaymentWorkflow_FraudDetected: the fraud check reports 0.95. *)
Definition fraudDetectedActivities (a : Activity) : result (Output a) :=
  match a with
  | CheckFraud _ =>
      Ok {| FraudCheckResult.RiskScore := 0.95%float;
            FraudCheckResult.Flags := [];
            FraudCheckResult.CheckedAt := 0 |}
  | other => stubActivities other
  end.

Definition fraudDetectedEnv : Env := envOf fraudDetectedActivities approvedChild.

(** A transient failure of the payment gateway: its kind is none of
    the non-retryable kinds of either payment workflow. *)
Definition gatewayTimeout : error :=
  {| Kind := "GatewayTimeoutError"; Error := "payment gateway timed out" |}.

(** The fraud check passes (risk 0.15) and every attempt to charge ends
    in [gatewayTimeout]. *)
Definition chargeFailsActivities (a : Activity) : result (Output a) :=
  match a with
  | ChargePaymentMethod _ | ChargePaymentMethodV2 _ => Err gatewayTimeout
  | other => stubActivities other
  end.

Definition chargeFailsEnv : Env := envOf chargeFailsActivities approvedChild.

(** The payment request of TestPaymentWorkflowV2_Approved. *)
Definition payment75 : PaymentRequest.t :=
  {| PaymentRequest.OrderID := "order-123";
     PaymentRequest.CustomerID := "customer-456";
     PaymentRequest.Amount := 75.00%float;
     PaymentRequest.Currency := "" |}.

(** The fraud check reports 0.76, just above the v2 threshold; the card
    is valid. *)
Definition riskyActivities (a : Activity) : result (Output a) :=
  match a with
  | CheckFraudV2 _ =>
      Ok {| FraudCheckResult.RiskScore := 0.76%float;
            FraudCheckResult.Flags := [];
            FraudCheckResult.CheckedAt := 0 |}
  | other => stubActivities other
  end.

(** The card validation is delivered before the fraud check. *)
Definition riskyEnv : Env :=
  withSelectReady (envOf riskyActivities approvedChild) (λ _, 1%nat).

(** TestOrderWorkflow_InventoryUnavailable. *)
Definition unavailableActivities (a : Activity) : result (Output a) :=
  match a with
  | ValidateInventory _ =>
      Ok {| InventoryResult.Available := false;
            InventoryResult.ReservedAt := 0;
            InventoryResult.ReservationID := "" |}
  | other => stubActivities other
  end.

Definition unavailableEnv : Env := envOf unavailableActivities approvedChild.

(** The payment child ends with a soft status other than APPROVED. *)
Definition declinedChild (_ : string) (_ : PaymentRequest.t) : result PaymentResult.t :=
  Ok {| PaymentResult.TransactionID := "";
        PaymentResult.Status := "FRAUD_SUSPECTED";
        PaymentResult.ProcessedAt := 0;
        PaymentResult.ErrorMessage := "Risk score 0.95 exceeds threshold" |}.

Definition declinedEnv : Env := envOf stubActivities declinedChild.

(** Payment approved, then the carrier refuses the label and the refund
    fails as well. *)
Definition labelError : error :=
  {| Kind := "CarrierUnavailableError"; Error := "carrier API unavailable" |}.

Definition refundError : error :=
  {| Kind := "RefundRejectedError"; Error := "refund rejected by gateway" |}.

Definition shippingFailsActivities (a : Activity) : result (Output a) :=
  match a with
  | GenerateShippingLabel _ => Err labelError
  | RefundPayment _ => Err refundError
  | other => stubActivities other
  end.

Definition shippingFailsEnv : Env := envOf shippingFailsActivities approvedChild.

(** The SAST scan finds [criticalVuln]; the dependency scan reports the
    finding of activities.go. *)
Definition twoFindingsActivities (a : Activity) : result (Output a) :=
  match a with
  | RunSASTScan _ =>
      Ok {| ScanTypeResult.ScanType := "sast";
            ScanTypeResult.Vulnerabilities := [criticalVuln];
            ScanTypeResult.Duration := Minute * 5 |}
  | other => stubActivities other
  end.

Definition twoFindingsEnv : Env := envOf twoFindingsActivities approvedChild.

(** The mock of TestSecurityScanWorkflow_CriticalVulnerabilities,
    [env.OnActivity(RunDependencyScan, request)], set up for the request
    whose scan types are [mocked]: for that request the dependency scan
    finds [criticalVuln]; every other call is answered as in
    activities.go. *)
Definition mockedDependencyScan (mocked : list string) (a : Activity)
  : result (Output a) :=
  match a with
  | RunDependencyScan request =>
      if bool_decide (SecurityScanRequest.ScanTypes request = mocked) then
        Ok {| ScanTypeResult.ScanType := "dependency";
              ScanTypeResult.Vulnerabilities := [criticalVuln];
              ScanTypeResult.Duration := Minute * 2 |}
      else stubActivities (RunDependencyScan request)
  | other => stubActivities other
  end.

Definition mockedScanEnv (mocked : list string) : Env :=
  envOf (mockedDependencyScan mocked) approvedChild.

(** The confirmation mail cannot be sent. *)
Definition mailError : error :=
  {| Kind := "MailerError"; Error := "mail server unreachable" |}.

Definition confirmationFailsActivities (a : Activity) : result (Output a) :=
  match a with
  | SendPaymentConfirmation _ => Err mailError
  | other => stubActivities other
  end.

Definition confirmationFailsEnv : Env := envOf confirmationFailsActivities approvedChild.

(** The card validation itself fails; the fraud check reports 0.12. *)
Definition cardServiceError : error :=
  {| Kind := "CardServiceError"; Error := "card service unavailable" |}.

Definition cardCheckFailsActivities (a : Activity) : result (Output a) :=
  match a with
  | ValidateCard _ => Err cardServiceError
  | other => stubActivities other
  end.

Definition cardCheckFailsEnv : Env := envOf cardCheckFailsActivities approvedChild.

(** The v2 fraud check fails; the card is valid. *)
Definition fraudServiceError : error :=
  {| Kind := "FraudServiceError"; Error := "fraud service unavailable" |}.

Definition fraudCheckFailsActivities (a : Activity) : result (Output a) :=
  match a with
  | CheckFraud _ | CheckFraudV2 _ => Err fraudServiceError
  | other => stubActivities other
  end.

Definition fraudCheckFailsEnv : Env := envOf fraudCheckFailsActivities approvedChild.

(** The report service is down; the dependency scan finds [criticalVuln]
    (TestSecurityScanWorkflow_CriticalVulnerabilities without its report
    mock). *)
Definition reportError : error :=
  {| Kind := "ReportServiceError"; Error := "report service unavailable" |}.

Definition reportFailsActivities (a : Activity) : result (Output a) :=
  match a with
  | RunDependencyScan _ =>
      Ok {| ScanTypeResult.ScanType := "dependency";
            ScanTypeResult.Vulnerabilities := [criticalVuln];
            ScanTypeResult.Duration := Minute * 2 |}
  | GenerateSecurityReport _ => Err reportError
  | other => stubActivities other
  end.

Definition reportFailsEnv : Env := envOf reportFailsActivities approvedChild.

(** The SAST scanner crashes; the dependency scan reports its finding. *)
Definition scannerError : error :=
  {| Kind := "ScannerCrashedError"; Error := "SAST engine crashed" |}.

Definition sastFailsActivities (a : Activity) : result (Output a) :=
  match a with
  | RunSASTScan _ => Err scannerError
  | other => stubActivities other
  end.

Definition sastFailsEnv : Env := envOf sastFailsActivities approvedChild.

(** A world with an empty registry; the clock starts at 1700000000000 ms
    and advances by one millisecond per reading. *)
Definition freshWorld : Agents.World :=
  {| Agents.agents := ∅;
     Agents.console := [];
     Agents.indexCells := [];
     Agents.wallClock := λ n, 1700000000000 + Z.of_nat n;
     Agents.clockReads := 0;
     Agents.randomText := λ _, "0.4fzyo82mvyr";
     Agents.randomDraws := 0 |}.

(** The configuration of the example in registry.ts. *)
Definition claudeCode : Agents.AgentConfig :=
  {| Agents.name := "claude-code";
     Agents.version := "1.0.0";
     Agents.permissions := ["read"; "write"; "security:scan:execute"];
     Agents.rateLimit := None;
     Agents.metadata := None |}.

(** An agent that holds the security wildcard. *)
Definition scanner : Agents.AgentConfig :=
  {| Agents.name := "scanner";
     Agents.version := "1.0.0";
     Agents.permissions := ["read"; "security:*"];
     Agents.rateLimit := None;
     Agents.metadata := None |}.

(** A configuration with a permission outside the registry's list. *)
Definition overreaching : Agents.AgentConfig :=
  {| Agents.name := "overreaching";
     Agents.version := "1.0.0";
     Agents.permissions := ["read"; "workflow:*"; "admin"];
     Agents.rateLimit := None;
     Agents.metadata := None |}.

(** The scanner agent as [register] stores it in [freshWorld], the world
    that holds it, and a session context with its permissions. *)
Definition scannerAgent : Agents.RegisteredAgent :=
  {| Agents.id := "agent-scanner-loyw3v28-4fzyo8";
     Agents.config := scanner;
     Agents.registeredAt := 1700000000001;
     Agents.lastActiveAt := 1700000000002;
     Agents.sessionCount := 0 |}.

Definition scannerWorld : Agents.World :=
  {| Agents.agents := {[ "agent-scanner-loyw3v28-4fzyo8" := scannerAgent ]};
     Agents.console :=
       [Agents.ConsoleLog
          (Agents.Plain
             "Agent registered: agent-scanner-loyw3v28-4fzyo8 with permissions: read, security:*")];
     Agents.indexCells := [];
     Agents.wallClock := λ n, 1700000000000 + Z.of_nat n;
     Agents.clockReads := 3;
     Agents.randomText := λ _, "0.4fzyo82mvyr";
     Agents.randomDraws := 1 |}.

Definition scannerContext : Context.AgentContext :=
  {| Context.agentId := "agent-scanner-loyw3v28-4fzyo8";
     Context.sessionId := "session-xyz";
     Context.permissions := ["read"; "security:*"];
     Context.createdAt := 1700000000010;
     Context.expiresAt := 1700001800010 |}.

(** A middleware that calls [next()] again after the chain returned. *)
Definition callsNextTwice : Agents.Middleware :=
  λ req next, _ ← next; next.

(** A handler that answers every request. *)
Definition okHandler : Agents.NextFunction :=
  mret {| Agents.success := true; Agents.data := Some (Agents.JSString "done");
          Agents.error := None; Agents.requestId := "req-handler" |}.

(** A handler that throws. *)
Definition failingHandler : Agents.NextFunction :=
  Agents.throw "Workflow execution not implemented in demo".

(** A request of the scanner agent within its session. *)
Definition scannerRequest : Agents.AgentRequest :=
  {| Agents.context := scannerContext;
     Agents.operation := "validateChanges";
     Agents.payload := Agents.JSArray [Agents.JSString "services/agents/registry.ts"];
     Agents.timestamp := 1700000000020 |}.

(** * Properties *)

(** ** Unfolding workflow code *)

Ltac unfold_workflow :=
  unfold run, trace, ExecuteActivity, ExecuteChildWorkflow, Now, rangeMap, SelectTimes,
    mbind, W_mbind, W_bind, mret, W_mret, W_ret in *.

(** ** Triage of scan findings *)

Section Triage.

Implicit Types (vulns : list Vulnerability.t) (severity : string).

Lemma findsSeverity_spec severity vulns :
  findsSeverity severity vulns = true
  ↔ ∃ v, v ∈ vulns ∧ Vulnerability.Severity v = severity.
Proof.
  induction vulns as [|v rest IH]; simpl.
  - split; [discriminate | intros (v & Hv & _); by apply elem_of_nil in Hv].
  - destruct (String.eqb_spec (Vulnerability.Severity v) severity) as [Heq | Hne].
    + split; [| done]. intros _. exists v. split; [left | done].
    + rewrite IH. split.
      * intros (w & Hw & Hs). exists w. split; [by right | done].
      * intros (w & [-> | Hw]%elem_of_cons & Hs); [done | by exists w].
Qed.

Lemma findsSeverity_Permutation severity vulns vulns' :
  vulns ≡ₚ vulns' → findsSeverity severity vulns = findsSeverity severity vulns'.
Proof.
  intros Hperm. apply eq_true_iff_eq. rewrite !findsSeverity_spec.
  by setoid_rewrite Hperm.
Qed.

Lemma determineStatus_Permutation vulns vulns' :
  vulns ≡ₚ vulns' → determineStatus vulns = determineStatus vulns'.
Proof.
  intros Hperm. unfold determineStatus.
  rewrite (findsSeverity_Permutation "critical" _ _ Hperm).
  rewrite (findsSeverity_Permutation "high" _ _ Hperm).
  by rewrite (Permutation_length Hperm).
Qed.

Lemma countBySeverity_from_Permutation severity vulns vulns' :
  vulns ≡ₚ vulns' →
  ∀ count, countBySeverity_from count vulns severity
           = countBySeverity_from count vulns' severity.
Proof.
  induction 1 as [| v l l' _ IH | v w l | l l' l'' _ IH1 _ IH2]; intros count; simpl.
  - done.
  - apply IH.
  - by destruct (Vulnerability.Severity v =? severity)%string,
               (Vulnerability.Severity w =? severity)%string.
  - by rewrite IH1.
Qed.

Lemma countBySeverity_Permutation severity vulns vulns' :
  vulns ≡ₚ vulns' → countBySeverity vulns severity = countBySeverity vulns' severity.
Proof. intros Hperm. by apply countBySeverity_from_Permutation. Qed.

End Triage.

(** C4. The status of a scan is derived in fixed priority order: a
    critical finding gives FAILED_CRITICAL, else a high finding gives
    FAILED_HIGH, else any finding gives PASSED_WITH_WARNINGS, else PASSED;
    and every permutation of the findings has the same status. *)
Theorem determineStatus_priority (vulns : list Vulnerability.t) :
  let any severity := ∃ v, v ∈ vulns ∧ Vulnerability.Severity v = severity in
  (any "critical" → determineStatus vulns = "FAILED_CRITICAL")
  ∧ (¬ any "critical" → any "high" → determineStatus vulns = "FAILED_HIGH")
  ∧ (¬ any "critical" → ¬ any "high" → vulns ≠ [] →
     determineStatus vulns = "PASSED_WITH_WARNINGS")
  ∧ (vulns = [] → determineStatus vulns = "PASSED")
  ∧ (∀ vulns', vulns ≡ₚ vulns' → determineStatus vulns' = determineStatus vulns).
Proof.
  intros any. unfold determineStatus.
  pose proof (findsSeverity_spec "critical" vulns) as Hc.
  pose proof (findsSeverity_spec "high" vulns) as Hh.
  fold (any "critical") in Hc. fold (any "high") in Hh.
  repeat split.
  - intros H. apply Hc in H. by rewrite H.
  - intros Hnc H. apply Hh in H. rewrite H.
    destruct (findsSeverity "critical" vulns); [| done].
    exfalso. by apply Hnc, Hc.
  - intros Hnc Hnh Hne.
    destruct (findsSeverity "critical" vulns); [exfalso; by apply Hnc, Hc |].
    destruct (findsSeverity "high" vulns); [exfalso; by apply Hnh, Hh |].
    by destruct vulns.
  - by intros ->.
  - intros vulns' Hperm. symmetry. by apply determineStatus_Permutation.
Qed.

Lemma determineStatus_priority_witness :
  determineStatus [lodashVuln; criticalVuln] = "FAILED_CRITICAL"
  ∧ determineStatus [lodashVuln] = "PASSED_WITH_WARNINGS"
  ∧ determineStatus [] = "PASSED"
  ∧ determineStatus [criticalVuln; lodashVuln]
    = determineStatus [lodashVuln; criticalVuln].
Proof.
  pose proof (determineStatus_priority [lodashVuln; criticalVuln])
    as (Hcritical & _ & _ & _ & Hperm).
  pose proof (determineStatus_priority [lodashVuln]) as (_ & _ & Hwarn & _ & _).
  pose proof (determineStatus_priority []) as (_ & _ & _ & Hempty & _).
  cbv zeta in *.
  split; [| split; [| split]].
  - apply Hcritical. exists criticalVuln. split; [| reflexivity]. right. left.
  - apply Hwarn.
    + intros (v & Hv & Hs). apply list_elem_of_singleton in Hv. subst v. discriminate Hs.
    + intros (v & Hv & Hs). apply list_elem_of_singleton in Hv. subst v. discriminate Hs.
    + discriminate.
  - apply Hempty. reflexivity.
  - apply Hperm. apply perm_swap.
Defined.

(** ** Permission checks *)

Lemma hasPermission_spec (permissions : list string) (required : string) :
  hasPermission permissions required = true
  ↔ required ∈ permissions ∨ "security:*" ∈ permissions.
Proof.
  induction permissions as [|p rest IH]; simpl.
  - split; [discriminate | intros [H | H]; by apply elem_of_nil in H].
  - destruct (String.eqb_spec p required) as [-> | Hne]; simpl.
    { split; [| done]. intros _. left. left. }
    destruct (String.eqb_spec p "security:*") as [-> | Hne'].
    { split; [| done]. intros _. right. left. }
    rewrite IH, !elem_of_cons.
    split; [intros [?|?]; auto | intros [[?|?]|[?|?]]; auto; congruence].
Qed.

(** The wildcard check of context.ts is scoped: when it grants a
    permission that is not held literally, the permission starts with the
    category of the wildcard that granted it. *)
Lemma split_colon_head_prefix (s : string) :
  Context.includes_colon s = true →
  ∃ rest, s = (Context.split_colon_head s ++ ":" ++ rest)%string.
Proof.
  induction s as [|c s IH]; simpl; [discriminate |].
  destruct (Ascii.eqb_spec c ":"%char) as [-> | Hne].
  - intros _. by exists s.
  - intros [rest Hrest]%IH. exists rest. rewrite Hrest at 1. reflexivity.
Qed.

Lemma includes_spec (xs : list string) (x : string) :
  Context.includes xs x = true ↔ x ∈ xs.
Proof.
  unfold Context.includes. rewrite existsb_exists. split.
  - intros (y & Hy & ->%String.eqb_eq). by apply list_elem_of_In.
  - intros Hx. exists x. split; [by apply list_elem_of_In | apply String.eqb_refl].
Qed.

Lemma contextHasPermission_scoped (context : Context.AgentContext) (permission : string) :
  Context.contextHasPermission context permission = true →
  permission ∈ Context.permissions context
  ∨ ∃ category rest,
      permission = (category ++ ":" ++ rest)%string
      ∧ (category ++ ":*")%string ∈ Context.permissions context.
Proof.
  unfold Context.contextHasPermission.
  destruct (Context.includes_colon permission) eqn:Hcolon; simpl.
  - destruct (Context.includes _ (String.append _ _)) eqn:Hwild.
    + intros _. right. destruct (split_colon_head_prefix _ Hcolon) as [rest Hrest].
      exists (Context.split_colon_head permission), rest. split; [done |].
      by apply includes_spec.
    + intros H. left. by apply includes_spec.
  - intros H. left. by apply includes_spec.
Qed.

Lemma includes_colon_split_head (s : string) :
  Context.includes_colon (Context.split_colon_head s) = false.
Proof.
  induction s as [|c s IH]; simpl; [done |].
  destruct (Ascii.eqb_spec c ":"%char) as [-> | Hne]; simpl; [done |].
  destruct (Ascii.eqb_spec c ":"%char); [done | exact IH].
Qed.

Lemma split_colon_head_app (category rest : string) :
  Context.includes_colon category = false →
  Context.split_colon_head (category ++ ":" ++ rest) = category
  ∧ Context.includes_colon (category ++ ":" ++ rest) = true.
Proof.
  induction category as [|c category IH]; simpl; [done |].
  destruct (Ascii.eqb c ":"%char); [discriminate |].
  intros [-> ->]%IH. done.
Qed.


(** ** Security scan workflow: the permission gate *)

(** C7. A caller whose permissions contain neither "security:scan:execute"
    nor "security:*" gets the soft status PERMISSION_DENIED, no error, and
    no activity is scheduled. *)
Theorem SecurityScanWorkflow_permission_denied (env : Env)
  (request : SecurityScanRequest.t) (agentCtx : AgentContext.t) :
  "security:scan:execute" ∉ AgentContext.Permissions agentCtx →
  "security:*" ∉ AgentContext.Permissions agentCtx →
  run (SecurityScanWorkflow request agentCtx) env
  = ((Some {| SecurityScanResult.ScanID := "";
              SecurityScanResult.Status := "PERMISSION_DENIED";
              SecurityScanResult.Vulnerabilities := [];
              SecurityScanResult.CompletedAt := 0;
              SecurityScanResult.ReportURL := "" |}, None), []).
Proof.
  intros Hexec Hwild. unfold SecurityScanWorkflow.
  destruct (hasPermission _ _) eqn:Hperm; [| done].
  apply hasPermission_spec in Hperm. tauto.
Qed.

Lemma SecurityScanWorkflow_permission_denied_witness :
  run (SecurityScanWorkflow (scanRequest ["sast"]) (agent001 ["read:only"])) stubEnv
  = ((Some {| SecurityScanResult.ScanID := "";
              SecurityScanResult.Status := "PERMISSION_DENIED";
              SecurityScanResult.Vulnerabilities := [];
              SecurityScanResult.CompletedAt := 0;
              SecurityScanResult.ReportURL := "" |}, None), []).
Proof.
  apply SecurityScanWorkflow_permission_denied.
  - intros H. apply list_elem_of_singleton in H. discriminate H.
  - intros H. apply list_elem_of_singleton in H. discriminate H.
Defined.

(** ** Payment workflow v1 *)

Section PaymentWorkflowV1.

Variable Sprintf_risk : float → string.

(** C6. After a successful fraud check with risk score r the workflow
    ends with the soft status FRAUD_SUSPECTED and no error exactly when
    r > 0.8; otherwise it goes on to schedule the charge. *)
Theorem PaymentWorkflow_fraud_threshold (env : Env) (request : PaymentRequest.t)
  (fraud : FraudCheckResult.t) :
  perform env (CheckFraud request) = Ok fraud →
  let (returned, history) := run (PaymentWorkflow Sprintf_risk request) env in
  ((∃ r, returned = (Some r, None) ∧ PaymentResult.Status r = "FRAUD_SUSPECTED")
   ↔ (0.8 <? FraudCheckResult.RiskScore fraud)%float = true)
  ∧ ((0.8 <? FraudCheckResult.RiskScore fraud)%float = true →
     history = [ScheduleActivity paymentOptions (CheckFraud request)])
  ∧ ((0.8 <? FraudCheckResult.RiskScore fraud)%float = false →
     ScheduleActivity paymentOptions (ChargePaymentMethod request) ∈ history).
Proof.
  intros Hfraud. unfold PaymentWorkflow. unfold_workflow. simpl in *.
  rewrite Hfraud. simpl.
  destruct (0.8 <? FraudCheckResult.RiskScore fraud)%float eqn:Hrisk.
  - split; [| split]; [| done | done].
    split; [done |]. intros _. eexists. split; reflexivity.
  - destruct (perform env (ChargePaymentMethod request)) as [charge | err]; simpl.
    + split; [| split]; [| done |].
      * split; [| done]. intros (r & [= <-] & Hstatus). discriminate Hstatus.
      * intros _. right. left.
    + split; [| split]; [| done |].
      * split; [| done]. intros (r & [= <-] & Hstatus). discriminate Hstatus.
      * intros _. right. left.
Qed.

(** C3 (as amended). Payment workflow v1 never returns a workflow error:
    the error of either activity it awaits becomes a soft status that
    carries the error text, FRAUD_CHECK_FAILED for the fraud check and
    CHARGE_FAILED for the charge after a fraud check that passed. *)
Theorem PaymentWorkflow_errors_are_soft (env : Env) (request : PaymentRequest.t) :
  ∃ r, fst (run (PaymentWorkflow Sprintf_risk request) env) = (Some r, None)
    ∧ (∀ err, perform env (CheckFraud request) = Err err →
         PaymentResult.Status r = "FRAUD_CHECK_FAILED"
         ∧ PaymentResult.ErrorMessage r = Error err)
    ∧ (∀ fraud err,
         perform env (CheckFraud request) = Ok fraud →
         (0.8 <? FraudCheckResult.RiskScore fraud)%float = false →
         perform env (ChargePaymentMethod request) = Err err →
         PaymentResult.Status r = "CHARGE_FAILED"
         ∧ PaymentResult.ErrorMessage r = Error err).
Proof.
  unfold PaymentWorkflow. unfold_workflow. simpl.
  destruct (perform env (CheckFraud request)) as [fraud | err]; simpl.
  - destruct (0.8 <? FraudCheckResult.RiskScore fraud)%float eqn:Hrisk.
    { eexists. split; [reflexivity |]. split; [discriminate |].
      intros ? ? [= <-]. congruence. }
    destruct (perform env (ChargePaymentMethod request)) as [charge | err]; simpl.
    + eexists. split; [reflexivity |]. split; discriminate.
    + eexists. split; [reflexivity |]. split; [discriminate |].
      by intros ? ? _ _ [= <-].
  - eexists. split; [reflexivity |]. split; [| discriminate].
    by intros ? [= <-].
Qed.

End PaymentWorkflowV1.

Lemma PaymentWorkflow_fraud_threshold_witness :
  let (returned, history) := run (PaymentWorkflow sprintfRisk payment50) fraudDetectedEnv in
  ((∃ r, returned = (Some r, None) ∧ PaymentResult.Status r = "FRAUD_SUSPECTED")
   ↔ (0.8 <? 0.95)%float = true)
  ∧ ((0.8 <? 0.95)%float = true →
     history = [ScheduleActivity paymentOptions (CheckFraud payment50)])
  ∧ ((0.8 <? 0.95)%float = false →
     ScheduleActivity paymentOptions (ChargePaymentMethod payment50) ∈ history).
Proof.
  exact (PaymentWorkflow_fraud_threshold sprintfRisk fraudDetectedEnv payment50
           {| FraudCheckResult.RiskScore := 0.95%float;
              FraudCheckResult.Flags := [];
              FraudCheckResult.CheckedAt := 0 |} eq_refl).
Defined.

(** The claim as stated fails: with a fraud check that passes (0.15) and a
    charge whose five attempts all end in a retryable error, the workflow
    returns CHARGE_FAILED and a nil error. *)
Lemma PaymentWorkflow_charge_failure_not_an_error :
  (∃ fraud, perform chargeFailsEnv (CheckFraud payment50) = Ok fraud
            ∧ (FraudCheckResult.RiskScore fraud <=? 0.8)%float = true)
  ∧ isNonRetryable (ActivityOptions.RetryPolicy paymentOptions) gatewayTimeout = false
  ∧ invoke (ActivityOptions.RetryPolicy paymentOptions) 1
      (replicate 5 (Err gatewayTimeout))
    = Some (perform chargeFailsEnv (ChargePaymentMethod payment50))
  ∧ invoke (ActivityOptions.RetryPolicy paymentOptions) 1
      (replicate 4 (Err gatewayTimeout))
    = @None (result ChargeResult.t)
  ∧ fst (run (PaymentWorkflow sprintfRisk payment50) chargeFailsEnv)
    = (Some {| PaymentResult.TransactionID := "";
               PaymentResult.Status := "CHARGE_FAILED";
               PaymentResult.ProcessedAt := 0;
               PaymentResult.ErrorMessage := "payment gateway timed out" |}, None).
Proof.
  split; [| repeat split].
  eexists. split; reflexivity.
Qed.

Lemma PaymentWorkflow_errors_are_soft_witness :
  ∃ r, fst (run (PaymentWorkflow sprintfRisk payment50) chargeFailsEnv) = (Some r, None)
    ∧ PaymentResult.Status r = "CHARGE_FAILED"
    ∧ PaymentResult.ErrorMessage r = "payment gateway timed out".
Proof.
  destruct (PaymentWorkflow_errors_are_soft sprintfRisk chargeFailsEnv payment50)
    as (r & Hrun & _ & Hcharge).
  exists r. split; [exact Hrun |].
  exact (Hcharge
           {| FraudCheckResult.RiskScore := 0.15%float;
              FraudCheckResult.Flags := [];
              FraudCheckResult.CheckedAt := 0 |}
           gatewayTimeout eq_refl eq_refl eq_refl).
Defined.

(** ** Payment workflow v2 *)

Section SelectorFacts.

Context {V : Type}.
Implicit Types (f g : V → V) (vars : V).

Lemma Select_one pick n p f vars :
  Select pick {| added := n; pending := [(p, f)] |} vars
  = Some ({| added := n; pending := [] |}, f vars, p).
Proof.
  unfold Select. cbn [pending added]. change (length [(p, f)]) with 1%nat.
  by rewrite Nat.mod_1_r.
Qed.

Lemma Select_two pick n p q f g vars :
  Select pick {| added := n; pending := [(p, f); (q, g)] |} vars
  = if (pick mod 2 =? 0)%nat
    then Some ({| added := n; pending := [(q, g)] |}, f vars, p)
    else Some ({| added := n; pending := [(p, f)] |}, g vars, q).
Proof.
  unfold Select. cbn [pending added]. change (length [(p, f); (q, g)]) with 2%nat.
  pose proof (Nat.mod_upper_bound pick 2) as Hlt.
  destruct (pick mod 2)%nat as [|[|k]]; [done | done | lia].
Qed.

(** Two [Select]s on a selector to which two futures were added deliver
    both, in the order the substrate chooses, and leave nothing pending;
    each delivery is entered in the history. *)
Lemma selectLoop_two (env : Env) (history : list Command) f g vars :
  let selector := {| added := 2; pending := [(0%nat, f); (1%nat, g)] |} in
  let first := (selectReady env 0 mod 2)%nat in
  selectLoop 2 0 selector vars env history
  = (Some ({| added := 2; pending := [] |},
           if (first =? 0)%nat then g (f vars) else f (g vars)),
     (history ++ [FutureDelivered first; FutureDelivered (1 - first)])%list).
Proof.
  intros selector first. subst selector first.
  cbn [selectLoop]. rewrite Select_two.
  pose proof (Nat.mod_upper_bound (selectReady env 0) 2) as Hlt.
  destruct (selectReady env 0 mod 2)%nat as [|[|k]]; [| | lia];
    cbn [Nat.eqb]; rewrite Select_one; cbn [Nat.sub];
    unfold mret, W_mret, W_ret; by rewrite <- app_assoc.
Qed.

End SelectorFacts.

Lemma selectLoop_fraud_card (env : Env) (history : list Command)
  (fraudFuture : Future FraudCheckResult.t) (cardFuture : Future bool)
  (vars : V2Locals) :
  selectLoop 2 0
    (AddFuture (AddFuture NewSelector fraudFuture onFraud) cardFuture onCard)
    vars env history
  = (Some ({| added := 2; pending := [] |},
           {| fraudResult := fst (Get fraudFuture (fraudResult vars));
              cardValid := fst (Get cardFuture (cardValid vars)) |}),
     (history ++ [FutureDelivered (selectReady env 0 mod 2);
                  FutureDelivered (1 - selectReady env 0 mod 2)])%list).
Proof.
  unfold AddFuture, NewSelector. cbn [added pending app].
  rewrite (selectLoop_two env history (onFraud fraudFuture) (onCard cardFuture) vars).
  by destruct (_ =? _)%nat.
Qed.

Local Arguments selectLoop : simpl never.

(** The run of [PaymentWorkflowV2] does not depend on which of the two
    futures [Select] delivers first. *)
Lemma PaymentWorkflowV2_arrival_order (env : Env) (request : PaymentRequest.t)
  (pick : nat → nat) :
  run (PaymentWorkflowV2 request) (withSelectReady env pick)
  = run (PaymentWorkflowV2 request) env.
Proof.
  unfold PaymentWorkflowV2. unfold_workflow. simpl.
  rewrite !selectLoop_fraud_card. simpl.
  destruct (_ || _); simpl; [done |].
  by destruct (perform env (ChargePaymentMethodV2 request)).
Qed.

(** C5. In payment workflow v2 both parallel results are delivered before
    the decision is taken: the history of a run begins with the two
    activities and the deliveries of both futures (the fraud check's and
    the card validation's, in the order the substrate chooses), and only
    after them holds what the decision caused, nothing when it declines
    and the charge otherwise.  With risk score r and card validity v the
    workflow returns, and returns DECLINED with no error exactly when the
    card is invalid or r > 0.75, whichever result arrives first. *)
Theorem PaymentWorkflowV2_decision (env : Env) (request : PaymentRequest.t)
  (fraud : FraudCheckResult.t) (valid : bool) :
  perform env (CheckFraudV2 request) = Ok fraud →
  perform env (ValidateCard (PaymentRequest.CustomerID request)) = Ok valid →
  (∃ returned first second decided,
     trace (PaymentWorkflowV2 request) env
     = (Some returned,
        [ScheduleActivity paymentOptionsV2 (CheckFraudV2 request);
         ScheduleActivity paymentOptionsV2
           (ValidateCard (PaymentRequest.CustomerID request));
         FutureDelivered first;
         FutureDelivered second] ++ decided)%list
     ∧ first = (selectReady env 0 mod 2)%nat
     ∧ ((first = 0 ∧ second = 1) ∨ (first = 1 ∧ second = 0))%nat
     ∧ (decided = []
        ↔ valid = false ∨ (0.75 <? FraudCheckResult.RiskScore fraud)%float = true)
     ∧ (decided = []
        ∨ decided
          = [ScheduleActivity paymentOptionsV2 (ChargePaymentMethodV2 request)]))
  ∧ (∃ returned history,
       run (PaymentWorkflowV2 request) env = (Some returned, history)
       ∧ ((∃ r, returned = (Some r, None) ∧ PaymentResult.Status r = "DECLINED")
          ↔ valid = false ∨ (0.75 <? FraudCheckResult.RiskScore fraud)%float = true))
  ∧ (∀ pick, run (PaymentWorkflowV2 request) (withSelectReady env pick)
             = run (PaymentWorkflowV2 request) env).
Proof.
  intros Hfraud Hcard. split; [| split].
  - unfold PaymentWorkflowV2. unfold_workflow. simpl in *.
    rewrite Hfraud, Hcard, selectLoop_fraud_card. simpl.
    pose proof (Nat.mod_upper_bound (selectReady env 0) 2) as Hlt.
    assert (Horder : ((selectReady env 0 mod 2 = 0 ∧ 1 - selectReady env 0 mod 2 = 1)
                      ∨ (selectReady env 0 mod 2 = 1 ∧ 1 - selectReady env 0 mod 2 = 0))%nat)
      by lia.
    destruct valid; simpl.
    + destruct (0.75 <? FraudCheckResult.RiskScore fraud)%float eqn:Hrisk.
      * exists (Some {| PaymentResult.TransactionID := "";
                        PaymentResult.Status := "DECLINED";
                        PaymentResult.ProcessedAt := 0;
                        PaymentResult.ErrorMessage := "" |}, None),
          (selectReady env 0 mod 2)%nat, (1 - selectReady env 0 mod 2)%nat, [].
        split; [reflexivity |]. split; [reflexivity |]. split; [exact Horder |].
        split; [| by left]. split; [by right | done].
      * destruct (perform env (ChargePaymentMethodV2 request)) as [charge | err]; simpl;
          (eexists _, (selectReady env 0 mod 2)%nat, (1 - selectReady env 0 mod 2)%nat,
             [ScheduleActivity paymentOptionsV2 (ChargePaymentMethodV2 request)]);
          (split; [reflexivity |]); (split; [reflexivity |]); (split; [exact Horder |]);
          (split; [| by right]); (split; [discriminate | by intros [? | ?]]).
    + exists (Some {| PaymentResult.TransactionID := "";
                      PaymentResult.Status := "DECLINED";
                      PaymentResult.ProcessedAt := 0;
                      PaymentResult.ErrorMessage := "" |}, None),
        (selectReady env 0 mod 2)%nat, (1 - selectReady env 0 mod 2)%nat, [].
      split; [reflexivity |]. split; [reflexivity |]. split; [exact Horder |].
      split; [| by left]. split; [by left | done].
  - unfold PaymentWorkflowV2. unfold_workflow. simpl in *.
    rewrite Hfraud, Hcard, selectLoop_fraud_card. simpl.
    destruct valid; simpl.
    + destruct (0.75 <? FraudCheckResult.RiskScore fraud)%float eqn:Hrisk.
      * do 2 eexists. split; [reflexivity |].
        split; [by right |]. intros _. eexists. split; reflexivity.
      * destruct (perform env (ChargePaymentMethodV2 request)) as [charge | err]; simpl;
          (do 2 eexists; split; [reflexivity |]); (split; [| by intros [? | ?]]).
        -- intros (r & [= <-] & Hstatus). discriminate Hstatus.
        -- intros (r & [=] & _).
    + do 2 eexists. split; [reflexivity |].
      split; [by left |]. intros _. eexists. split; reflexivity.
  - apply PaymentWorkflowV2_arrival_order.
Qed.

Lemma PaymentWorkflowV2_decision_witness :
  ∃ history,
    run (PaymentWorkflowV2 payment75) riskyEnv
    = (Some (Some {| PaymentResult.TransactionID := "";
                     PaymentResult.Status := "DECLINED";
                     PaymentResult.ProcessedAt := 0;
                     PaymentResult.ErrorMessage := "" |}, None), history).
Proof.
  destruct (PaymentWorkflowV2_decision riskyEnv payment75
              {| FraudCheckResult.RiskScore := 0.76%float;
                 FraudCheckResult.Flags := [];
                 FraudCheckResult.CheckedAt := 0 |} true eq_refl eq_refl)
    as (_ & (returned & history & Hrun & Hdeclined) & _).
  exists history. rewrite Hrun.
  destruct Hdeclined as [_ Hback].
  destruct (Hback (or_intror eq_refl)) as (r & -> & Hstatus).
  vm_compute in Hrun. by injection Hrun as <- <-.
Defined.

(** ** Order workflow *)

(** Membership of a command in an explicit history, case by case. *)
Ltac in_history H :=
  repeat (apply elem_of_cons in H as [H | H]);
  try (by apply elem_of_nil in H);
  try discriminate H.

(** C8. The refund compensation is scheduled exactly when the payment
    child came back APPROVED and the shipping label that followed failed;
    a run that ends INVENTORY_UNAVAILABLE or PAYMENT_DECLINED schedules no
    refund. *)
Theorem OrderWorkflow_refund_iff (env : Env) (request : OrderRequest.t) :
  let returned := fst (run (OrderWorkflow request) env) in
  let history := snd (run (OrderWorkflow request) env) in
  (refund_triggered history ↔ payment_approved env history ∧ shipping_failed env history)
  ∧ (∀ r, returned = (Some r, None) →
       OrderResult.Status r = "INVENTORY_UNAVAILABLE"
       ∨ OrderResult.Status r = "PAYMENT_DECLINED" →
       ¬ refund_triggered history).
Proof.
  unfold OrderWorkflow, refund_triggered, payment_approved, shipping_failed.
  unfold_workflow. simpl.
  destruct (perform env (ValidateInventory _)) as [inventory | err]; simpl.
  2: { split.
       - split; [intros (? & ? & H); in_history H
                | intros [(? & ? & ? & ? & H & _) _]; in_history H].
       - intros r _ _ (? & ? & H). in_history H. }
  destruct (InventoryResult.Available inventory); simpl.
  2: { split.
       - split; [intros (? & ? & H); in_history H
                | intros [(? & ? & ? & ? & H & _) _]; in_history H].
       - intros r _ _ (? & ? & H). in_history H. }
  destruct (childPayment env _ _) as [payment | err] eqn:Hchild; simpl.
  2: { split.
       - split; [intros (? & ? & H); in_history H |].
         intros [(? & ? & ? & ? & H & Hok & _) _]. in_history H.
         injection H as -> -> ->. rewrite Hchild in Hok. discriminate Hok.
       - intros r _ _ (? & ? & H). in_history H. }
  destruct (String.eqb_spec (PaymentResult.Status payment) "APPROVED")
    as [Happroved | Hdeclined]; simpl.
  2: { split.
       - split; [intros (? & ? & H); in_history H |].
         intros [(? & ? & ? & ? & H & Hok & Hstatus) _]. in_history H.
         injection H as -> -> ->. rewrite Hchild in Hok.
         injection Hok as <-. contradiction.
       - intros r _ _ (? & ? & H). in_history H. }
  destruct (perform env (GenerateShippingLabel _)) as [label | err] eqn:Hlabel; simpl.
  - split.
    + split; [intros (? & ? & H); in_history H |].
      intros [_ (? & ? & ? & H & Herr)]. in_history H.
      injection H as -> ->. rewrite Hlabel in Herr. discriminate Herr.
    + intros r _ _ (? & ? & H). in_history H.
  - split.
    + split; [intros _ | intros _].
      * split.
        -- exists "PaymentWorkflow", ("payment-" ++ OrderRequest.OrderID request)%string,
             (paymentRequestOf request), payment.
           split; [right; left | done].
        -- exists orderOptions, (OrderRequest.OrderID request), err.
           split; [right; right; left | done].
      * exists orderOptions, (PaymentResult.TransactionID payment).
        right. right. right. left.
    + intros r [=].
Qed.

Lemma OrderWorkflow_refund_iff_witness :
  ¬ refund_triggered (snd (run (OrderWorkflow order123) unavailableEnv))
  ∧ ¬ refund_triggered (snd (run (OrderWorkflow order123) declinedEnv))
  ∧ refund_triggered (snd (run (OrderWorkflow order123) shippingFailsEnv)).
Proof.
  split; [| split].
  - eapply (OrderWorkflow_refund_iff unavailableEnv order123);
      [reflexivity | by left].
  - eapply (OrderWorkflow_refund_iff declinedEnv order123);
      [reflexivity | by right].
  - apply (OrderWorkflow_refund_iff shippingFailsEnv order123). split.
    + exists "PaymentWorkflow", "payment-order-123", (paymentRequestOf order123).
      eexists. split; [right; left | split; reflexivity].
    + exists orderOptions, "order-123", labelError.
      split; [right; right; left | reflexivity].
Defined.

(** C9. When the shipping label fails after an approved payment, the
    workflow schedules the refund and then fails with the shipping error
    and no result, whatever the refund itself comes to. *)
Theorem OrderWorkflow_shipping_error_propagates (env : Env) (request : OrderRequest.t)
  (inventory : InventoryResult.t) (payment : PaymentResult.t) (err : error) :
  perform env (ValidateInventory (OrderRequest.Items request)) = Ok inventory →
  InventoryResult.Available inventory = true →
  childPayment env ("payment-" ++ OrderRequest.OrderID request) (paymentRequestOf request)
  = Ok payment →
  PaymentResult.Status payment = "APPROVED" →
  perform env (GenerateShippingLabel (OrderRequest.OrderID request)) = Err err →
  run (OrderWorkflow request) env
  = ((None, Some err),
     [ScheduleActivity orderOptions (ValidateInventory (OrderRequest.Items request));
      StartChildWorkflow "PaymentWorkflow" ("payment-" ++ OrderRequest.OrderID request)
        (paymentRequestOf request);
      ScheduleActivity orderOptions (GenerateShippingLabel (OrderRequest.OrderID request));
      ScheduleActivity orderOptions
        (RefundPayment (PaymentResult.TransactionID payment))]).
Proof.
  intros Hinventory Havailable Hchild Happroved Hlabel.
  unfold OrderWorkflow, paymentRequestOf in *. unfold_workflow. simpl in *.
  rewrite Hinventory. simpl. rewrite Havailable. simpl.
  rewrite Hchild. simpl. rewrite Happroved. simpl.
  rewrite Hlabel. reflexivity.
Qed.

Lemma OrderWorkflow_shipping_error_propagates_witness :
  perform shippingFailsEnv (RefundPayment "txn-789") = Err refundError
  ∧ fst (run (OrderWorkflow order123) shippingFailsEnv) = (None, Some labelError)
  ∧ fst (run (OrderWorkflow order123)
           (envOf (λ a, match a with
                        | GenerateShippingLabel _ => Err labelError
                        | other => stubActivities other
                        end) approvedChild))
    = (None, Some labelError).
Proof.
  split; [reflexivity |]. split.
  - by rewrite (OrderWorkflow_shipping_error_propagates shippingFailsEnv order123
                  _ _ labelError eq_refl eq_refl eq_refl eq_refl eq_refl).
  - by rewrite (OrderWorkflow_shipping_error_propagates
                  (envOf (λ a, match a with
                               | GenerateShippingLabel _ => Err labelError
                               | other => stubActivities other
                               end) approvedChild)
                  order123 _ _ labelError eq_refl eq_refl eq_refl eq_refl eq_refl).
Defined.

(** ** Security scan workflow: fan-out and join *)

Section ScanFanOut.

Implicit Types (futures : gmap string (Future ScanTypeResult.t)).

(** The fan-out only consults the activities. *)
Lemma dispatchScans_rangeOrder env order request scanTypes :
  ∀ futures history,
    dispatchScans request scanTypes futures (withRangeOrder env order) history
    = dispatchScans request scanTypes futures env history.
Proof.
  induction scanTypes as [|scanType rest IH]; intros futures history; [done |].
  simpl. unfold_workflow.
  repeat (destruct (_ =? _)%string; [simpl; apply IH |]).
  simpl. apply IH.
Qed.

(** The commands of the fan-out: one per recognised entry, in order. *)
Lemma dispatchScans_names env request scanTypes :
  ∀ futures history,
    commandName <$> snd (dispatchScans request scanTypes futures env history)
    = ((commandName <$> history)
       ++ (scanActivityName <$> List.filter recognised scanTypes))%list.
Proof.
  induction scanTypes as [|scanType rest IH]; intros futures history.
  { simpl. by rewrite app_nil_r. }
  assert (Hcase :
    (recognised scanType = true
     ∧ ∃ a futures',
         dispatchScans request (scanType :: rest) futures env history
         = dispatchScans request rest futures' env
             (history ++ [ScheduleActivity scanOptions a])%list
         ∧ activityName a = scanActivityName scanType)
    ∨ (recognised scanType = false
       ∧ dispatchScans request (scanType :: rest) futures env history
         = dispatchScans request rest futures env history)).
  { unfold recognised, scanActivityName. simpl. unfold_workflow.
    destruct (String.eqb_spec scanType "sast") as [-> | _]; simpl.
    { left. split; [done |]. exists (RunSASTScan request). by eexists. }
    destruct (String.eqb_spec scanType "dast") as [-> | _]; simpl.
    { left. split; [done |]. exists (RunDASTScan request). by eexists. }
    destruct (String.eqb_spec scanType "dependency") as [-> | _]; simpl.
    { left. split; [done |]. exists (RunDependencyScan request). by eexists. }
    destruct (String.eqb_spec scanType "secrets") as [-> | _]; simpl.
    { left. split; [done |]. exists (RunSecretsScan request). by eexists. }
    by right. }
  cbn [List.filter].
  destruct Hcase as [(-> & a & futures' & -> & Hname) | (-> & ->)]; [| apply IH].
  rewrite IH, fmap_app, <- app_assoc. simpl. by rewrite Hname.
Qed.

(** Entries without a case in the [switch] leave the futures map as it
    is. *)
Lemma dispatchScans_filter env request request' scanTypes :
  scans_agree env request request' →
  ∀ futures history history',
    fst (dispatchScans request scanTypes futures env history)
    = fst (dispatchScans request' (List.filter recognised scanTypes) futures env history').
Proof.
  intros (Hsast & Hdast & Hdep & Hsecrets).
  induction scanTypes as [|scanType rest IH]; intros futures history history'; [done |].
  simpl. unfold_workflow. unfold recognised.
  destruct (scanType =? "sast")%string eqn:E1; simpl.
  { rewrite E1. simpl. rewrite Hsast. apply IH. }
  destruct (scanType =? "dast")%string eqn:E2; simpl.
  { rewrite E1, E2. simpl. rewrite Hdast. apply IH. }
  destruct (scanType =? "dependency")%string eqn:E3; simpl.
  { rewrite E1, E2, E3. simpl. rewrite Hdep. apply IH. }
  destruct (scanType =? "secrets")%string eqn:E4; simpl.
  { rewrite E1, E2, E3, E4. simpl. rewrite Hsecrets. apply IH. }
  apply IH.
Qed.

Lemma collectResults_flat_map entries :
  ∀ allVulnerabilities,
    collectResults entries allVulnerabilities
    = (allVulnerabilities ++ flat_map scanFindings entries)%list.
Proof.
  induction entries as [|[scanType future] rest IH]; intros acc; simpl.
  - by rewrite app_nil_r.
  - unfold scanFindings at 1. destruct future as [scanResult | err]; simpl.
    + by rewrite IH, <- app_assoc.
    + apply IH.
Qed.

Lemma collectResults_Permutation entries entries' :
  entries ≡ₚ entries' → collectResults entries [] ≡ₚ collectResults entries' [].
Proof.
  intros Hperm. rewrite !collectResults_flat_map. simpl.
  by apply Permutation_flat_map.
Qed.

End ScanFanOut.

Lemma requests_app (history history' : list Command) :
  requests (history ++ history') = (requests history ++ requests history')%list.
Proof. apply List.filter_app. Qed.

(** The fan-out loop adds no delivery to the history. *)
Lemma dispatchScans_requests (env : Env) (request : SecurityScanRequest.t)
  (scanTypes : list string) :
  ∀ futures history,
    requests history = history →
    requests (snd (dispatchScans request scanTypes futures env history))
    = snd (dispatchScans request scanTypes futures env history).
Proof.
  induction scanTypes as [|scanType rest IH]; intros futures history Hhistory; [done |].
  cbn [dispatchScans]. unfold_workflow.
  repeat (destruct (scanType =? _)%string;
          [cbn; apply IH; by rewrite requests_app, Hhistory |]).
  cbn. by apply IH.
Qed.

(** A run that passes the permission gate, step by step. *)
Lemma SecurityScanWorkflow_run (env : Env) (request : SecurityScanRequest.t)
  (agentCtx : AgentContext.t) :
  hasPermission (AgentContext.Permissions agentCtx) "security:scan:execute" = true →
  let fanout :=
    dispatchScans request (SecurityScanRequest.ScanTypes request) ∅ env [] in
  let all := collectResults (rangeOrder env (map_to_list (fst fanout))) [] in
  let report := fst (Get (perform env (GenerateSecurityReport all)) ReportResult.zero) in
  run (SecurityScanWorkflow request agentCtx) env
  = ((Some {| SecurityScanResult.ScanID := ReportResult.ReportID report;
              SecurityScanResult.Status := determineStatus all;
              SecurityScanResult.Vulnerabilities := all;
              SecurityScanResult.CompletedAt := now env;
              SecurityScanResult.ReportURL := ReportResult.URL report |}, None),
     (snd fanout
      ++ ScheduleActivity reportOptions (GenerateSecurityReport all)
         :: notifyCommands agentCtx report (countBySeverity all "critical"))%list).
Proof.
  intros Hperm. unfold SecurityScanWorkflow, notifyCommands. rewrite Hperm.
  pose proof (dispatchScans_requests env request
                (SecurityScanRequest.ScanTypes request) ∅ [] eq_refl) as Hfanout.
  unfold_workflow. simpl.
  destruct (dispatchScans _ _ _ _ _) as [futures history]. simpl in *.
  destruct (perform env (GenerateSecurityReport _)) as [report | err]; simpl;
    destruct (countBySeverity _ _ >? 0); simpl;
    rewrite ?requests_app, Hfanout; by rewrite <- ?app_assoc.
Qed.

Lemma notifyCommands_names (agentCtx : AgentContext.t) (report report' : ReportResult.t)
  (criticalCount : Z) :
  commandName <$> notifyCommands agentCtx report criticalCount
  = commandName <$> notifyCommands agentCtx report' criticalCount.
Proof. unfold notifyCommands. by destruct (criticalCount >? 0). Qed.

Lemma notifyCommands_tail (agentCtx : AgentContext.t) (report : ReportResult.t)
  (criticalCount : Z) :
  commandName <$> notifyCommands agentCtx report criticalCount = []
  ∨ commandName <$> notifyCommands agentCtx report criticalCount
    = ["NotifyComplianceTeam"].
Proof. unfold notifyCommands. destruct (criticalCount >? 0); [by right | by left]. Qed.

Lemma filter_recognised_idem (scanTypes : list string) :
  List.filter recognised (List.filter recognised scanTypes)
  = List.filter recognised scanTypes.
Proof.
  induction scanTypes as [|scanType rest IH]; [done |]. simpl.
  destruct (recognised scanType) eqn:E; [| done]. simpl. by rewrite E, IH.
Qed.

(** ** Permission wildcards, where they are checked *)




(** ** Security scan workflow: the join *)

(** C2 (as amended). For a fixed request and fixed activity outcomes, two
    runs that range over the futures map in different orders aggregate
    the same findings up to their order: the vulnerability lists are
    permutations of each other, the status and the completion time are
    equal, and the same activities are scheduled. *)
Theorem SecurityScanWorkflow_join_up_to_order (env : Env)
  (request : SecurityScanRequest.t) (agentCtx : AgentContext.t)
  (order order' : list (string * Future ScanTypeResult.t)
                  → list (string * Future ScanTypeResult.t)) :
  (∀ entries, order entries ≡ₚ entries) →
  (∀ entries, order' entries ≡ₚ entries) →
  ∃ r r' history history',
    run (SecurityScanWorkflow request agentCtx) (withRangeOrder env order)
    = ((Some r, None), history)
    ∧ run (SecurityScanWorkflow request agentCtx) (withRangeOrder env order')
      = ((Some r', None), history')
    ∧ SecurityScanResult.Vulnerabilities r ≡ₚ SecurityScanResult.Vulnerabilities r'
    ∧ SecurityScanResult.Status r = SecurityScanResult.Status r'
    ∧ SecurityScanResult.CompletedAt r = SecurityScanResult.CompletedAt r'
    ∧ commandName <$> history = commandName <$> history'.
Proof.
  intros Horder Horder'.
  destruct (hasPermission (AgentContext.Permissions agentCtx) "security:scan:execute")
    eqn:Hperm.
  - rewrite !SecurityScanWorkflow_run by done. cbv zeta.
    rewrite !dispatchScans_rangeOrder. simpl rangeOrder. simpl perform. simpl now.
    destruct (dispatchScans _ _ _ _ _) as [futures history0]. simpl fst. simpl snd.
    assert (Hall : collectResults (order (map_to_list futures)) []
                   ≡ₚ collectResults (order' (map_to_list futures)) []).
    { apply collectResults_Permutation. by rewrite Horder, Horder'. }
    do 4 eexists. split; [reflexivity |]. split; [reflexivity |]. simpl.
    split; [exact Hall |]. split; [by apply determineStatus_Permutation |].
    split; [done |].
    rewrite !fmap_app, !fmap_cons. simpl.
    rewrite (countBySeverity_Permutation _ _ _ Hall).
    do 2 f_equal. apply notifyCommands_names.
  - unfold SecurityScanWorkflow. rewrite Hperm. simpl.
    do 4 eexists. split; [reflexivity |]. split; [reflexivity |]. done.
Qed.

Lemma SecurityScanWorkflow_join_up_to_order_witness :
  ∃ r r',
    fst (run (SecurityScanWorkflow (scanRequest ["sast"; "dependency"])
                (agent001 ["security:scan:execute"]))
           (withRangeOrder twoFindingsEnv (λ entries, entries)))
    = (Some r, None)
    ∧ fst (run (SecurityScanWorkflow (scanRequest ["sast"; "dependency"])
                  (agent001 ["security:scan:execute"]))
             (withRangeOrder twoFindingsEnv reverse))
      = (Some r', None)
    ∧ SecurityScanResult.Vulnerabilities r ≡ₚ SecurityScanResult.Vulnerabilities r'
    ∧ SecurityScanResult.Status r = SecurityScanResult.Status r'.
Proof.
  destruct (SecurityScanWorkflow_join_up_to_order twoFindingsEnv
              (scanRequest ["sast"; "dependency"]) (agent001 ["security:scan:execute"])
              (λ entries, entries) reverse
              (λ entries, Permutation_refl entries)
              (λ entries, reverse_Permutation entries))
    as (r & r' & history & history' & Hrun & Hrun' & Hvulns & Hstatus & _).
  exists r, r'. rewrite Hrun, Hrun'.
  split; [reflexivity |]. split; [reflexivity |]. split; [exact Hvulns | exact Hstatus].
Defined.

(** The claim as stated fails: with a critical finding from the SAST scan
    and a medium one from the dependency scan, ranging over the futures
    map in one order or in the reverse order gives the two findings in
    opposite orders, for the same request and the same activity
    outcomes. *)
Lemma SecurityScanWorkflow_join_order_observable :
  let request := scanRequest ["sast"; "dependency"] in
  let agentCtx := agent001 ["security:scan:execute"] in
  let env := twoFindingsEnv in
  let env' := withRangeOrder twoFindingsEnv reverse in
  range_visits_each_once env
  ∧ range_visits_each_once env'
  ∧ perform env' = perform env
  ∧ (SecurityScanResult.Vulnerabilities
       <$> fst (fst (run (SecurityScanWorkflow request agentCtx) env)))
    = Some [criticalVuln; lodashVuln]
  ∧ (SecurityScanResult.Vulnerabilities
       <$> fst (fst (run (SecurityScanWorkflow request agentCtx) env')))
    = Some [lodashVuln; criticalVuln]
  ∧ fst (run (SecurityScanWorkflow request agentCtx) env)
    ≠ fst (run (SecurityScanWorkflow request agentCtx) env').
Proof.
  cbv zeta. split; [| split; [| split; [| split; [| split]]]].
  - intros entries. reflexivity.
  - intros entries. apply reverse_Permutation.
  - reflexivity.
  - vm_compute. reflexivity.
  - vm_compute. reflexivity.
  - vm_compute. discriminate.
Qed.

(** C10 (as amended). Entries of ScanTypes other than "sast", "dast",
    "dependency" and "secrets" are not dispatched: whatever the activities
    do, the run returns no error and schedules one scan activity per
    recognised entry and nothing for the others.  The scan activities are
    handed the whole request; when they answer the request and the request
    without those entries alike, the two runs return the same
    vulnerabilities up to the order in which each ranges over the futures
    map, with the same status and completion time and the same activities
    scheduled, and the same result when both range in the same order. *)
Theorem SecurityScanWorkflow_ignores_unrecognised (env : Env)
  (request : SecurityScanRequest.t) (agentCtx : AgentContext.t)
  (order order' : list (string * Future ScanTypeResult.t)
                  → list (string * Future ScanTypeResult.t)) :
  let request' :=
    withScanTypes request
      (List.filter recognised (SecurityScanRequest.ScanTypes request)) in
  snd (fst (run (SecurityScanWorkflow request agentCtx) env)) = None
  ∧ (hasPermission (AgentContext.Permissions agentCtx) "security:scan:execute" = true →
     ∃ tail,
       commandName <$> snd (run (SecurityScanWorkflow request agentCtx) env)
       = ((scanActivityName
             <$> List.filter recognised (SecurityScanRequest.ScanTypes request))
          ++ "GenerateSecurityReport" :: tail)%list
       ∧ (tail = [] ∨ tail = ["NotifyComplianceTeam"]))
  ∧ (scans_agree env request request' →
     (∀ entries, order entries ≡ₚ entries) →
     (∀ entries, order' entries ≡ₚ entries) →
     ∃ r r' history history',
       run (SecurityScanWorkflow request agentCtx) (withRangeOrder env order)
       = ((Some r, None), history)
       ∧ run (SecurityScanWorkflow request' agentCtx) (withRangeOrder env order')
         = ((Some r', None), history')
       ∧ SecurityScanResult.Vulnerabilities r ≡ₚ SecurityScanResult.Vulnerabilities r'
       ∧ SecurityScanResult.Status r = SecurityScanResult.Status r'
       ∧ SecurityScanResult.CompletedAt r = SecurityScanResult.CompletedAt r'
       ∧ commandName <$> history = commandName <$> history'
       ∧ ((∀ entries, order entries = order' entries) → r = r')).
Proof.
  intros request'.
  destruct (hasPermission (AgentContext.Permissions agentCtx) "security:scan:execute")
    eqn:Hperm.
  - split; [by rewrite SecurityScanWorkflow_run |]. split.
    { intros _. rewrite SecurityScanWorkflow_run by done. cbv zeta. simpl snd.
      rewrite fmap_app, fmap_cons, dispatchScans_names. simpl.
      eexists. split; [reflexivity |]. apply notifyCommands_tail. }
    intros Hagree Horder Horder'.
    rewrite !SecurityScanWorkflow_run by done. cbv zeta.
    rewrite !dispatchScans_rangeOrder. simpl rangeOrder. simpl perform. simpl now.
    change (SecurityScanRequest.ScanTypes request')
      with (List.filter recognised (SecurityScanRequest.ScanTypes request)).
    rewrite <- (dispatchScans_filter env request request' _ Hagree ∅ [] []).
    set (futures := fst (dispatchScans request (SecurityScanRequest.ScanTypes request)
                           ∅ env [])).
    assert (Hall : collectResults (order (map_to_list futures)) []
                   ≡ₚ collectResults (order' (map_to_list futures)) []).
    { apply collectResults_Permutation. by rewrite Horder, Horder'. }
    do 4 eexists. split; [reflexivity |]. split; [reflexivity |]. simpl.
    split; [exact Hall |]. split; [by apply determineStatus_Permutation |].
    split; [done |]. split.
    + rewrite !fmap_app, !fmap_cons, !dispatchScans_names, filter_recognised_idem. simpl.
      rewrite (countBySeverity_Permutation _ _ _ Hall).
      do 2 f_equal. apply notifyCommands_names.
    + intros Hsame. by rewrite Hsame.
  - unfold SecurityScanWorkflow. rewrite Hperm. simpl.
    split; [done |]. split; [done |]. intros _ _ _.
    do 4 eexists. split; [reflexivity |]. split; [reflexivity |]. done.
Qed.

Lemma SecurityScanWorkflow_ignores_unrecognised_witness :
  fst (run (SecurityScanWorkflow (scanRequest ["sast"; "bogus"; "dependency"])
              (agent001 ["security:*"])) stubEnv)
  = fst (run (SecurityScanWorkflow (scanRequest ["sast"; "dependency"])
                (agent001 ["security:*"])) stubEnv)
  ∧ commandName <$> snd (run (SecurityScanWorkflow
                                (scanRequest ["sast"; "bogus"; "dependency"])
                                (agent001 ["security:*"])) stubEnv)
    = ["RunSASTScan"; "RunDependencyScan"; "GenerateSecurityReport"].
Proof.
  destruct (SecurityScanWorkflow_ignores_unrecognised stubEnv
              (scanRequest ["sast"; "bogus"; "dependency"]) (agent001 ["security:*"])
              (λ entries, entries) (λ entries, entries))
    as (_ & Hnames & Hsame).
  destruct Hsame as (r & r' & history & history' & Hrun & Hrun' & _ & _ & _ & _ & Heq).
  - repeat split.
  - intros entries. reflexivity.
  - intros entries. reflexivity.
  - split.
    + change (withRangeOrder stubEnv (λ entries, entries)) with stubEnv in Hrun, Hrun'.
      change (withScanTypes (scanRequest ["sast"; "bogus"; "dependency"])
                (List.filter recognised
                   (SecurityScanRequest.ScanTypes
                      (scanRequest ["sast"; "bogus"; "dependency"]))))
        with (scanRequest ["sast"; "dependency"]) in Hrun'.
      rewrite Hrun, Hrun'. simpl. by rewrite (Heq (λ entries, eq_refl)).
    + destruct (Hnames eq_refl) as (tail & Heq' & _). reflexivity.
Defined.

(** The claim as stated fails, in two ways.  The scan activities receive
    the whole request, ScanTypes included: with the dependency scan mocked
    for the request that holds the unknown entry "license", as the tests
    mock it per request, that request ends FAILED_CRITICAL and the request
    without the entry ends PASSED_WITH_WARNINGS.  And with activities that
    ignore their input, the two requests give the findings in opposite
    orders when the two runs range over the futures map in opposite
    orders. *)
Lemma SecurityScanWorkflow_unrecognised_observable :
  let agentCtx := agent001 ["security:*"] in
  let request := scanRequest ["dependency"; "license"] in
  let env := mockedScanEnv ["dependency"; "license"] in
  let request2 := scanRequest ["sast"; "bogus"; "dependency"] in
  let env2 := twoFindingsEnv in
  let removed request :=
    withScanTypes request
      (List.filter recognised (SecurityScanRequest.ScanTypes request)) in
  (SecurityScanResult.Status
     <$> fst (fst (run (SecurityScanWorkflow request agentCtx) env)))
  = Some "FAILED_CRITICAL"
  ∧ (SecurityScanResult.Status
       <$> fst (fst (run (SecurityScanWorkflow (removed request) agentCtx) env)))
    = Some "PASSED_WITH_WARNINGS"
  ∧ fst (run (SecurityScanWorkflow request agentCtx) env)
    ≠ fst (run (SecurityScanWorkflow (removed request) agentCtx) env)
  ∧ scans_agree env2 request2 (removed request2)
  ∧ range_visits_each_once env2
  ∧ range_visits_each_once (withRangeOrder env2 reverse)
  ∧ (SecurityScanResult.Vulnerabilities
       <$> fst (fst (run (SecurityScanWorkflow request2 agentCtx) env2)))
    = Some [criticalVuln; lodashVuln]
  ∧ (SecurityScanResult.Vulnerabilities
       <$> fst (fst (run (SecurityScanWorkflow (removed request2) agentCtx)
                       (withRangeOrder env2 reverse))))
    = Some [lodashVuln; criticalVuln]
  ∧ fst (run (SecurityScanWorkflow request2 agentCtx) env2)
    ≠ fst (run (SecurityScanWorkflow (removed request2) agentCtx)
             (withRangeOrder env2 reverse)).
Proof.
  cbv zeta. split; [| split; [| split; [| split; [| split; [| split; [| split; [| split]]]]]]].
  - vm_compute. reflexivity.
  - vm_compute. reflexivity.
  - vm_compute. discriminate.
  - repeat split.
  - intros entries. reflexivity.
  - intros entries. apply reverse_Permutation.
  - vm_compute. reflexivity.
  - vm_compute. reflexivity.
  - vm_compute. discriminate.
Qed.

(** * Further properties of the workflows *)

(** ** Order workflow *)

(** X1. The payment child workflow is started exactly when the inventory
    check succeeded and reported the items available: no payment is
    attempted for an order whose stock is missing or unknown. *)
Theorem OrderWorkflow_payment_needs_inventory (env : Env) (request : OrderRequest.t) :
  child_started (snd (run (OrderWorkflow request) env))
  ↔ ∃ inventory,
      perform env (ValidateInventory (OrderRequest.Items request)) = Ok inventory
      ∧ InventoryResult.Available inventory = true.
Proof.
  unfold OrderWorkflow, child_started. unfold_workflow. simpl.
  destruct (perform env (ValidateInventory _)) as [inventory | err]; simpl.
  2: { split; [intros (? & ? & ? & H); in_history H | intros (? & [=] & _)]. }
  destruct (InventoryResult.Available inventory) eqn:Havailable; simpl.
  2: { split; [intros (? & ? & ? & H); in_history H |].
       intros (? & [= <-] & Ht). congruence. }
  split; [intros _; by exists inventory |]. intros _.
  exists "PaymentWorkflow", ("payment-" ++ OrderRequest.OrderID request)%string,
    (paymentRequestOf request).
  destruct (childPayment env _ _) as [payment | err]; simpl; [| right; left].
  destruct (PaymentResult.Status payment =? "APPROVED")%string; simpl; [| right; left].
  destruct (perform env (GenerateShippingLabel _)); simpl; right; left.
Qed.

(** X2. Whatever happens, the order workflow starts at most one child, and
    that child is the payment workflow under the id "payment-" followed by
    the order id, with the order's id, customer and total amount as its
    request: replaying an order addresses the same child. *)
Theorem OrderWorkflow_child_identity (env : Env) (request : OrderRequest.t) :
  let history := snd (run (OrderWorkflow request) env) in
  Forall (λ c, match c with
               | StartChildWorkflow workflowType workflowID paymentRequest =>
                   workflowType = "PaymentWorkflow"
                   ∧ workflowID = ("payment-" ++ OrderRequest.OrderID request)%string
                   ∧ PaymentRequest.OrderID paymentRequest = OrderRequest.OrderID request
                   ∧ PaymentRequest.CustomerID paymentRequest
                     = OrderRequest.CustomerID request
                   ∧ PaymentRequest.Amount paymentRequest
                     = OrderRequest.TotalAmount request
               | ScheduleActivity _ _ => True
               | FutureDelivered _ => False
               end) history
  ∧ (length (List.filter isChildStart history) ≤ 1)%nat.
Proof.
  unfold OrderWorkflow. unfold_workflow. simpl.
  destruct (perform env (ValidateInventory _)) as [inventory | err]; simpl;
    [| split; [repeat constructor | lia]].
  destruct (InventoryResult.Available inventory); simpl;
    [| split; [repeat constructor | lia]].
  destruct (childPayment env _ _) as [payment | err]; simpl;
    [| split; [repeat constructor | lia]].
  destruct (PaymentResult.Status payment =? "APPROVED")%string; simpl;
    [| split; [repeat constructor | lia]].
  destruct (perform env (GenerateShippingLabel _)); simpl;
    (split; [repeat constructor | lia]).
Qed.

(** X3. A run of the order workflow returns either a result or an error,
    never both and never neither.  A result carries the order id and one
    of the three soft statuses; an error is the error of the inventory
    check, of the payment child or of the shipping label. *)
Theorem OrderWorkflow_result_or_error (env : Env) (request : OrderRequest.t) :
  let returned := fst (run (OrderWorkflow request) env) in
  (∃ r, returned = (Some r, None)
        ∧ OrderResult.OrderID r = OrderRequest.OrderID request
        ∧ (OrderResult.Status r = "INVENTORY_UNAVAILABLE"
           ∨ OrderResult.Status r = "PAYMENT_DECLINED"
           ∨ OrderResult.Status r = "COMPLETED"))
  ∨ (∃ err, returned = (None, Some err)
            ∧ (perform env (ValidateInventory (OrderRequest.Items request)) = Err err
               ∨ childPayment env ("payment-" ++ OrderRequest.OrderID request)
                   (paymentRequestOf request) = Err err
               ∨ perform env (GenerateShippingLabel (OrderRequest.OrderID request))
                 = Err err)).
Proof.
  unfold OrderWorkflow, paymentRequestOf. unfold_workflow. simpl.
  destruct (perform env (ValidateInventory _)) as [inventory | err]; simpl;
    [| right; exists err; auto].
  destruct (InventoryResult.Available inventory); simpl;
    [| left; eexists; split; [reflexivity |]; simpl; auto].
  destruct (childPayment env _ _) as [payment | err]; simpl;
    [| right; exists err; auto].
  destruct (PaymentResult.Status payment =? "APPROVED")%string; simpl;
    [| left; eexists; split; [reflexivity |]; simpl; auto].
  destruct (perform env (GenerateShippingLabel _)) as [label | err]; simpl.
  - left. eexists. split; [reflexivity |]. simpl. auto.
  - right. exists err. auto.
Qed.

(** X4. The order workflow returns COMPLETED exactly when the inventory
    is available, the payment child came back APPROVED and the shipping
    label was generated; the result then carries the child's transaction
    id, the tracking number and the workflow time. *)
Theorem OrderWorkflow_completed_iff (env : Env) (request : OrderRequest.t)
  (r : OrderResult.t) :
  fst (run (OrderWorkflow request) env) = (Some r, None)
  ∧ OrderResult.Status r = "COMPLETED"
  ↔ ∃ inventory payment label,
      perform env (ValidateInventory (OrderRequest.Items request)) = Ok inventory
      ∧ InventoryResult.Available inventory = true
      ∧ childPayment env ("payment-" ++ OrderRequest.OrderID request)
          (paymentRequestOf request) = Ok payment
      ∧ PaymentResult.Status payment = "APPROVED"
      ∧ perform env (GenerateShippingLabel (OrderRequest.OrderID request)) = Ok label
      ∧ r = {| OrderResult.OrderID := OrderRequest.OrderID request;
               OrderResult.Status := "COMPLETED";
               OrderResult.PaymentID := PaymentResult.TransactionID payment;
               OrderResult.ShippingLabel := ShippingResult.TrackingNumber label;
               OrderResult.CompletedAt := now env |}.
Proof.
  unfold OrderWorkflow, paymentRequestOf. unfold_workflow. simpl.
  destruct (perform env (ValidateInventory _)) as [inventory | err]; simpl.
  2: { split; [intros [[=] _] | intros (? & ? & ? & [=] & _)]. }
  destruct (InventoryResult.Available inventory) eqn:Havailable; simpl.
  2: { split; [intros [[= <-] [=]] |].
       intros (? & ? & ? & [= <-] & ? & _). congruence. }
  destruct (childPayment env _ _) as [payment | err]; simpl.
  2: { split; [intros [[=] _] | intros (? & ? & ? & _ & _ & [=] & _)]. }
  destruct (String.eqb_spec (PaymentResult.Status payment) "APPROVED")
    as [Happroved | Hdeclined]; simpl.
  2: { split; [intros [[= <-] [=]] |].
       intros (? & ? & ? & _ & _ & [= <-] & ? & _). contradiction. }
  destruct (perform env (GenerateShippingLabel _)) as [label | err]; simpl.
  2: { split; [intros [[=] _] | intros (? & ? & ? & _ & _ & _ & _ & [=] & _)]. }
  split.
  - intros [[= <-] _]. by exists inventory, payment, label.
  - intros (? & ? & ? & _ & _ & [= <-] & _ & [= <-] & ->). done.
Qed.

(** X5. The shipping label is requested exactly when the payment child
    came back APPROVED: a declined or failed payment never ships. *)
Theorem OrderWorkflow_ships_iff_approved (env : Env) (request : OrderRequest.t) :
  let history := snd (run (OrderWorkflow request) env) in
  scheduled "GenerateShippingLabel" history ↔ payment_approved env history.
Proof.
  unfold OrderWorkflow, scheduled, payment_approved. unfold_workflow. simpl.
  destruct (perform env (ValidateInventory _)) as [inventory | err]; simpl.
  2: { split.
       - intros (? & ? & H & Hn). in_history H; injection H as -> ->; discriminate Hn.
       - intros (? & ? & ? & ? & H & _). in_history H. }
  destruct (InventoryResult.Available inventory); simpl.
  2: { split.
       - intros (? & ? & H & Hn). in_history H; injection H as -> ->; discriminate Hn.
       - intros (? & ? & ? & ? & H & _). in_history H. }
  destruct (childPayment env _ _) as [payment | err] eqn:Hchild; simpl.
  2: { split.
       - intros (? & ? & H & Hn). in_history H; injection H as -> ->; discriminate Hn.
       - intros (? & ? & ? & ? & H & Hok & _). in_history H.
         injection H as -> -> ->. rewrite Hchild in Hok. discriminate Hok. }
  destruct (String.eqb_spec (PaymentResult.Status payment) "APPROVED")
    as [Happroved | Hdeclined]; simpl.
  2: { split.
       - intros (? & ? & H & Hn). in_history H; injection H as -> ->; discriminate Hn.
       - intros (? & ? & ? & ? & H & Hok & ?). in_history H.
         injection H as -> -> ->. rewrite Hchild in Hok.
         injection Hok as <-. contradiction. }
  assert (Happ : ∃ workflowType workflowID rq r,
             StartChildWorkflow workflowType workflowID rq
             ∈ [ScheduleActivity orderOptions
                  (ValidateInventory (OrderRequest.Items request));
                StartChildWorkflow "PaymentWorkflow"
                  ("payment-" ++ OrderRequest.OrderID request)
                  (paymentRequestOf request)]
             ∧ childPayment env workflowID rq = Ok r
             ∧ PaymentResult.Status r = "APPROVED").
  { exists "PaymentWorkflow", ("payment-" ++ OrderRequest.OrderID request)%string,
      (paymentRequestOf request), payment.
    split; [right; left | done]. }
  destruct Happ as (t & id & rq & r & Hin & Hok & Hst).
  destruct (perform env (GenerateShippingLabel _)) as [label | err]; simpl.
  - split; intros _.
    + exists t, id, rq, r. split; [| done].
      apply elem_of_cons in Hin as [Hin | Hin]; [discriminate Hin |].
      apply list_elem_of_singleton in Hin. rewrite Hin. right. left.
    + exists orderOptions, (GenerateShippingLabel (OrderRequest.OrderID request)).
      split; [right; right; left | done].
  - split; intros _.
    + exists t, id, rq, r. split; [| done].
      apply elem_of_cons in Hin as [Hin | Hin]; [discriminate Hin |].
      apply list_elem_of_singleton in Hin. rewrite Hin. right. left.
    + exists orderOptions, (GenerateShippingLabel (OrderRequest.OrderID request)).
      split; [right; right; left | done].
Qed.

(** ** Payment workflow v1 *)

Section PaymentWorkflowV1Extra.

Variable Sprintf_risk : float → string.

(** X6. Payment workflow v1 schedules the charge exactly when the fraud
    check succeeded with a risk score that is not above 0.8: a payment
    whose fraud check failed or looked suspicious is never charged. *)
Theorem PaymentWorkflow_charges_iff_screened (env : Env) (request : PaymentRequest.t) :
  scheduled "ChargePaymentMethod" (snd (run (PaymentWorkflow Sprintf_risk request) env))
  ↔ ∃ fraud, perform env (CheckFraud request) = Ok fraud
             ∧ (0.8 <? FraudCheckResult.RiskScore fraud)%float = false.
Proof.
  unfold PaymentWorkflow, scheduled. unfold_workflow. simpl.
  destruct (perform env (CheckFraud request)) as [fraud | err]; simpl.
  2: { split; [| intros (? & [=] & _)].
       intros (? & ? & H & Hn). in_history H; injection H as -> ->; discriminate Hn. }
  destruct (0.8 <? FraudCheckResult.RiskScore fraud)%float eqn:Hrisk.
  { split; [| intros (? & [= <-] & ?); congruence].
    intros (? & ? & H & Hn). in_history H; injection H as -> ->; discriminate Hn. }
  split; [intros _; by exists fraud |]. intros _.
  exists paymentOptions, (ChargePaymentMethod request). split; [| done].
  destruct (perform env (ChargePaymentMethod request)); simpl; right; left.
Qed.

(** X7. Payment workflow v1 returns APPROVED exactly when the fraud check
    passed and the charge succeeded; the result carries the transaction id
    of the charge and the workflow time, and no error message. *)
Theorem PaymentWorkflow_approved_iff (env : Env) (request : PaymentRequest.t)
  (r : PaymentResult.t) :
  fst (run (PaymentWorkflow Sprintf_risk request) env) = (Some r, None)
  ∧ PaymentResult.Status r = "APPROVED"
  ↔ ∃ fraud charge,
      perform env (CheckFraud request) = Ok fraud
      ∧ (0.8 <? FraudCheckResult.RiskScore fraud)%float = false
      ∧ perform env (ChargePaymentMethod request) = Ok charge
      ∧ r = {| PaymentResult.TransactionID := ChargeResult.TransactionID charge;
               PaymentResult.Status := "APPROVED";
               PaymentResult.ProcessedAt := now env;
               PaymentResult.ErrorMessage := "" |}.
Proof.
  unfold PaymentWorkflow. unfold_workflow. simpl.
  destruct (perform env (CheckFraud request)) as [fraud | err]; simpl.
  2: { split; [intros [[= <-] [=]] | intros (? & ? & [=] & _)]. }
  destruct (0.8 <? FraudCheckResult.RiskScore fraud)%float eqn:Hrisk.
  { split; [intros [[= <-] [=]] | intros (? & ? & [= <-] & ? & _); congruence]. }
  destruct (perform env (ChargePaymentMethod request)) as [charge | err]; simpl.
  2: { split; [intros [[= <-] [=]] | intros (? & ? & _ & _ & [=] & _)]. }
  split.
  - intros [[= <-] _]. by exists fraud, charge.
  - intros (? & ? & _ & _ & [= <-] & ->). done.
Qed.

(** X8. The confirmation is scheduled exactly for an approved payment,
    with the payment options and for the transaction id the result
    carries. *)
Theorem PaymentWorkflow_confirms_iff_approved (env : Env) (request : PaymentRequest.t)
  (options : ActivityOptions.t) (transactionID : string) :
  let returned := fst (run (PaymentWorkflow Sprintf_risk request) env) in
  let history := snd (run (PaymentWorkflow Sprintf_risk request) env) in
  ScheduleActivity options (SendPaymentConfirmation transactionID) ∈ history
  ↔ options = paymentOptions
    ∧ ∃ r, returned = (Some r, None)
           ∧ PaymentResult.Status r = "APPROVED"
           ∧ PaymentResult.TransactionID r = transactionID.
Proof.
  unfold PaymentWorkflow. unfold_workflow. simpl.
  destruct (perform env (CheckFraud request)) as [fraud | err]; simpl.
  2: { split; [intros H; in_history H | intros (_ & ? & [= <-] & [=] & _)]. }
  destruct (0.8 <? FraudCheckResult.RiskScore fraud)%float eqn:Hrisk.
  { split; [intros H; in_history H | intros (_ & ? & [= <-] & [=] & _)]. }
  destruct (perform env (ChargePaymentMethod request)) as [charge | err]; simpl.
  2: { split; [intros H; in_history H | intros (_ & ? & [= <-] & [=] & _)]. }
  split.
  - intros H. in_history H. injection H as -> ->. split; [done |].
    eexists. split; [reflexivity |]. done.
  - intros (-> & ? & [= <-] & _ & <-). right. right. left.
Qed.

(** X9. The confirmation is fire-and-forget: two environments that differ
    only in the outcome of SendPaymentConfirmation give the same run. *)
Theorem PaymentWorkflow_ignores_confirmation_outcome (env env' : Env)
  (request : PaymentRequest.t) :
  (∀ a, (∀ transactionID, a ≠ SendPaymentConfirmation transactionID) →
        perform env a = perform env' a) →
  now env = now env' →
  run (PaymentWorkflow Sprintf_risk request) env
  = run (PaymentWorkflow Sprintf_risk request) env'.
Proof.
  intros Hsame Hnow. unfold PaymentWorkflow. unfold_workflow. simpl.
  rewrite <- (Hsame (CheckFraud request)) by done.
  destruct (perform env (CheckFraud request)) as [fraud | err]; simpl; [| done].
  destruct (0.8 <? FraudCheckResult.RiskScore fraud)%float; [done |].
  rewrite <- (Hsame (ChargePaymentMethod request)) by done.
  destruct (perform env (ChargePaymentMethod request)) as [charge | err]; simpl;
    [| done].
  by rewrite Hnow.
Qed.

End PaymentWorkflowV1Extra.

Lemma PaymentWorkflow_ignores_confirmation_outcome_witness :
  perform confirmationFailsEnv (SendPaymentConfirmation "TXN-0") = Err mailError
  ∧ perform stubEnv (SendPaymentConfirmation "TXN-0") = Ok tt
  ∧ run (PaymentWorkflow sprintfRisk payment50) stubEnv
    = run (PaymentWorkflow sprintfRisk payment50) confirmationFailsEnv.
Proof.
  split; [reflexivity |]. split; [reflexivity |].
  apply PaymentWorkflow_ignores_confirmation_outcome; [| reflexivity].
  intros a Hne. destruct a; try reflexivity. by destruct (Hne transactionID).
Defined.

(** ** Payment workflow v2 *)

(** X10. Payment workflow v2 always returns: its two [Select]s never find
    the selector empty.  It schedules the fraud check and the card
    validation first, in that order, and after them nothing or the
    charge. *)
Theorem PaymentWorkflowV2_returns (env : Env) (request : PaymentRequest.t) :
  ∃ returned rest,
    run (PaymentWorkflowV2 request) env
    = (Some returned,
       ScheduleActivity paymentOptionsV2 (CheckFraudV2 request)
       :: ScheduleActivity paymentOptionsV2
            (ValidateCard (PaymentRequest.CustomerID request))
       :: rest)
    ∧ (rest = []
       ∨ rest = [ScheduleActivity paymentOptionsV2 (ChargePaymentMethodV2 request)]).
Proof.
  unfold PaymentWorkflowV2. unfold_workflow. simpl.
  rewrite selectLoop_fraud_card. simpl.
  destruct (_ || _); simpl; [by eauto |].
  destruct (perform env (ChargePaymentMethodV2 request)); simpl; by eauto.
Qed.

(** X11. Payment workflow v2 fails exactly when it attempted the charge
    and the charge failed, and then with the charge's error and no
    result; every other run ends with the soft status DECLINED or
    APPROVED. *)
Theorem PaymentWorkflowV2_error_iff_charge_failed (env : Env)
  (request : PaymentRequest.t) :
  let returned := fst (run (PaymentWorkflowV2 request) env) in
  let history := snd (run (PaymentWorkflowV2 request) env) in
  (∀ err, returned = Some (None, Some err)
          ↔ scheduled "ChargePaymentMethodV2" history
            ∧ perform env (ChargePaymentMethodV2 request) = Err err)
  ∧ ((∃ err, returned = Some (None, Some err))
     ∨ (∃ r, returned = Some (Some r, None)
             ∧ (PaymentResult.Status r = "DECLINED"
                ∨ PaymentResult.Status r = "APPROVED"))).
Proof.
  unfold PaymentWorkflowV2, scheduled. unfold_workflow. simpl.
  rewrite selectLoop_fraud_card. simpl.
  destruct (_ || _); simpl.
  { split; [| right; eexists; split; [reflexivity |]; by left].
    intros err. split; [intros [=] |].
    intros [(? & ? & H & Hn) _]. in_history H; injection H as -> ->; discriminate Hn. }
  destruct (perform env (ChargePaymentMethodV2 request)) as [charge | err]; simpl.
  - split; [| right; eexists; split; [reflexivity |]; by right].
    intros err. split; [intros [=] | intros [_ [=]]].
  - split; [| left; by exists err].
    intros err'. split.
    + intros [= <-]. split; [| done].
      exists paymentOptionsV2, (ChargePaymentMethodV2 request).
      split; [right; right; left | done].
    + by intros [_ [= <-]].
Qed.

(** X12. When the card validation itself fails, its error is dropped and
    the card counts as invalid: the workflow returns DECLINED with no
    error and does not schedule the charge, whatever the fraud check
    says. *)
Theorem PaymentWorkflowV2_card_check_error_declines (env : Env)
  (request : PaymentRequest.t) (err : error) :
  perform env (ValidateCard (PaymentRequest.CustomerID request)) = Err err →
  run (PaymentWorkflowV2 request) env
  = (Some (Some {| PaymentResult.TransactionID := "";
                   PaymentResult.Status := "DECLINED";
                   PaymentResult.ProcessedAt := 0;
                   PaymentResult.ErrorMessage := "" |}, None),
     [ScheduleActivity paymentOptionsV2 (CheckFraudV2 request);
      ScheduleActivity paymentOptionsV2
        (ValidateCard (PaymentRequest.CustomerID request))]).
Proof.
  intros Hcard. unfold PaymentWorkflowV2. unfold_workflow. simpl in *.
  rewrite selectLoop_fraud_card, Hcard. reflexivity.
Qed.

Lemma PaymentWorkflowV2_card_check_error_declines_witness :
  fst (run (PaymentWorkflowV2 payment75) cardCheckFailsEnv)
  = Some (Some {| PaymentResult.TransactionID := "";
                  PaymentResult.Status := "DECLINED";
                  PaymentResult.ProcessedAt := 0;
                  PaymentResult.ErrorMessage := "" |}, None).
Proof.
  by rewrite (PaymentWorkflowV2_card_check_error_declines cardCheckFailsEnv payment75
                cardServiceError eq_refl).
Defined.

(** X13. When the v2 fraud check itself fails, its error is dropped and
    the risk score keeps its zero value: with a valid card the workflow
    goes on to charge, and the outcome of the charge decides the run. *)
Theorem PaymentWorkflowV2_fraud_check_error_charges (env : Env)
  (request : PaymentRequest.t) (err : error) :
  perform env (CheckFraudV2 request) = Err err →
  perform env (ValidateCard (PaymentRequest.CustomerID request)) = Ok true →
  run (PaymentWorkflowV2 request) env
  = (Some match perform env (ChargePaymentMethodV2 request) with
          | Ok charge =>
              (Some {| PaymentResult.TransactionID := ChargeResult.TransactionID charge;
                       PaymentResult.Status := "APPROVED";
                       PaymentResult.ProcessedAt := now env;
                       PaymentResult.ErrorMessage := "" |}, None)
          | Err chargeErr => (None, Some chargeErr)
          end,
     [ScheduleActivity paymentOptionsV2 (CheckFraudV2 request);
      ScheduleActivity paymentOptionsV2
        (ValidateCard (PaymentRequest.CustomerID request));
      ScheduleActivity paymentOptionsV2 (ChargePaymentMethodV2 request)]).
Proof.
  intros Hfraud Hcard. unfold PaymentWorkflowV2. unfold_workflow.
  simpl in *. rewrite selectLoop_fraud_card, Hfraud, Hcard. simpl.
  by destruct (perform env (ChargePaymentMethodV2 request)).
Qed.

Lemma PaymentWorkflowV2_fraud_check_error_charges_witness :
  fst (run (PaymentWorkflowV2 payment75) fraudCheckFailsEnv)
  = Some (Some {| PaymentResult.TransactionID := "TXN-0";
                  PaymentResult.Status := "APPROVED";
                  PaymentResult.ProcessedAt := 1700000000 * Second;
                  PaymentResult.ErrorMessage := "" |}, None).
Proof.
  by rewrite (PaymentWorkflowV2_fraud_check_error_charges fraudCheckFailsEnv payment75
                fraudServiceError eq_refl eq_refl).
Defined.

(** ** Security scan workflow *)

(** Counting from [count] adds the number of findings of the severity,
    as long as the 64-bit counter cannot wrap. *)
Lemma countBySeverity_from_count (severity : string) (vulns : list Vulnerability.t) :
  ∀ count,
    0 ≤ count →
    count + Z.of_nat (length vulns) ≤ int_max →
    countBySeverity_from count vulns severity
    = count + Z.of_nat (severityCount vulns severity).
Proof.
  unfold severityCount.
  induction vulns as [|v rest IH]; intros count Hpos Hbound; simpl in *; [lia |].
  destruct (Vulnerability.Severity v =? severity)%string; simpl.
  - unfold int_incr. destruct (Z.gtb_spec (count + 1) int_max) as [Hgt | Hle]; [lia |].
    rewrite IH by lia. lia.
  - rewrite IH by lia. lia.
Qed.

Lemma countBySeverity_severityCount (vulns : list Vulnerability.t) (severity : string) :
  Z.of_nat (length vulns) ≤ int_max →
  countBySeverity vulns severity = Z.of_nat (severityCount vulns severity).
Proof.
  intros Hbound. unfold countBySeverity.
  rewrite countBySeverity_from_count by (unfold int_max in *; lia). lia.
Qed.

Lemma severityCount_positive (vulns : list Vulnerability.t) (severity : string) :
  Z.of_nat (severityCount vulns severity) > 0
  ↔ ∃ v, v ∈ vulns ∧ Vulnerability.Severity v = severity.
Proof.
  rewrite <- findsSeverity_spec. unfold severityCount.
  induction vulns as [|v rest IH]; simpl; [split; [lia | discriminate] |].
  destruct (Vulnerability.Severity v =? severity)%string; simpl; [| exact IH].
  split; [done | lia].
Qed.

(** X14. [countBySeverity] counts the findings of the given severity; the
    count lies between 0 and the length of the list (for lists short of
    2^63 entries, where the 64-bit counter cannot wrap). *)
Theorem countBySeverity_counts (vulns : list Vulnerability.t) (severity : string) :
  Z.of_nat (length vulns) ≤ int_max →
  countBySeverity vulns severity = Z.of_nat (severityCount vulns severity)
  ∧ 0 ≤ countBySeverity vulns severity ≤ Z.of_nat (length vulns)
  ∧ (countBySeverity vulns severity > 0
     ↔ ∃ v, v ∈ vulns ∧ Vulnerability.Severity v = severity).
Proof.
  intros Hbound. rewrite countBySeverity_severityCount by done.
  split; [done |].
  assert (Hle : (severityCount vulns severity ≤ length vulns)%nat).
  { unfold severityCount. apply List.filter_length_le. }
  split; [lia |].
  apply severityCount_positive.
Qed.

Lemma countBySeverity_counts_witness :
  countBySeverity [lodashVuln; criticalVuln; criticalVuln] "critical" = 2
  ∧ countBySeverity [] "critical" = 0.
Proof.
  split.
  - by rewrite (proj1 (countBySeverity_counts [lodashVuln; criticalVuln; criticalVuln]
                         "critical" ltac:(vm_compute; discriminate))).
  - by rewrite (proj1 (countBySeverity_counts [] "critical"
                         ltac:(vm_compute; discriminate))).
Defined.

(** X15. The security scan workflow never fails: every run returns a
    result and a nil error.  Without the permission the status is
    PERMISSION_DENIED and nothing is scheduled; with it the status is the
    one [determineStatus] derives from the vulnerabilities returned, and
    the completion time is the workflow time. *)
Theorem SecurityScanWorkflow_never_fails (env : Env) (request : SecurityScanRequest.t)
  (agentCtx : AgentContext.t) :
  ∃ r history,
    run (SecurityScanWorkflow request agentCtx) env = ((Some r, None), history)
    ∧ if hasPermission (AgentContext.Permissions agentCtx) "security:scan:execute"
      then SecurityScanResult.Status r
           = determineStatus (SecurityScanResult.Vulnerabilities r)
           ∧ SecurityScanResult.CompletedAt r = now env
           ∧ scheduled "GenerateSecurityReport" history
      else SecurityScanResult.Status r = "PERMISSION_DENIED"
           ∧ SecurityScanResult.Vulnerabilities r = []
           ∧ history = [].
Proof.
  destruct (hasPermission _ _) eqn:Hperm.
  - rewrite SecurityScanWorkflow_run by done. cbv zeta.
    do 2 eexists. split; [reflexivity |]. simpl. split; [done |]. split; [done |].
    eexists _, (GenerateSecurityReport _). split; [| done].
    apply elem_of_app. right. left.
  - unfold SecurityScanWorkflow. rewrite Hperm. simpl.
    do 2 eexists. split; [reflexivity |]. done.
Qed.

(** The fan-out consults the environment only for the outcome of the four
    scan activities on the request. *)
Lemma dispatchScans_env (env env' : Env) (request : SecurityScanRequest.t)
  (scanTypes : list string) :
  perform env' (RunSASTScan request) = perform env (RunSASTScan request) →
  perform env' (RunDASTScan request) = perform env (RunDASTScan request) →
  perform env' (RunDependencyScan request) = perform env (RunDependencyScan request) →
  perform env' (RunSecretsScan request) = perform env (RunSecretsScan request) →
  ∀ futures history,
    dispatchScans request scanTypes futures env' history
    = dispatchScans request scanTypes futures env history.
Proof.
  intros Hsast Hdast Hdep Hsecrets.
  induction scanTypes as [|scanType rest IH]; intros futures history; [done |].
  cbn [dispatchScans]. unfold_workflow.
  destruct (scanType =? "sast")%string; [cbn; rewrite Hsast; apply IH |].
  destruct (scanType =? "dast")%string; [cbn; rewrite Hdast; apply IH |].
  destruct (scanType =? "dependency")%string; [cbn; rewrite Hdep; apply IH |].
  destruct (scanType =? "secrets")%string; [cbn; rewrite Hsecrets; apply IH |].
  cbn. apply IH.
Qed.

(** X16. In a permitted run the report is generated from exactly the
    vulnerabilities the workflow returns, with the report options.  Its
    outcome only fills in the scan id and the report URL of the result,
    and the scan id handed to the compliance notification: on success they
    are the report's, on failure both are empty.  A second run in which
    only the report may end differently (same outcomes of the scans of
    the request, same clock, same iteration order) returns the same
    status, vulnerabilities and completion time with no error, and has
    the same history up to the scan id in the notification. *)
Theorem SecurityScanWorkflow_report (env env' : Env) (request : SecurityScanRequest.t)
  (agentCtx : AgentContext.t) :
  hasPermission (AgentContext.Permissions agentCtx) "security:scan:execute" = true →
  perform env' (RunSASTScan request) = perform env (RunSASTScan request) →
  perform env' (RunDASTScan request) = perform env (RunDASTScan request) →
  perform env' (RunDependencyScan request) = perform env (RunDependencyScan request) →
  perform env' (RunSecretsScan request) = perform env (RunSecretsScan request) →
  now env' = now env →
  (∀ entries, rangeOrder env' entries = rangeOrder env entries) →
  ∃ r history,
    run (SecurityScanWorkflow request agentCtx) env = ((Some r, None), history)
    ∧ ScheduleActivity reportOptions
        (GenerateSecurityReport (SecurityScanResult.Vulnerabilities r)) ∈ history
    ∧ match perform env (GenerateSecurityReport (SecurityScanResult.Vulnerabilities r)) with
      | Ok report =>
          SecurityScanResult.ScanID r = ReportResult.ReportID report
          ∧ SecurityScanResult.ReportURL r = ReportResult.URL report
      | Err _ =>
          SecurityScanResult.ScanID r = "" ∧ SecurityScanResult.ReportURL r = ""
      end
    ∧ ∃ r' scans,
        run (SecurityScanWorkflow request agentCtx) env'
        = ((Some r', None),
           (scans
            ++ ScheduleActivity reportOptions
                 (GenerateSecurityReport (SecurityScanResult.Vulnerabilities r))
               :: notifyCommands agentCtx
                    {| ReportResult.ReportID := SecurityScanResult.ScanID r';
                       ReportResult.URL := SecurityScanResult.ReportURL r' |}
                    (countBySeverity (SecurityScanResult.Vulnerabilities r)
                       "critical"))%list)
        ∧ history
          = (scans
             ++ ScheduleActivity reportOptions
                  (GenerateSecurityReport (SecurityScanResult.Vulnerabilities r))
                :: notifyCommands agentCtx
                     {| ReportResult.ReportID := SecurityScanResult.ScanID r;
                        ReportResult.URL := SecurityScanResult.ReportURL r |}
                     (countBySeverity (SecurityScanResult.Vulnerabilities r)
                        "critical"))%list
        ∧ SecurityScanResult.Status r' = SecurityScanResult.Status r
        ∧ SecurityScanResult.Vulnerabilities r' = SecurityScanResult.Vulnerabilities r
        ∧ SecurityScanResult.CompletedAt r' = SecurityScanResult.CompletedAt r.
Proof.
  intros Hperm Hsast Hdast Hdep Hsecrets Hnow Hrange.
  rewrite !SecurityScanWorkflow_run by done. cbv zeta.
  rewrite (dispatchScans_env env env' request _ Hsast Hdast Hdep Hsecrets), Hrange, Hnow.
  set (all := collectResults _ []).
  do 2 eexists. split; [reflexivity |]. cbn.
  split; [apply elem_of_app; right; left |].
  destruct (perform env' (GenerateSecurityReport all)) as [[scanID' url'] | err'];
    destruct (perform env (GenerateSecurityReport all)) as [[scanID url] | err];
    cbn; (split; [done |]);
    match goal with
    | |- ∃ r' scans, (Some ?returned, _, _) = _ ∧ _ =>
        exists returned,
          (snd (dispatchScans request (SecurityScanRequest.ScanTypes request) ∅ env []))
    end;
    (split; [reflexivity |]); (split; [reflexivity | done]).
Qed.

Lemma SecurityScanWorkflow_report_witness :
  ∃ history,
    run (SecurityScanWorkflow (scanRequest ["dependency"]) (agent001 ["security:*"]))
      (mockedScanEnv ["dependency"])
    = ((Some {| SecurityScanResult.ScanID := "SEC-0";
                SecurityScanResult.Status := "FAILED_CRITICAL";
                SecurityScanResult.Vulnerabilities := [criticalVuln];
                SecurityScanResult.CompletedAt := 1700000000 * Second;
                SecurityScanResult.ReportURL :=
                  "https://security.example.com/reports/SEC-0" |}, None), history)
    ∧ fst (run (SecurityScanWorkflow (scanRequest ["dependency"])
                  (agent001 ["security:*"])) reportFailsEnv)
      = (Some {| SecurityScanResult.ScanID := "";
                 SecurityScanResult.Status := "FAILED_CRITICAL";
                 SecurityScanResult.Vulnerabilities := [criticalVuln];
                 SecurityScanResult.CompletedAt := 1700000000 * Second;
                 SecurityScanResult.ReportURL := "" |}, None).
Proof.
  destruct (SecurityScanWorkflow_report (mockedScanEnv ["dependency"]) reportFailsEnv
              (scanRequest ["dependency"]) (agent001 ["security:*"])
              eq_refl eq_refl eq_refl eq_refl eq_refl eq_refl (λ entries, eq_refl))
    as (r & history & Hrun & _ & _ & r' & scans & Hrun' & _ & Hstatus & Hvulns & Htime).
  exists history. rewrite Hrun, Hrun'. vm_compute in Hrun. injection Hrun as <- <-.
  split; [reflexivity |].
  cbn [fst]. destruct r' as [scanID status vulns completedAt url].
  cbn in Hstatus, Hvulns, Htime. subst status vulns completedAt.
  vm_compute in Hrun'. by injection Hrun' as <- <-.
Defined.

(** X17. The compliance team is notified exactly when the status is
    FAILED_CRITICAL; the notification is scheduled after the report and
    carries the number of critical findings, the scan id of the result
    and the id of the agent. *)
Theorem SecurityScanWorkflow_notifies_iff_critical (env : Env)
  (request : SecurityScanRequest.t) (agentCtx : AgentContext.t) :
  hasPermission (AgentContext.Permissions agentCtx) "security:scan:execute" = true →
  ∃ r history,
    run (SecurityScanWorkflow request agentCtx) env = ((Some r, None), history)
    ∧ (Z.of_nat (length (SecurityScanResult.Vulnerabilities r)) ≤ int_max →
       (scheduled "NotifyComplianceTeam" history
        ↔ SecurityScanResult.Status r = "FAILED_CRITICAL")
       ∧ ∀ options notification,
           ScheduleActivity options (NotifyComplianceTeam notification) ∈ history →
           options = scanOptions
           ∧ notification
             = {| NotificationRequest.Type_ := "CRITICAL_VULNERABILITIES";
                  NotificationRequest.Count :=
                    Z.of_nat (severityCount (SecurityScanResult.Vulnerabilities r)
                                "critical");
                  NotificationRequest.ScanID := SecurityScanResult.ScanID r;
                  NotificationRequest.AgentID := AgentContext.AgentID agentCtx |}).
Proof.
  intros Hperm. rewrite SecurityScanWorkflow_run by done. cbv zeta.
  destruct (dispatchScans _ _ _ _ _) as [futures history0] eqn:Hfanout. simpl fst. simpl snd.
  set (all := collectResults (rangeOrder env (map_to_list futures)) []).
  set (report := (Get (perform env (GenerateSecurityReport all)) ReportResult.zero).1).
  do 2 eexists. split; [reflexivity |]. simpl. intros Hbound.
  pose proof (countBySeverity_severityCount all "critical" Hbound) as Hcount.
  pose proof (severityCount_positive all "critical") as Hpos.
  rewrite <- Hcount in Hpos.
  assert (Hfanout_names : ∀ options a,
             ScheduleActivity options a ∈ history0 →
             activityName a ≠ "NotifyComplianceTeam").
  { intros options a Hin Hname.
    assert (Hn : "NotifyComplianceTeam" ∈ commandName <$> history0).
    { apply list_elem_of_fmap. eexists. split; [| exact Hin]. by rewrite <- Hname. }
    replace history0
      with (snd (dispatchScans request (SecurityScanRequest.ScanTypes request) ∅ env []))
      in Hn by (by rewrite Hfanout).
    rewrite dispatchScans_names in Hn. simpl in Hn.
    apply list_elem_of_fmap in Hn as (scanType & Hname' & _).
    unfold scanActivityName in Hname'.
    repeat (destruct (_ =? _)%string in Hname'; [discriminate Hname' |]).
    discriminate Hname'. }
  assert (Hstatus : determineStatus all = "FAILED_CRITICAL" ↔ countBySeverity all "critical" > 0).
  { rewrite Hpos, <- findsSeverity_spec. unfold determineStatus.
    destruct (findsSeverity "critical" all); [done |].
    split; [| discriminate].
    destruct (findsSeverity "high" all); [discriminate |].
    destruct (0 <? _); discriminate. }
  unfold notifyCommands, scheduled. split.
  - rewrite Hstatus. destruct (Z.gtb_spec (countBySeverity all "critical") 0) as [Hgt | Hle].
    + split; [lia |]. intros _. eexists _, (NotifyComplianceTeam _).
      split; [| done]. apply elem_of_app. right. right. left.
    + split; [| lia]. intros (options & a & Hin & Hname).
      apply elem_of_app in Hin as [Hin | Hin]; [by destruct (Hfanout_names _ _ Hin) |].
      in_history Hin. injection Hin as -> ->. discriminate Hname.
  - intros options notification Hin.
    apply elem_of_app in Hin as [Hin | Hin]; [by destruct (Hfanout_names _ _ Hin) |].
    apply elem_of_cons in Hin as [Hin | Hin]; [discriminate Hin |].
    destruct (countBySeverity all "critical" >? 0); [| by apply elem_of_nil in Hin].
    apply list_elem_of_singleton in Hin. injection Hin as -> ->.
    split; [done |]. by rewrite Hcount.
Qed.

Lemma SecurityScanWorkflow_notifies_iff_critical_witness :
  scheduled "NotifyComplianceTeam"
    (snd (run (SecurityScanWorkflow (scanRequest ["dependency"]) (agent001 ["security:*"]))
            reportFailsEnv)).
Proof.
  destruct (SecurityScanWorkflow_notifies_iff_critical reportFailsEnv
              (scanRequest ["dependency"]) (agent001 ["security:*"]) eq_refl)
    as (r & history & Hrun & Hnotify).
  rewrite Hrun. simpl. vm_compute in Hrun. injection Hrun as <- <-.
  apply Hnotify; [vm_compute; discriminate | reflexivity].
Defined.

(** One iteration of the fan-out loop stores the outcome of the activity
    it schedules under the scan type, or changes nothing. *)
Lemma dispatchScans_step (env : Env) (request : SecurityScanRequest.t)
  (scanType : string) (rest : list string)
  (futures : gmap string (Future ScanTypeResult.t)) (history : list Command) :
  ∃ history',
    dispatchScans request (scanType :: rest) futures env history
    = dispatchScans request rest
        match scanOutcome env request scanType with
        | Some future => <[scanType := future]> futures
        | None => futures
        end env history'.
Proof.
  unfold scanOutcome. simpl. unfold_workflow.
  destruct (String.eqb_spec scanType "sast") as [-> | _]; simpl; [by eexists |].
  destruct (String.eqb_spec scanType "dast") as [-> | _]; simpl; [by eexists |].
  destruct (String.eqb_spec scanType "dependency") as [-> | _]; simpl; [by eexists |].
  destruct (String.eqb_spec scanType "secrets") as [-> | _]; simpl; by eexists.
Qed.

(** What the fan-out loop leaves in the futures map: under a recognised
    scan type that was requested, the outcome of its activity; every other
    key keeps what it had. *)
Lemma dispatchScans_lookup (env : Env) (request : SecurityScanRequest.t)
  (scanTypes : list string) :
  ∀ (futures : gmap string (Future ScanTypeResult.t)) history (k : string),
    fst (dispatchScans request scanTypes futures env history) !! k
    = match scanOutcome env request k with
      | Some future => if bool_decide (k ∈ scanTypes) then Some future else futures !! k
      | None => futures !! k
      end.
Proof.
  induction scanTypes as [|scanType rest IH]; intros futures history k.
  { simpl. by destruct (scanOutcome env request k). }
  destruct (dispatchScans_step env request scanType rest futures history)
    as [history' ->].
  rewrite IH. destruct (decide (k = scanType)) as [-> | Hne].
  - rewrite (bool_decide_eq_true_2 (scanType ∈ scanType :: rest)) by left.
    destruct (scanOutcome env request scanType) as [future |]; [| done].
    rewrite lookup_insert_eq. by destruct (bool_decide _).
  - assert (Hrest : bool_decide (k ∈ scanType :: rest) = bool_decide (k ∈ rest)).
    { apply bool_decide_ext. rewrite elem_of_cons. tauto. }
    rewrite Hrest.
    destruct (scanOutcome env request scanType) as [future |]; [| done].
    by rewrite lookup_insert_ne.
Qed.

(** X18. The vulnerabilities the workflow returns are exactly the findings
    of the scans that were requested, are recognised and succeeded: a
    failed scan contributes nothing, and nothing is returned that no
    successful requested scan reported. *)
Theorem SecurityScanWorkflow_findings (env : Env) (request : SecurityScanRequest.t)
  (agentCtx : AgentContext.t) :
  hasPermission (AgentContext.Permissions agentCtx) "security:scan:execute" = true →
  range_visits_each_once env →
  ∃ r, fst (run (SecurityScanWorkflow request agentCtx) env) = (Some r, None)
       ∧ ∀ v, v ∈ SecurityScanResult.Vulnerabilities r
              ↔ ∃ scanType scanResult,
                  scanType ∈ SecurityScanRequest.ScanTypes request
                  ∧ scanOutcome env request scanType = Some (Ok scanResult)
                  ∧ v ∈ ScanTypeResult.Vulnerabilities scanResult.
Proof.
  intros Hperm Hrange. rewrite SecurityScanWorkflow_run by done. cbv zeta.
  eexists. split; [reflexivity |]. simpl. intros v.
  rewrite collectResults_flat_map. simpl.
  rewrite (Permutation_flat_map scanFindings (Hrange _)).
  rewrite list_elem_of_In, in_flat_map. split.
  - intros ([scanType future] & Hentry%list_elem_of_In & Hv%list_elem_of_In).
    apply elem_of_map_to_list in Hentry. rewrite dispatchScans_lookup in Hentry.
    unfold scanFindings in Hv. simpl in Hv.
    destruct future as [scanResult | err]; [| by apply elem_of_nil in Hv].
    exists scanType, scanResult.
    destruct (scanOutcome env request scanType) as [future |] eqn:Houtcome;
      [| by rewrite lookup_empty in Hentry].
    destruct (bool_decide _) eqn:Hin; [| by rewrite lookup_empty in Hentry].
    apply bool_decide_eq_true_1 in Hin. injection Hentry as ->. done.
  - intros (scanType & scanResult & Hin & Houtcome & Hv).
    exists (scanType, Ok scanResult). split; [| by apply list_elem_of_In].
    apply list_elem_of_In, elem_of_map_to_list. rewrite dispatchScans_lookup, Houtcome.
    by rewrite bool_decide_eq_true_2.
Qed.

Lemma SecurityScanWorkflow_findings_witness :
  ∃ r, fst (run (SecurityScanWorkflow (scanRequest ["sast"; "dependency"; "dependency"])
                   (agent001 ["security:scan:execute"])) sastFailsEnv)
       = (Some r, None)
       ∧ lodashVuln ∈ SecurityScanResult.Vulnerabilities r.
Proof.
  destruct (SecurityScanWorkflow_findings sastFailsEnv
              (scanRequest ["sast"; "dependency"; "dependency"])
              (agent001 ["security:scan:execute"]) eq_refl
              (λ entries, Permutation_refl entries))
    as (r & Hrun & Hfindings).
  exists r. split; [exact Hrun |]. apply Hfindings.
  exists "dependency". eexists. split; [right; left |]. split; [reflexivity |]. left.
Defined.

Lemma dispatchScans_unrecognised (env : Env) (request : SecurityScanRequest.t)
  (scanTypes : list string) :
  List.filter recognised scanTypes = [] →
  ∀ futures history,
    dispatchScans request scanTypes futures env history = (futures, history).
Proof.
  induction scanTypes as [|scanType rest IH]; intros Hnone futures history; [done |].
  simpl in *. unfold_workflow. unfold recognised in Hnone at 1.
  destruct (scanType =? "sast")%string; [discriminate Hnone |].
  destruct (scanType =? "dast")%string; [discriminate Hnone |].
  destruct (scanType =? "dependency")%string; [discriminate Hnone |].
  destruct (scanType =? "secrets")%string; [discriminate Hnone |].
  simpl in *. by apply IH.
Qed.

(** X19. A permitted request that names no recognised scan type (an empty
    list, or only unknown strings) runs no scan: the workflow generates
    the report for an empty list of findings and returns PASSED. *)
Theorem SecurityScanWorkflow_nothing_to_scan (env : Env)
  (request : SecurityScanRequest.t) (agentCtx : AgentContext.t) :
  hasPermission (AgentContext.Permissions agentCtx) "security:scan:execute" = true →
  range_visits_each_once env →
  List.filter recognised (SecurityScanRequest.ScanTypes request) = [] →
  ∃ r, run (SecurityScanWorkflow request agentCtx) env
       = ((Some r, None), [ScheduleActivity reportOptions (GenerateSecurityReport [])])
       ∧ SecurityScanResult.Status r = "PASSED"
       ∧ SecurityScanResult.Vulnerabilities r = [].
Proof.
  intros Hperm Hrange Hnone. rewrite SecurityScanWorkflow_run by done. cbv zeta.
  rewrite dispatchScans_unrecognised by done. simpl. rewrite map_to_list_empty.
  assert (Hnil : rangeOrder env [] = []) by (apply Permutation_nil_r, Hrange).
  rewrite Hnil. simpl. eexists. split; [reflexivity |]. done.
Qed.

Lemma SecurityScanWorkflow_nothing_to_scan_witness :
  ∃ r, fst (run (SecurityScanWorkflow (scanRequest ["SAST"; "lint"])
                   (agent001 ["security:scan:execute"])) stubEnv)
       = (Some r, None)
       ∧ SecurityScanResult.Status r = "PASSED".
Proof.
  destruct (SecurityScanWorkflow_nothing_to_scan stubEnv (scanRequest ["SAST"; "lint"])
              (agent001 ["security:scan:execute"]) eq_refl
              (λ entries, Permutation_refl entries) eq_refl)
    as (r & Hrun & Hstatus & _).
  exists r. rewrite Hrun. split; [reflexivity | exact Hstatus].
Defined.

(** ** Permission checks *)

(** X20. The Go permission check depends only on which tokens the caller
    holds, not on their order or repetition, and holding more tokens never
    takes a permission away. *)
Theorem hasPermission_monotone (permissions permissions' : list string)
  (required : string) :
  (∀ p, p ∈ permissions → p ∈ permissions') →
  hasPermission permissions required = true →
  hasPermission permissions' required = true.
Proof.
  intros Hsub. rewrite !hasPermission_spec. intros [H | H]; [left | right]; auto.
Qed.

Lemma hasPermission_monotone_witness :
  hasPermission ["read"; "security:scan:execute"; "read"] "security:scan:execute" = true.
Proof.
  apply (hasPermission_monotone ["security:scan:execute"; "read"]); [| reflexivity].
  intros p Hp. apply elem_of_cons in Hp as [-> | Hp]; [right; left |].
  apply list_elem_of_singleton in Hp as ->. left.
Defined.

(** X21. For a token of the security category, the Go check of the scan
    workflow and the TypeScript check of the agent context grant the same
    callers. *)
Theorem hasPermission_agrees_with_context (context : Context.AgentContext)
  (required : string) :
  Context.includes_colon required = true →
  Context.split_colon_head required = "security" →
  hasPermission (Context.permissions context) required
  = Context.contextHasPermission context required.
Proof.
  intros Hcolon Hhead. apply eq_true_iff_eq.
  rewrite hasPermission_spec. unfold Context.contextHasPermission.
  rewrite Hcolon, Hhead. simpl.
  change (String.append "security" ":*") with "security:*".
  destruct (Context.includes (Context.permissions context) "security:*") eqn:Hwild.
  - apply includes_spec in Hwild. split; [done | intros _; by right].
  - rewrite includes_spec. split; [| by left].
    intros [H | H]; [done |]. apply includes_spec in H. congruence.
Qed.

Lemma hasPermission_agrees_with_context_witness :
  hasPermission ["read"; "security:*"] "security:scan:execute"
  = Context.contextHasPermission
      {| Context.agentId := "agent-001"; Context.sessionId := "session-xyz";
         Context.permissions := ["read"; "security:*"];
         Context.createdAt := 0; Context.expiresAt := 0 |}
      "security:scan:execute".
Proof.
  exact (hasPermission_agrees_with_context
           {| Context.agentId := "agent-001"; Context.sessionId := "session-xyz";
              Context.permissions := ["read"; "security:*"];
              Context.createdAt := 0; Context.expiresAt := 0 |}
           "security:scan:execute" eq_refl eq_refl).
Defined.

(** X22. In the agent context a wildcard grants exactly its category: a
    context that holds only "category:*" is granted a token if and only if
    the token begins with "category:". *)
Theorem contextHasPermission_wildcard_exact (context : Context.AgentContext)
  (category permission : string) :
  Context.includes_colon category = false →
  Context.permissions context = [(category ++ ":*")%string] →
  Context.contextHasPermission context permission = true
  ↔ ∃ rest, permission = (category ++ ":" ++ rest)%string.
Proof.
  intros Hcategory Hperms. unfold Context.contextHasPermission. rewrite Hperms.
  assert (Hwild : ∀ s, Context.includes [(category ++ ":*")%string] s = true
                       ↔ s = (category ++ ":*")%string).
  { intros s. rewrite includes_spec. apply list_elem_of_singleton. }
  assert (Hsplit : ∀ s, Context.includes_colon s = false →
                        Context.split_colon_head (s ++ ":*") = s).
  { intros s Hs. exact (proj1 (split_colon_head_app s "*" Hs)). }
  split.
  - destruct (Context.includes_colon permission) eqn:Hcolon; cbn [andb].
    + destruct (Context.includes [(category ++ ":*")%string]
                  (String.append (Context.split_colon_head permission) ":*"))
        eqn:Hgrant.
      * intros _. apply Hwild in Hgrant.
        assert (Hhead : Context.split_colon_head permission = category).
        { transitivity (Context.split_colon_head (category ++ ":*")%string).
          - rewrite <- Hgrant. symmetry. apply Hsplit, includes_colon_split_head.
          - by apply Hsplit. }
        destruct (split_colon_head_prefix permission Hcolon) as [rest Hrest].
        exists rest. by rewrite <- Hhead.
      * intros H%Hwild. by exists "*".
    + intros H%Hwild. by exists "*".
  - intros [rest ->].
    destruct (split_colon_head_app category rest Hcategory) as [-> ->]. cbn [andb].
    by rewrite (proj2 (Hwild (category ++ ":*")%string) eq_refl).
Qed.

Lemma contextHasPermission_wildcard_exact_witness :
  Context.contextHasPermission
    {| Context.agentId := "agent-001"; Context.sessionId := "session-xyz";
       Context.permissions := ["workflow:*"];
       Context.createdAt := 0; Context.expiresAt := 0 |}
    "workflow:trigger" = true.
Proof.
  apply (contextHasPermission_wildcard_exact
           {| Context.agentId := "agent-001"; Context.sessionId := "session-xyz";
              Context.permissions := ["workflow:*"];
              Context.createdAt := 0; Context.expiresAt := 0 |}
           "workflow" "workflow:trigger" eq_refl eq_refl).
  by exists "trigger".
Defined.

(** * The TypeScript agent layer *)

Ltac unfold_agents :=
  unfold Agents.register, Agents.getAgent, Agents.hasPermission, Agents.revoke,
    Agents.generateAgentId, Agents.generateRequestId, Agents.isContextValid,
    Agents.agentsGet, Agents.agentsSet, Agents.print, Agents.DateNow,
    Agents.MathRandomText, Agents.throw, Agents.setAgents,
    mbind, Agents.M_mbind, Agents.M_bind, mret, Agents.M_mret, Agents.M_ret in *.

(** ** The registry *)

Lemma validatePermissions_ok (permissions : list string) (w : Agents.World) :
  (∀ perm, perm ∈ permissions → perm ∈ Agents.validPermissions) →
  Agents.validatePermissions permissions w = (Agents.Returned tt, w).
Proof.
  induction permissions as [|perm rest IH]; intros Hvalid; [done |].
  cbn [Agents.validatePermissions].
  rewrite (proj2 (includes_spec _ perm)) by (apply Hvalid; left). cbn [negb].
  apply IH. intros p Hp. apply Hvalid. by right.
Qed.

Lemma validatePermissions_throws (permissions : list string) (w : Agents.World) :
  (∃ perm, perm ∈ permissions ∧ perm ∉ Agents.validPermissions) →
  ∃ perm, Agents.validatePermissions permissions w
          = (Agents.Thrown (String.append "Invalid permission: " perm), w)
          ∧ perm ∈ permissions ∧ perm ∉ Agents.validPermissions.
Proof.
  induction permissions as [|p rest IH]; intros (perm & Hin & Hbad).
  { by apply elem_of_nil in Hin. }
  cbn [Agents.validatePermissions].
  destruct (Context.includes Agents.validPermissions p) eqn:Hp; cbn [negb].
  - apply includes_spec in Hp.
    apply elem_of_cons in Hin as [-> | Hin]; [done |].
    destruct IH as (q & Hq & Hqin & Hqbad); [by exists perm |].
    exists q. split; [done |]. split; [by right | done].
  - exists p. split; [done |]. split; [left |].
    intros H. apply includes_spec in H. congruence.
Qed.

(** X23. Registration stores nothing unless every permission is one the
    registry knows: with a permission outside the list, [register] throws
    "Invalid permission: ..." naming a permission that is indeed invalid,
    and leaves the registered agents and the console as they were. *)
Theorem register_rejects_invalid (config : Agents.AgentConfig) (w : Agents.World) :
  (∃ perm, perm ∈ Agents.permissions config ∧ perm ∉ Agents.validPermissions) →
  ∃ perm w',
    Agents.register config w
    = (Agents.Thrown (String.append "Invalid permission: " perm), w')
    ∧ perm ∈ Agents.permissions config
    ∧ (perm ∉ Agents.validPermissions)
    ∧ Agents.agents w' = Agents.agents w
    ∧ Agents.console w' = Agents.console w.
Proof.
  intros Hbad. unfold_agents. simpl.
  match goal with |- context [Agents.validatePermissions _ ?w1] =>
    destruct (validatePermissions_throws _ w1 Hbad) as (perm & -> & Hin & Hperm) end.
  exists perm. eexists. split; [reflexivity |]. done.
Qed.

Lemma register_rejects_invalid_witness :
  ∃ perm, fst (Agents.register overreaching freshWorld)
          = Agents.Thrown (String.append "Invalid permission: " perm)
          ∧ perm ∉ Agents.validPermissions.
Proof.
  destruct (register_rejects_invalid overreaching freshWorld)
    as (perm & w' & Hrun & _ & Hbad & _).
  - exists "admin". split; [right; right; left |].
    intros H. apply includes_spec in H. discriminate H.
  - exists perm. rewrite Hrun. split; [reflexivity | exact Hbad].
Defined.

(** X24. A registration whose permissions are all valid returns the new
    agent and stores it under its generated id: looking the id up
    afterwards finds the agent with the configuration that was registered,
    and the agents registered under other ids are untouched. *)
Theorem register_then_lookup (config : Agents.AgentConfig) (w : Agents.World) :
  (∀ perm, perm ∈ Agents.permissions config → perm ∈ Agents.validPermissions) →
  ∃ agent w',
    Agents.register config w = (Agents.Returned agent, w')
    ∧ Agents.config agent = config
    ∧ Agents.agents w' !! Agents.id agent = Some agent
    ∧ (∀ other, other ≠ Agents.id agent →
         Agents.agents w' !! other = Agents.agents w !! other)
    ∧ (∃ found w'',
         Agents.getAgent (Agents.id agent) w' = (Agents.Returned (Some found), w'')
         ∧ Agents.id found = Agents.id agent
         ∧ Agents.config found = config
         ∧ Agents.registeredAt found = Agents.registeredAt agent).
Proof.
  intros Hvalid. unfold_agents. simpl.
  rewrite validatePermissions_ok by done. simpl.
  do 2 eexists. split; [reflexivity |]. simpl.
  split; [done |]. split; [by rewrite lookup_insert_eq |].
  split; [intros other Hne; by rewrite lookup_insert_ne |].
  rewrite lookup_insert_eq. simpl. do 2 eexists. split; [reflexivity |]. done.
Qed.

Lemma register_then_lookup_witness :
  ∃ agent w',
    Agents.register claudeCode freshWorld = (Agents.Returned agent, w')
    ∧ Agents.agents w' !! Agents.id agent = Some agent.
Proof.
  destruct (register_then_lookup claudeCode freshWorld) as (agent & w' & Hrun & _ & Hget & _).
  - intros perm Hperm. apply includes_spec.
    repeat (apply elem_of_cons in Hperm as [-> | Hperm]; [reflexivity |]).
    by apply elem_of_nil in Hperm.
  - by exists agent, w'.
Defined.

Lemma prefix_app (s1 : string) :
  ∀ s2, String.prefix s1 s2 = true ↔ ∃ rest, s2 = String.append s1 rest.
Proof.
  induction s1 as [|a s1 IH]; intros s2.
  - split; [intros _; by exists s2 | intros _; by destruct s2].
  - destruct s2 as [|b s2]; cbn [String.prefix String.append].
    + split; [discriminate | intros [rest H]; discriminate H].
    + destruct (ascii_dec a b) as [<- | Hne].
      * rewrite IH. split.
        -- intros [rest ->]. by exists rest.
        -- intros [rest H]. exists rest. by injection H.
      * split; [discriminate | intros [rest H]; by injection H].
Qed.

Lemma startsWith_security (permission : string) :
  Agents.startsWith permission "security:" = true
  ↔ ∃ rest, permission = String.append "security:" rest.
Proof. apply prefix_app. Qed.

(** X25. For an agent whose permissions passed the registry's validation,
    the registry's [hasPermission] and the context's
    [contextHasPermission] grant exactly the same permissions: the only
    wildcard the validation lets through is "security:*", which both
    scope to the security category. *)
Theorem registry_agrees_with_context (w : Agents.World) (agentId : string)
  (agent : Agents.RegisteredAgent) (context : Context.AgentContext)
  (permission : string) :
  Agents.agents w !! agentId = Some agent →
  (∀ perm, perm ∈ Agents.permissions (Agents.config agent) →
           perm ∈ Agents.validPermissions) →
  Context.permissions context = Agents.permissions (Agents.config agent) →
  Agents.hasPermission agentId permission w
  = (Agents.Returned (Context.contextHasPermission context permission), w).
Proof.
  intros Hagent Hvalid Hperms. unfold_agents. rewrite Hagent.
  unfold Context.contextHasPermission. rewrite Hperms.
  set (perms := Agents.permissions (Agents.config agent)) in *.
  assert (Hwild :
    Context.includes_colon permission
    && Context.includes perms (String.append (Context.split_colon_head permission) ":*")
    = Context.includes perms "security:*" && Agents.startsWith permission "security:").
  { apply eq_true_iff_eq. rewrite !andb_true_iff, !includes_spec, startsWith_security.
    split.
    - intros [Hcolon Hin].
      destruct (split_colon_head_prefix permission Hcolon) as [rest Hrest].
      pose proof (proj1 (split_colon_head_app (Context.split_colon_head permission) "*"
                           (includes_colon_split_head permission))) as Hhead.
      pose proof (Hvalid _ Hin) as Hv.
      repeat (apply elem_of_cons in Hv as [Hv | Hv];
              [ change (String.append ?a ":*") with (a ++ ":" ++ "*")%string in Hv;
                rewrite Hv in Hhead; simpl in Hhead;
                rewrite <- Hhead in Hv; try discriminate Hv |]).
      + split; [| exists rest; by rewrite Hrest, <- Hhead].
        change (String.append ?a ":*") with (a ++ ":" ++ "*")%string in Hin.
        by rewrite <- Hhead in Hin.
      + by apply elem_of_nil in Hv.
    - intros [Hin [rest ->]]. split; [reflexivity | exact Hin]. }
  rewrite Hwild.
  by destruct (Context.includes perms "security:*"
               && Agents.startsWith permission "security:").
Qed.

Lemma registry_agrees_with_context_witness :
  fst (Agents.hasPermission "agent-scanner-loyw3v28-4fzyo8" "security:scan:execute"
         scannerWorld) = Agents.Returned true
  ∧ fst (Agents.hasPermission "agent-scanner-loyw3v28-4fzyo8" "workflow:trigger"
           scannerWorld) = Agents.Returned false.
Proof.
  assert (Hstored : Agents.agents scannerWorld !! "agent-scanner-loyw3v28-4fzyo8"
                    = Some scannerAgent) by reflexivity.
  assert (Hvalid : ∀ perm, perm ∈ Agents.permissions (Agents.config scannerAgent) →
                           perm ∈ Agents.validPermissions).
  { intros perm Hperm. apply includes_spec.
    repeat (apply elem_of_cons in Hperm as [-> | Hperm]; [reflexivity |]).
    by apply elem_of_nil in Hperm. }
  split.
  - by rewrite (registry_agrees_with_context scannerWorld _ scannerAgent
                  scannerContext "security:scan:execute" Hstored Hvalid eq_refl).
  - by rewrite (registry_agrees_with_context scannerWorld _ scannerAgent
                  scannerContext "workflow:trigger" Hstored Hvalid eq_refl).
Defined.

(** X26. Revocation is effective and idempotent: [revoke] reports whether
    the agent was registered; afterwards the agent is unknown to
    [getAgent], holds no permission at all, a second [revoke] reports
    false, and the other agents are untouched. *)
Theorem revoke_removes (agentId : string) (w : Agents.World) :
  ∃ w',
    Agents.revoke agentId w
    = (Agents.Returned (bool_decide (is_Some (Agents.agents w !! agentId))), w')
    ∧ Agents.getAgent agentId w' = (Agents.Returned None, w')
    ∧ (∀ permission,
         Agents.hasPermission agentId permission w' = (Agents.Returned false, w'))
    ∧ fst (Agents.revoke agentId w') = Agents.Returned false
    ∧ (∀ other, other ≠ agentId →
         Agents.agents w' !! other = Agents.agents w !! other).
Proof.
  unfold_agents. simpl. eexists. split; [reflexivity |]. simpl.
  rewrite lookup_delete_eq. split; [done |]. split; [done |].
  split.
  - reflexivity.
  - intros other Hne. by apply lookup_delete_ne.
Qed.

(** ** Middleware *)

Ltac unfold_middleware :=
  unfold Agents.composeMiddleware, Agents.authMiddleware, Agents.requirePermission,
    Agents.loggingMiddleware, Agents.tryCatch, Agents.newIndex, Agents.readIndex,
    Agents.writeIndex in *;
  unfold_agents.

(** The two ways the permission middleware can go. *)
Lemma requirePermission_cases (requiredPermission : string) (req : Agents.AgentRequest)
  (w : Agents.World) :
  if Context.contextHasPermission (Agents.context req) requiredPermission
  then ∀ next, Agents.requirePermission requiredPermission req next w = next w
  else ∃ requestId w',
      (∀ next, Agents.requirePermission requiredPermission req next w
               = (Agents.Returned
                    {| Agents.success := false; Agents.data := None;
                       Agents.error :=
                         Some (String.append "Permission denied: " requiredPermission);
                       Agents.requestId := requestId |}, w'))
      ∧ Agents.agents w' = Agents.agents w
      ∧ Agents.console w' = Agents.console w.
Proof.
  unfold Context.contextHasPermission, Agents.requirePermission.
  destruct (Context.includes (Context.permissions (Agents.context req)) requiredPermission);
    [by destruct (_ && _) |].
  destruct (_ && _); [done |].
  unfold_agents. simpl. do 2 eexists. split; [intros next; reflexivity |]. done.
Qed.

(** The ways the authentication middleware can go: it passes the request
    on, having stamped the agent as active, when the agent is registered
    and the clock has not reached the expiry of the session. *)
Lemma authMiddleware_cases (req : Agents.AgentRequest) (w : Agents.World) :
  let admitted :=
    is_Some (Agents.agents w !! Context.agentId (Agents.context req))
    ∧ Agents.wallClock w (S (Agents.clockReads w))
      < Context.expiresAt (Agents.context req) in
  (admitted →
   ∃ w1, (∀ next, Agents.authMiddleware req next w = next w1)
         ∧ Agents.console w1 = Agents.console w
         ∧ Agents.indexCells w1 = Agents.indexCells w
         ∧ ∀ other, other ≠ Context.agentId (Agents.context req) →
                    Agents.agents w1 !! other = Agents.agents w !! other)
  ∧ (¬ admitted →
     ∃ response w',
       (∀ next, Agents.authMiddleware req next w = (Agents.Returned response, w'))
       ∧ Agents.success response = false
       ∧ Agents.console w' = Agents.console w).
Proof.
  unfold_middleware. simpl.
  destruct (Agents.agents w !! Context.agentId (Agents.context req))
    as [agent |] eqn:Hagent; simpl.
  2: { split; [intros [[? [=]] _] |]. intros _.
       do 2 eexists. split; [intros next; reflexivity |]. done. }
  destruct (Z.ltb_spec (Agents.wallClock w (S (Agents.clockReads w)))
              (Context.expiresAt (Agents.context req))) as [Hvalid | Hexpired]; simpl.
  - split; [| intros Hnot; destruct Hnot; by eauto]. intros _.
    eexists. split; [intros next; reflexivity |]. simpl.
    split; [done |]. split; [done |].
    intros other Hne. by rewrite lookup_insert_ne.
  - split; [intros [_ ?]; lia |]. intros _.
    do 2 eexists. split; [intros next; reflexivity |]. done.
Qed.

(** [dispatch(i)] with [i] above the recorded index records [i] and runs
    the middleware at position [i], or the handler after the last one. *)
Lemma dispatch_fresh (cell : nat) (rest : list Agents.Middleware) (i : Z)
  (req : Agents.AgentRequest) (finalNext : Agents.NextFunction) (w : Agents.World) :
  default (-1) (Agents.indexCells w !! cell) < i →
  Agents.dispatch cell rest i req finalNext w
  = match rest with
    | [] => finalNext
    | middleware :: rest' =>
        middleware req (Agents.dispatch cell rest' (i + 1) req finalNext)
    end (snd (Agents.writeIndex cell i w)).
Proof.
  intros Hfresh. destruct rest as [|middleware rest'];
    cbn [Agents.dispatch]; unfold mbind, Agents.M_mbind, Agents.M_bind, Agents.readIndex;
    cbn [fst snd];
    (destruct (Z.leb_spec i (default (-1) (Agents.indexCells w !! cell))); [lia |]);
    reflexivity.
Qed.

(** [dispatch(i)] with [i] at or below the recorded index throws. *)
Lemma dispatch_stale (cell : nat) (rest : list Agents.Middleware) (i : Z)
  (req : Agents.AgentRequest) (finalNext : Agents.NextFunction) (w : Agents.World) :
  i ≤ default (-1) (Agents.indexCells w !! cell) →
  Agents.dispatch cell rest i req finalNext w
  = (Agents.Thrown "next() called multiple times", w).
Proof.
  intros Hstale. destruct rest as [|middleware rest'];
    cbn [Agents.dispatch]; unfold mbind, Agents.M_mbind, Agents.M_bind, Agents.readIndex;
    cbn [fst snd];
    (destruct (Z.leb_spec i (default (-1) (Agents.indexCells w !! cell))); [| lia]);
    reflexivity.
Qed.

(** X27. The permission middleware lets a request through exactly when
    [contextHasPermission] grants the permission to the request's
    context.  A refused request is answered with success false and
    "Permission denied: ..." without running the rest of the chain and
    without touching the registry or the console. *)
Theorem requirePermission_gate (requiredPermission : string) (req : Agents.AgentRequest)
  (next : Agents.NextFunction) (w : Agents.World) :
  if Context.contextHasPermission (Agents.context req) requiredPermission
  then Agents.requirePermission requiredPermission req next w = next w
  else ∃ requestId w',
      (∀ next', Agents.requirePermission requiredPermission req next' w
                = (Agents.Returned
                     {| Agents.success := false; Agents.data := None;
                        Agents.error :=
                          Some (String.append "Permission denied: " requiredPermission);
                        Agents.requestId := requestId |}, w'))
      ∧ Agents.agents w' = Agents.agents w
      ∧ Agents.console w' = Agents.console w.
Proof.
  pose proof (requirePermission_cases requiredPermission req w) as Hcases.
  destruct (Context.contextHasPermission (Agents.context req) requiredPermission);
    [apply Hcases | exact Hcases].
Qed.

(** The world after [composeMiddleware] created its [index] and
    [dispatch] recorded position [i] in it. *)
Lemma writeIndex_lookup (cell : nat) (i : Z) (w : Agents.World) :
  (cell < length (Agents.indexCells w))%nat →
  Agents.indexCells (snd (Agents.writeIndex cell i w)) !! cell = Some i.
Proof. intros Hlt. simpl. by apply list_lookup_insert_eq. Qed.

(** X28. Behind the authentication and permission middlewares the handler
    runs only for a registered agent whose session has not expired and
    whose context holds the permission.  Then the handler's response, or
    its exception, is the pipeline's; otherwise the pipeline answers with
    success false whatever the handler is. *)
Theorem guarded_pipeline (requiredPermission : string) (req : Agents.AgentRequest)
  (handler : Agents.NextFunction) (w : Agents.World) :
  let pipeline :=
    Agents.composeMiddleware
      [Agents.authMiddleware; Agents.requirePermission requiredPermission] in
  let admitted :=
    is_Some (Agents.agents w !! Context.agentId (Agents.context req))
    ∧ Agents.wallClock w (S (Agents.clockReads w)) < Context.expiresAt (Agents.context req)
    ∧ Context.contextHasPermission (Agents.context req) requiredPermission = true in
  (admitted →
   ∃ w1, pipeline req handler w = handler w1
         ∧ Agents.console w1 = Agents.console w
         ∧ ∀ other, other ≠ Context.agentId (Agents.context req) →
                    Agents.agents w1 !! other = Agents.agents w !! other)
  ∧ (¬ admitted →
     ∃ response w',
       (∀ handler', pipeline req handler' w = (Agents.Returned response, w'))
       ∧ Agents.success response = false
       ∧ Agents.console w' = Agents.console w).
Proof.
  intros pipeline admitted. subst pipeline admitted.
  set (cell := length (Agents.indexCells w)).
  set (wa := snd (Agents.newIndex (-1) w)).
  assert (Hcompose : ∀ h,
    Agents.composeMiddleware
      [Agents.authMiddleware; Agents.requirePermission requiredPermission] req h w
    = Agents.authMiddleware req
        (Agents.dispatch cell [Agents.requirePermission requiredPermission] (0 + 1) req h)
        (snd (Agents.writeIndex cell 0 wa))).
  { intros h. unfold Agents.composeMiddleware.
    change ((Agents.newIndex (-1)
             ≫= λ c, Agents.dispatch c
                       [Agents.authMiddleware;
                        Agents.requirePermission requiredPermission] 0 req h) w)
      with (Agents.dispatch cell
              [Agents.authMiddleware; Agents.requirePermission requiredPermission]
              0 req h wa).
    rewrite dispatch_fresh; [done |].
    subst wa cell. simpl. by rewrite lookup_app_r, Nat.sub_diag. }
  set (wb := snd (Agents.writeIndex cell 0 wa)) in *.
  assert (Hwb : Agents.agents wb = Agents.agents w
                ∧ Agents.console wb = Agents.console w
                ∧ Agents.wallClock wb = Agents.wallClock w
                ∧ Agents.clockReads wb = Agents.clockReads w
                ∧ Agents.indexCells wb !! cell = Some 0
                ∧ (cell < length (Agents.indexCells wb))%nat).
  { subst wb wa cell. simpl. rewrite length_insert, length_app. simpl.
    repeat split; try lia. apply list_lookup_insert_eq. rewrite length_app. simpl. lia. }
  destruct Hwb as (Hagents & Hconsole & Hclock & Hreads & Hcell & Hlen).
  pose proof (authMiddleware_cases req wb) as Hcases. cbv zeta in Hcases.
  destruct Hcases as [Hpass Hrefuse].
  rewrite Hagents, Hclock, Hreads in Hpass, Hrefuse.
  split.
  - intros (Hregistered & Hvalid & Hpermitted).
    destruct (Hpass (conj Hregistered Hvalid)) as (w1 & Hauth & Hconsole1 & Hcells1 & Hothers1).
    pose proof (requirePermission_cases requiredPermission req
                  (snd (Agents.writeIndex cell (0 + 1) w1))) as Hgate.
    rewrite Hpermitted in Hgate.
    eexists. split.
    + rewrite Hcompose, Hauth.
      rewrite dispatch_fresh by (rewrite Hcells1, Hcell; simpl; lia).
      rewrite Hgate.
      rewrite dispatch_fresh; [reflexivity |].
      rewrite writeIndex_lookup by (by rewrite Hcells1). simpl. lia.
    + simpl. split; [by rewrite Hconsole1 |].
      exact Hothers1.
  - intros Hnot.
    destruct (decide (is_Some (Agents.agents w !! Context.agentId (Agents.context req))
                      ∧ Agents.wallClock w (S (Agents.clockReads w))
                        < Context.expiresAt (Agents.context req)))
      as [Hadmitted | Hrefused].
    + destruct (Hpass Hadmitted) as (w1 & Hauth & Hconsole1 & Hcells1 & _).
      pose proof (requirePermission_cases requiredPermission req
                    (snd (Agents.writeIndex cell (0 + 1) w1))) as Hgate.
      destruct (Context.contextHasPermission (Agents.context req) requiredPermission);
        [destruct Hnot; tauto |].
      destruct Hgate as (requestId & w' & Hdenied & _ & Hconsole').
      do 2 eexists. split.
      { intros h. rewrite Hcompose, Hauth.
        rewrite dispatch_fresh by (rewrite Hcells1, Hcell; simpl; lia).
        apply Hdenied. }
      split; [reflexivity |].
      rewrite Hconsole'. simpl. by rewrite Hconsole1.
    + destruct (Hrefuse Hrefused) as (response & w' & Hauth & Hfailed & Hconsole').
      exists response, w'. split; [| split; [done | by rewrite Hconsole']].
      intros h. rewrite Hcompose. apply Hauth.
Qed.

Lemma guarded_pipeline_witness :
  fst (Agents.composeMiddleware
         [Agents.authMiddleware; Agents.requirePermission "security:scan:execute"]
         scannerRequest okHandler scannerWorld)
  = Agents.Returned
      {| Agents.success := true; Agents.data := Some (Agents.JSString "done");
         Agents.error := None; Agents.requestId := "req-handler" |}.
Proof.
  destruct (guarded_pipeline "security:scan:execute" scannerRequest okHandler scannerWorld)
    as [Hadmitted _].
  destruct Hadmitted as (w1 & -> & _).
  - split; [by eexists |]. split; [reflexivity | reflexivity].
  - reflexivity.
Defined.

(** X29. [composeMiddleware] lets a middleware call [next()] once: a
    second call, after the rest of the chain has returned, throws
    "next() called multiple times", and the handler is not run again. *)
Theorem composeMiddleware_refuses_second_next (req : Agents.AgentRequest)
  (handler : Agents.NextFunction) (w : Agents.World) :
  ∃ w0,
    Agents.indexCells w0 = (Agents.indexCells w ++ [1])%list
    ∧ Agents.agents w0 = Agents.agents w
    ∧ Agents.console w0 = Agents.console w
    ∧ ∀ outcome w1,
        handler w0 = (outcome, w1) →
        Agents.indexCells w1 = Agents.indexCells w0 →
        Agents.composeMiddleware [callsNextTwice] req handler w
        = match outcome with
          | Agents.Returned _ => (Agents.Thrown "next() called multiple times", w1)
          | Agents.Thrown message => (Agents.Thrown message, w1)
          end.
Proof.
  set (cell := length (Agents.indexCells w)).
  set (wa := snd (Agents.newIndex (-1) w)).
  set (wb := snd (Agents.writeIndex cell 0 wa)).
  set (w0 := snd (Agents.writeIndex cell (0 + 1) wb)).
  assert (Hcells : Agents.indexCells w0 = (Agents.indexCells w ++ [1])%list).
  { subst w0 wb wa cell. simpl. rewrite list_insert_insert_eq.
    rewrite insert_app_r_alt by done. by rewrite Nat.sub_diag. }
  exists w0. split; [exact Hcells |]. split; [done |]. split; [done |].
  intros outcome w1 Hrun Hkept.
  unfold Agents.composeMiddleware.
  change ((Agents.newIndex (-1)
           ≫= λ c, Agents.dispatch c [callsNextTwice] 0 req handler) w)
    with (Agents.dispatch cell [callsNextTwice] 0 req handler wa).
  rewrite dispatch_fresh
    by (subst wa cell; simpl; rewrite lookup_app_r, Nat.sub_diag by done; simpl; lia).
  unfold callsNextTwice at 1.
  unfold mbind, Agents.M_mbind, Agents.M_bind.
  rewrite dispatch_fresh.
  2: { subst wb wa cell. simpl. rewrite list_lookup_insert_eq; [simpl; lia |].
       rewrite length_app. simpl. lia. }
  fold wb. fold w0. rewrite Hrun.
  destruct outcome as [response | message]; [| done].
  apply dispatch_stale. rewrite Hkept, Hcells.
  subst cell. rewrite lookup_app_r, Nat.sub_diag by done. simpl. lia.
Qed.

Lemma composeMiddleware_refuses_second_next_witness :
  fst (Agents.composeMiddleware [callsNextTwice] scannerRequest okHandler scannerWorld)
  = Agents.Thrown "next() called multiple times".
Proof.
  destruct (composeMiddleware_refuses_second_next scannerRequest okHandler scannerWorld)
    as (w0 & _ & _ & _ & Hrun).
  by rewrite (Hrun _ w0 eq_refl eq_refl).
Defined.

(** X30. The logging middleware is transparent.  It prints one line and
    runs the rest of the chain; the response it returns has the fields of
    the chain's response with a request id of its own, and an exception of
    the chain is thrown again with its message.  It prints one more line
    after the chain, with [console.log] for a response and with
    [console.error] for an exception, and leaves the registry as the chain
    left it. *)
Theorem loggingMiddleware_transparent (req : Agents.AgentRequest)
  (next : Agents.NextFunction) (w : Agents.World) :
  ∃ requestId start w0,
    Agents.agents w0 = Agents.agents w
    ∧ Agents.console w0 = (Agents.console w ++ [Agents.ConsoleLog start])%list
    ∧ Agents.indexCells w0 = Agents.indexCells w
    ∧ ∀ outcome w1,
        next w0 = (outcome, w1) →
        ∃ line w2,
          Agents.loggingMiddleware req next w
          = (match outcome with
             | Agents.Returned response =>
                 Agents.Returned
                   {| Agents.success := Agents.success response;
                      Agents.data := Agents.data response;
                      Agents.error := Agents.error response;
                      Agents.requestId := requestId |}
             | Agents.Thrown message => Agents.Thrown message
             end, w2)
          ∧ Agents.agents w2 = Agents.agents w1
          ∧ Agents.indexCells w2 = Agents.indexCells w1
          ∧ Agents.console w2 = (Agents.console w1 ++ [line])%list
          ∧ match outcome with
            | Agents.Returned _ => ∃ printed, line = Agents.ConsoleLog printed
            | Agents.Thrown _ => ∃ printed, line = Agents.ConsoleError printed
            end.
Proof.
  unfold Agents.loggingMiddleware, Agents.tryCatch, Agents.generateRequestId.
  unfold_agents. cbn [fst snd].
  do 2 eexists.
  match goal with |- context [next ?afterStart] => exists afterStart end.
  split; [reflexivity |]. split; [reflexivity |]. split; [reflexivity |].
  intros outcome w1 Hrun. cbn [Agents.agents Agents.console Agents.indexCells] in Hrun |- *.
  rewrite Hrun.
  destruct outcome as [response | message]; cbn [fst snd];
    do 2 eexists; (split; [reflexivity |]); cbn; repeat split; by eexists.
Qed.

Lemma loggingMiddleware_transparent_witness :
  fst (Agents.loggingMiddleware scannerRequest failingHandler scannerWorld)
  = Agents.Thrown "Workflow execution not implemented in demo".
Proof.
  destruct (loggingMiddleware_transparent scannerRequest failingHandler scannerWorld)
    as (requestId & start & w0 & _ & _ & _ & Hrun).
  destruct (Hrun (Agents.Thrown "Workflow execution not implemented in demo") w0 eq_refl)
    as (line & w2 & -> & _).
  reflexivity.
Defined.
